(** * Lossless batch image merger: geometry of the merge

    A shallow embedding of the two merge pipelines of the application:
    the server route [POST] of [src/app/api/merge/route.ts] and the
    browser pipeline [mergeImagesClient] of [src/app/page.tsx].

    JavaScript numbers are modelled by [number]: an exact integer, one of
    the two infinities, or NaN.  All image dimensions are integers, and the
    arithmetic of the pipelines (sums, maxima, products, floor division)
    stays within the integers whenever its operands are finite, so no
    rounding of doubles is involved below 2^53. *)

From Stdlib Require Import ZArith List String Ascii Bool Lia.
Import ListNotations.
Open Scope string_scope.
Open Scope Z_scope.

(** ** JavaScript primitives used by the two pipelines *)

Module JS.

Inductive number : Type :=
| Int (z : Z)
| Infinity (negative : bool)
| NaN.

(** ToBoolean on a number: NaN and (both) zeros are falsy. *)
Definition truthy (n : number) : bool :=
  match n with
  | Int z => negb (z =? 0)
  | Infinity _ => true
  | NaN => false
  end.

(** [a || b] on numbers. *)
Definition or_else (a b : number) : number :=
  if truthy a then a else b.

(** [a * b]. *)
Definition mul (a b : number) : number :=
  match a, b with
  | NaN, _ | _, NaN => NaN
  | Int x, Int y => Int (x * y)
  | Infinity s, Int y =>
      if y =? 0 then NaN else Infinity (xorb s (y <? 0))
  | Int x, Infinity s =>
      if x =? 0 then NaN else Infinity (xorb s (x <? 0))
  | Infinity s, Infinity t => Infinity (xorb s t)
  end.

(** [Math.floor(a / b)] for an integer [a]: the quotient rounded down;
    division by zero gives an infinity, 0/0 is NaN, and a quotient by an
    infinity is zero. *)
Definition floor_div (a : Z) (b : number) : number :=
  match b with
  | Int y =>
      if y =? 0
      then (if a =? 0 then NaN else Infinity (a <? 0))
      else Int (a / y)
  | Infinity _ => Int 0
  | NaN => NaN
  end.

(** [a % b] for an integer [a]: the remainder has the sign of the
    dividend; [a % 0] is NaN and [a % Infinity] is [a]. *)
Definition rem (a : Z) (b : number) : number :=
  match b with
  | Int y => if y =? 0 then NaN else Int (Z.rem a y)
  | Infinity _ => Int a
  | NaN => NaN
  end.

(** [Math.max(...xs)]: with no argument the result is -Infinity. *)
Definition Math_max (xs : list Z) : number :=
  match xs with
  | [] => Infinity true
  | x :: r => Int (fold_left Z.max r x)
  end.

(** [xs.reduce((sum, x) => sum + x, 0)]. *)
Definition reduce_sum (xs : list Z) : Z :=
  fold_left (fun sum x => sum + x) xs 0.

(** *** [parseInt] with no radix argument

    Strings are sequences of ASCII characters.  Leading white space is
    skipped, an optional sign is read, a [0x]/[0X] prefix selects radix
    16, and the longest prefix of digits of the radix is converted; with
    no digit the result is NaN.  The value is the exact integer: neither
    the rounding to a double of integers beyond 2^53 nor the overflow to
    an infinity of integers beyond the range of doubles is modelled.
    The properties below are stated on the number a text parses to,
    whichever it is, or bound the integer it parses to. *)

Definition is_whitespace (c : ascii) : bool :=
  let n := N_of_ascii c in
  ((n =? 9) || (n =? 10) || (n =? 11) || (n =? 12) || (n =? 13)
   || (n =? 32))%N.

Fixpoint trim_start (s : string) : string :=
  match s with
  | String c r => if is_whitespace c then trim_start r else s
  | EmptyString => s
  end.

Definition digit_value (c : ascii) : option Z :=
  let n := Z.of_N (N_of_ascii c) in
  if (48 <=? n) && (n <=? 57) then Some (n - 48)
  else if (97 <=? n) && (n <=? 122) then Some (n - 87)
  else if (65 <=? n) && (n <=? 90) then Some (n - 55)
  else None.

Fixpoint parse_digits (R : Z) (s : string) (acc : option Z) : option Z :=
  match s with
  | String c r =>
      match digit_value c with
      | Some d =>
          if d <? R
          then parse_digits R r
                 (Some (R * match acc with Some a => a | None => 0 end + d))
          else acc
      | None => acc
      end
  | EmptyString => acc
  end.

Definition strip_sign (s : string) : Z * string :=
  match s with
  | String "-" r => (-1, r)
  | String "+" r => (1, r)
  | _ => (1, s)
  end.

Definition strip_prefix (s : string) : Z * string :=
  match s with
  | String "0" (String "x" r) => (16, r)
  | String "0" (String "X" r) => (16, r)
  | _ => (10, s)
  end.

Definition parseInt (s : string) : number :=
  let (sign, S) := strip_sign (trim_start s) in
  let (R, Z') := strip_prefix S in
  match parse_digits R Z' None with
  | None => NaN
  | Some mathInt => Int (sign * mathInt)
  end.

End JS.

(** ** The image codec

    The server delegates decoding, rotation, resizing and encoding to the
    sharp library, which is not part of the repository.  Only what the
    route observes of it is modelled: the dimensions it reports, the
    argument checks that raise, and the dimensions of what it encodes. *)

Module Sharp.

Import JS.

Record Dimensions : Type := { width : Z; height : Z }.

(** An encoded image as uploaded: the pixel dimensions stored in its
    header and its EXIF orientation tag (1 to 8, or 0 when absent). *)
Record Buffer : Type := { header : Dimensions; orientation : Z }.

(** The dimensions once the EXIF orientation is applied: tags 5 to 8 are
    the quarter-turn orientations, which exchange width and height. *)
Definition oriented (b : Buffer) : Dimensions :=
  if (5 <=? orientation b) && (orientation b <=? 8)
  then {| width := height (header b); height := width (header b) |}
  else header b.

(** Options recorded by [resize(width, height, { fit: 'inside',
    withoutEnlargement })]; the route passes no other [fit]. *)
Record Resize : Type :=
  { box_width : option Z;
    box_height : option Z;
    withoutEnlargement : bool }.

(** A sharp instance: the input and the operations queued on it. *)
Record Pipeline : Type :=
  { input : Buffer;
    useExifOrientation : bool;
    resizing : option Resize }.

Inductive result (A : Type) : Type :=
| Ok (a : A)
| Throw (message : string).
Arguments Ok {A} a.
Arguments Throw {A} message.

(** [sharp(buffer, { limitInputPixels: false, unlimited: true })] *)
Definition sharp (b : Buffer) : Pipeline :=
  {| input := b; useExifOrientation := false; resizing := None |}.

(** [.rotate()] with no angle: queue the EXIF auto-orientation. *)
Definition rotate (p : Pipeline) : Pipeline :=
  {| input := input p; useExifOrientation := true; resizing := resizing p |}.

(** A width or height argument of [resize]: [None] is [undefined] or
    [null]; a number must be a positive integer, anything else raises. *)
Definition check_dimension (name : string) (a : option number)
  : result (option Z) :=
  match a with
  | None => Ok None
  | Some (Int z) =>
      if 0 <? z then Ok (Some z)
      else Throw ("Expected positive integer for " ++ name)
  | Some _ => Throw ("Expected positive integer for " ++ name)
  end.

(** [.resize(width, height, { fit: 'inside', withoutEnlargement })] *)
Definition resize (p : Pipeline) (w h : option number) (noEnlarge : bool)
  : result Pipeline :=
  match check_dimension "width" w with
  | Throw m => Throw m
  | Ok w' =>
      match check_dimension "height" h with
      | Throw m => Throw m
      | Ok h' =>
          Ok {| input := input p;
                useExifOrientation := useExifOrientation p;
                resizing := Some {| box_width := w';
                                    box_height := h';
                                    withoutEnlargement := noEnlarge |} |}
      end
  end.

(** [.metadata()] reads the header of the input image.  It does not take
    into consideration the operations queued on the pipeline: the width
    and height it reports are those stored in the file, whatever the
    EXIF orientation and whether or not [rotate()] was called. *)
Definition metadata (p : Pipeline) : Dimensions := header (input p).

(** Modelled from the spec: the rounding of the proportional axis,
    [a / b] rounded to the nearest integer, for positive [b]. *)
Definition round_div (a b : Z) : Z := (2 * a + b) / (2 * b).

(** Modelled from the spec: the free axis, scaled proportionally, when
    the bound axis goes from [natural] to [target]; it is a positive
    integer. *)
Definition scaled (other target natural : Z) : Z :=
  Z.max 1 (round_div (other * target) natural).

(** Modelled from the spec: the single-axis constrained scale to the
    width [W], and to the height [H] below. *)
Definition to_width (d : Dimensions) (W : Z) (noEnlarge : bool)
  : Dimensions :=
  if noEnlarge && (width d <=? W) then d
  else {| width := W; height := scaled (height d) W (width d) |}.

(** Modelled from the spec: the single-axis constrained scale to the
    height [H]. *)
Definition to_height (d : Dimensions) (H : Z) (noEnlarge : bool)
  : Dimensions :=
  if noEnlarge && (height d <=? H) then d
  else {| width := scaled (width d) H (height d); height := H |}.

(** Modelled from the spec: the resize primitive of the delegated codec,
    [resize(handle, targetW?, targetH?, fit: "inside", allowEnlarge)],
    which lives in the sharp library and not in the repository.  The
    image is scaled to fit entirely inside the requested box, preserving
    the aspect ratio; one given axis is a single-axis constrained scale,
    two given axes a bounding-box fit; without enlargement an image
    already inside the box keeps its natural size. *)
Definition fit_inside (d : Dimensions) (r : Resize) : Dimensions :=
  match box_width r, box_height r with
  | None, None => d
  | Some W, None => to_width d W (withoutEnlargement r)
  | None, Some H => to_height d H (withoutEnlargement r)
  | Some W, Some H =>
      if W * height d <=? H * width d
      then to_width d W (withoutEnlargement r)
      else to_height d H (withoutEnlargement r)
  end.

(** Dimensions of what the pipeline produces: orientation first, then
    the resize. *)
Definition output_dimensions (p : Pipeline) : Dimensions :=
  let d := if useExifOrientation p then oriented (input p)
           else header (input p) in
  match resizing p with
  | None => d
  | Some r => fit_inside d r
  end.

(** [.png().toBuffer()]: the encoded result carries no orientation tag. *)
Definition toBuffer (p : Pipeline) : Buffer :=
  {| header := output_dimensions p; orientation := 0 |}.

(** [sharp({ create: { width, height, channels: 4, background } })]
    raises unless width and height are positive integers. *)
Definition create (w h : number) : result unit :=
  match w, h with
  | Int x, Int y =>
      if (0 <? x) && (0 <? y) then Ok tt
      else Throw "Expected valid width, height and channels"
  | _, _ => Throw "Expected valid width, height and channels"
  end.

(** [.composite(ops)] raises unless every given offset is an integer. *)
Definition is_integer (n : number) : bool :=
  match n with Int _ => true | _ => false end.

End Sharp.

(** ** The server route: [POST] of [src/app/api/merge/route.ts] *)

Module Server.

Import JS.
Import Sharp.

(** What [formData.get(name)] returns: [null], a string, or a file.  A
    file is represented by its content. *)
Inductive Entry : Type :=
| null
| Str (s : string)
| File (content : Buffer).

Definition FormData : Type := list (string * Entry).

Fixpoint get (name : string) (formData : FormData) : Entry :=
  match formData with
  | [] => null
  | (key, value) :: rest =>
      if String.eqb key name then value else get name rest
  end.

(** ToString, as applied by [parseInt] to its argument. *)
Definition toString (v : Entry) : string :=
  match v with
  | null => "null"
  | Str s => s
  | File _ => "[object File]"
  end.

(** ToBoolean: [null] and the empty string are falsy. *)
Definition given (v : Entry) : bool :=
  match v with
  | null => false
  | Str s => negb (String.eqb s "")
  | File _ => true
  end.

(** [v === s] for a string literal [s]. *)
Definition equals (v : Entry) (s : string) : bool :=
  match v with
  | Str t => String.eqb t s
  | _ => false
  end.

(** Lines 14-15: [parseInt(formData.get(name) as string) || 2]. *)
Definition grid_parameter (name : string) (formData : FormData) : number :=
  or_else (parseInt (toString (get name formData))) (Int 2).

(** Lines 20-25: the entries whose key starts with [image-] and whose
    value is a file, in order. *)
Fixpoint collect_files (formData : FormData) : list Buffer :=
  match formData with
  | [] => []
  | (key, File f) :: rest =>
      if String.prefix "image-" key then f :: collect_files rest
      else collect_files rest
  | _ :: rest => collect_files rest
  end.

Record ProcessedImage : Type :=
  { buffer : Buffer; width : Z; height : Z }.

Record CompositeOp : Type :=
  { op_input : Buffer; left : number; top : number }.

(** Calls made to the codec, in the order the route makes them. *)
Inductive Event : Type :=
| Metadata (p : Pipeline)
| ToBuffer (p : Pipeline)
| Create (w h : number)
| Composite (ops : list CompositeOp)
| Output.

Inductive Response : Type :=
| Json (status : Z) (error : string)
| Png (canvasWidth canvasHeight : number) (ops : list CompositeOp).

(** Computations that log codec calls and may raise. *)
Definition M (A : Type) : Type := list Event * result A.

Definition ret {A} (a : A) : M A := ([], Ok a).

Definition bind {A B} (m : M A) (k : A -> M B) : M B :=
  match m with
  | (log, Throw e) => (log, Throw e)
  | (log, Ok a) => let (log', r) := k a in ((log ++ log')%list, r)
  end.

Definition emit (e : Event) : M unit := ([e], Ok tt).

Definition lift {A} (r : result A) : M A := ([], r).

Notation "x <- m ;; k" := (bind m (fun x => k))
  (at level 100, m at next level, right associativity).

(** [Promise.all(xs.map(f))], the calls taken one image after the other.
    A callback of the route that raises does so in [resize], before its
    first codec call and for every image alike, so that stopping at the
    first failure loses no event. *)
Fixpoint all {A B} (f : A -> M B) (xs : list A) : M (list B) :=
  match xs with
  | [] => ret []
  | x :: rest =>
      y <- f x ;;
      ys <- all f rest ;;
      ret (y :: ys)
  end.

(** Lines 40-52, first pass: the dimensions of one image. *)
Definition first_pass (b : Buffer) : M Dimensions :=
  let image := rotate (sharp b) in
  _ <- emit (Metadata image) ;;
  let metadata := metadata image in
  ret {| Sharp.width := Sharp.width metadata;
         Sharp.height := Sharp.height metadata |}.

(** Lines 55-62: the target of the alignment, [None] being [undefined]. *)
Definition targetWidth (alignDimension : Entry)
  (imageDimensions : list Dimensions) : option number :=
  if equals alignDimension "width"
  then Some (Math_max (map Sharp.width imageDimensions))
  else None.

Definition targetHeight (alignDimension : Entry)
  (imageDimensions : list Dimensions) : option number :=
  if equals alignDimension "width" then None
  else if equals alignDimension "height"
  then Some (Math_max (map Sharp.height imageDimensions))
  else None.

Definition truthy_opt (n : option number) : bool :=
  match n with
  | None => false
  | Some x => truthy x
  end.

(** Lines 67-98: the pipeline built for one image. *)
Definition plan (resizeWidth resizeHeight : Entry)
  (targetWidth targetHeight : option number) (b : Buffer)
  : result Pipeline :=
  let image := sharp b in
  let image := rotate image in
  if given resizeWidth || given resizeHeight then
    let width := if given resizeWidth
                 then Some (parseInt (toString resizeWidth)) else None in
    let height := if given resizeHeight
                  then Some (parseInt (toString resizeHeight)) else None in
    resize image width height true
  else if truthy_opt targetWidth then
    resize image targetWidth None false
  else if truthy_opt targetHeight then
    resize image None targetHeight false
  else Ok image.

(** Lines 66-111, second pass: one processed image. *)
Definition process (resizeWidth resizeHeight : Entry)
  (targetWidth targetHeight : option number) (b : Buffer)
  : M ProcessedImage :=
  image <- lift (plan resizeWidth resizeHeight targetWidth targetHeight b) ;;
  _ <- emit (ToBuffer image) ;;
  let processedBuffer := toBuffer image in
  _ <- emit (Metadata (sharp processedBuffer)) ;;
  let processedMetadata := metadata (sharp processedBuffer) in
  ret {| buffer := processedBuffer;
         width := Sharp.width processedMetadata;
         height := Sharp.height processedMetadata |}.

(** Lines 114-129: the canvas. *)
Definition canvas (alignmentMode : Entry) (gridRows gridCols : number)
  (processedImages : list ProcessedImage) : number * number :=
  if equals alignmentMode "horizontal" then
    (Int (reduce_sum (map width processedImages)),
     Math_max (map height processedImages))
  else if equals alignmentMode "vertical" then
    (Math_max (map width processedImages),
     Int (reduce_sum (map height processedImages)))
  else if equals alignmentMode "grid" then
    let cellWidth := Math_max (map width processedImages) in
    let cellHeight := Math_max (map height processedImages) in
    (mul cellWidth gridCols, mul cellHeight gridRows)
  else (Int 0, Int 0).

(** Lines 147-155: the loop of the horizontal strip. *)
Fixpoint horizontal_ops (xOffset : Z) (imgs : list ProcessedImage)
  : list CompositeOp :=
  match imgs with
  | [] => []
  | img :: rest =>
      {| op_input := buffer img; left := Int xOffset; top := Int 0 |}
        :: horizontal_ops (xOffset + width img) rest
  end.

(** Lines 157-165: the loop of the vertical strip. *)
Fixpoint vertical_ops (yOffset : Z) (imgs : list ProcessedImage)
  : list CompositeOp :=
  match imgs with
  | [] => []
  | img :: rest =>
      {| op_input := buffer img; left := Int 0; top := Int yOffset |}
        :: vertical_ops (yOffset + height img) rest
  end.

(** Lines 170-178: [forEach((img, index) => ...)] of the grid. *)
Fixpoint grid_ops (cellWidth cellHeight gridCols : number) (index : Z)
  (imgs : list ProcessedImage) : list CompositeOp :=
  match imgs with
  | [] => []
  | img :: rest =>
      let row := floor_div index gridCols in
      let col := rem index gridCols in
      {| op_input := buffer img;
         left := mul col cellWidth;
         top := mul row cellHeight |}
        :: grid_ops cellWidth cellHeight gridCols (index + 1) rest
  end.

(** Lines 144-179: the composite operations. *)
Definition compositeOps (alignmentMode : Entry) (gridCols : number)
  (processedImages : list ProcessedImage) : list CompositeOp :=
  if equals alignmentMode "horizontal" then horizontal_ops 0 processedImages
  else if equals alignmentMode "vertical" then vertical_ops 0 processedImages
  else if equals alignmentMode "grid" then
    let cellWidth := Math_max (map width processedImages) in
    let cellHeight := Math_max (map height processedImages) in
    grid_ops cellWidth cellHeight gridCols 0 processedImages
  else [].

Definition composite (ops : list CompositeOp) : result unit :=
  if forallb (fun op => is_integer (left op) && is_integer (top op)) ops
  then Ok tt
  else Throw "Expected integer for offset".

(** Lines 39-112: the two passes over the uploaded images. *)
Definition processedImages (formData : FormData)
  (imageBuffers : list Buffer) : M (list ProcessedImage) :=
  let resizeWidth := get "resizeWidth" formData in
  let resizeHeight := get "resizeHeight" formData in
  let alignDimension := get "alignDimension" formData in
  imageDimensions <- all first_pass imageBuffers ;;
  let targetWidth := targetWidth alignDimension imageDimensions in
  let targetHeight := targetHeight alignDimension imageDimensions in
  all (process resizeWidth resizeHeight targetWidth targetHeight)
      imageBuffers.

(** Lines 31-194: what runs inside the [try] once files are present. *)
Definition merge (formData : FormData) (imageBuffers : list Buffer)
  : M Response :=
  let alignmentMode := get "alignmentMode" formData in
  let gridRows := grid_parameter "gridRows" formData in
  let gridCols := grid_parameter "gridCols" formData in
  processedImages <- processedImages formData imageBuffers ;;
  let (canvasWidth, canvasHeight) :=
    canvas alignmentMode gridRows gridCols processedImages in
  _ <- emit (Create canvasWidth canvasHeight) ;;
  _ <- lift (create canvasWidth canvasHeight) ;;
  let compositeOps := compositeOps alignmentMode gridCols processedImages in
  _ <- emit (Composite compositeOps) ;;
  _ <- lift (composite compositeOps) ;;
  _ <- emit Output ;;
  ret (Png canvasWidth canvasHeight compositeOps).

(** Lines 10-202.  The empty image set is answered with status 400 before
    anything else; whatever is raised later is caught and answered with
    status 500. *)
Definition POST (formData : FormData) : list Event * Response :=
  let files := collect_files formData in
  if (List.length files =? 0)%nat
  then ([], Json 400 "No images provided")
  else
    match merge formData files with
    | (log, Ok response) => (log, response)
    | (log, Throw _) => (log, Json 500 "Failed to merge images")
    end.

End Server.

(** ** The browser pipeline: [mergeImagesClient] of [src/app/page.tsx] *)

Module Client.

Import JS.
Import Sharp.

(** [type AlignmentMode = 'horizontal' | 'vertical' | 'grid'] *)
Inductive AlignmentMode : Type := horizontal | vertical | grid.

(** The string the mode is, as sent to the server by [mergeImagesServer]. *)
Definition mode_string (m : AlignmentMode) : string :=
  match m with
  | horizontal => "horizontal"
  | vertical => "vertical"
  | grid => "grid"
  end.

(** The loaded image element of an [ImageData], read through
    [img.width] and [img.height]. *)
Record HTMLImageElement : Type := { width : Z; height : Z }.

(** One [ctx.drawImage(img, dx, dy)]. *)
Record DrawImage : Type :=
  { image : HTMLImageElement; dx : number; dy : number }.

(** Lines 150-164: the canvas. *)
Definition canvas (alignmentMode : AlignmentMode) (gridRows gridCols : number)
  (images : list HTMLImageElement) : number * number :=
  match alignmentMode with
  | horizontal =>
      (Int (reduce_sum (map width images)), Math_max (map height images))
  | vertical =>
      (Math_max (map width images), Int (reduce_sum (map height images)))
  | grid =>
      let cellWidth := Math_max (map width images) in
      let cellHeight := Math_max (map height images) in
      (mul cellWidth gridCols, mul cellHeight gridRows)
  end.

(** Lines 175-179. *)
Fixpoint horizontal_draws (xOffset : Z) (images : list HTMLImageElement)
  : list DrawImage :=
  match images with
  | [] => []
  | img :: rest =>
      {| image := img; dx := Int xOffset; dy := Int 0 |}
        :: horizontal_draws (xOffset + width img) rest
  end.

(** Lines 181-185. *)
Fixpoint vertical_draws (yOffset : Z) (images : list HTMLImageElement)
  : list DrawImage :=
  match images with
  | [] => []
  | img :: rest =>
      {| image := img; dx := Int 0; dy := Int yOffset |}
        :: vertical_draws (yOffset + height img) rest
  end.

(** Lines 189-193. *)
Fixpoint grid_draws (cellWidth cellHeight gridCols : number) (index : Z)
  (images : list HTMLImageElement) : list DrawImage :=
  match images with
  | [] => []
  | img :: rest =>
      let row := floor_div index gridCols in
      let col := rem index gridCols in
      {| image := img; dx := mul col cellWidth; dy := mul row cellHeight |}
        :: grid_draws cellWidth cellHeight gridCols (index + 1) rest
  end.

(** Lines 174-194: the drawing calls. *)
Definition draws (alignmentMode : AlignmentMode) (gridCols : number)
  (images : list HTMLImageElement) : list DrawImage :=
  match alignmentMode with
  | horizontal => horizontal_draws 0 images
  | vertical => vertical_draws 0 images
  | grid =>
      let cellWidth := Math_max (map width images) in
      let cellHeight := Math_max (map height images) in
      grid_draws cellWidth cellHeight gridCols 0 images
  end.

(** [a === b] on numbers: NaN is equal to nothing. *)
Definition strict_eq (a b : number) : bool :=
  match a, b with
  | Int x, Int y => x =? y
  | Infinity s, Infinity t => Bool.eqb s t
  | _, _ => false
  end.

Record Merged : Type :=
  { canvasWidth : number; canvasHeight : number; drawn : list DrawImage }.

Section Browser.

(** What the browser provides: whether a 2d context is obtained, the
    value a canvas reports for a dimension after a number is assigned to
    it, and the length of the exported data URL. *)
Variable context : bool.
Variable assigned : number -> number.
Variable dataUrl_length : number -> number -> list DrawImage -> Z.

(** Lines 145-203. *)
Definition mergeImagesClient (alignmentMode : AlignmentMode)
  (gridRows gridCols : number) (images : list HTMLImageElement)
  : result Merged :=
  if negb context then Throw "Could not get canvas context" else
  let (canvasWidth, canvasHeight) :=
    canvas alignmentMode gridRows gridCols images in
  let canvas_width := assigned canvasWidth in
  let canvas_height := assigned canvasHeight in
  if strict_eq canvas_width (Int 0) || strict_eq canvas_height (Int 0)
     || negb (strict_eq canvas_width canvasWidth)
     || negb (strict_eq canvas_height canvasHeight)
  then Throw "Canvas creation failed - size too large"
  else
    let drawn := draws alignmentMode gridCols images in
    if dataUrl_length canvasWidth canvasHeight drawn <? 100
    then Throw "Canvas rendering failed"
    else Ok {| canvasWidth := canvasWidth;
               canvasHeight := canvasHeight;
               drawn := drawn |}.

End Browser.

End Client.

(** ** The page: the [Home] component of [src/app/page.tsx]

    The state of the component, the handlers of its inputs, and the
    dispatch of a merge to the browser pipeline or to the server route. *)

From Stdlib Require DecimalString DecimalZ DecimalPos.

Module Page.

Import JS.
Import Sharp.

(** [n.toString()]: the decimal digits of an integer, with a minus
    sign when negative (integers below 10^21 in magnitude, beyond which
    JavaScript switches to the exponent notation). *)
Definition toString (n : number) : string :=
  match n with
  | Int z => DecimalString.NilZero.string_of_int (Z.to_int z)
  | Infinity false => "Infinity"
  | Infinity true => "-Infinity"
  | NaN => "NaN"
  end.


(** [a > b] on two numbers: false whenever NaN is involved. *)
Definition gt (a b : number) : bool :=
  match a, b with
  | NaN, _ | _, NaN => false
  | Int x, Int y => y <? x
  | Infinity false, Infinity false => false
  | Infinity false, _ => true
  | Infinity true, _ => false
  | Int _, Infinity negative => negative
  end.


(** Lines 414 and 426, the resize inputs:
    [e.target.value === '' ? '' : parseInt(e.target.value) || ''];
    [None] is the empty string. *)
Definition resizeChange (value : string) : option number :=
  if String.eqb value "" then None
  else if truthy (parseInt value) then Some (parseInt value) else None.

(** ['none' | 'width' | 'height'] *)
Inductive AlignDimension : Type := none | by_width | by_height.

Definition dimension_string (a : AlignDimension) : string :=
  match a with
  | none => "none"
  | by_width => "width"
  | by_height => "height"
  end.

(** A file chosen by the user: its media type and its content. *)
Record File : Type := { type : string; content : Buffer }.

(** [interface ImageData] *)
Record ImageData : Type :=
  { file : File; url : string; img : Client.HTMLImageElement }.

(** What [mergedImage] points to: the data URL of the canvas drawn by
    the browser, or the object URL of the body the server answered. *)
Inductive MergedImage : Type :=
| DataUrl (m : Client.Merged)
| BlobUrl (body : Server.Response).

(** Lines 14-22: the state of the component. *)
Record State : Type :=
  { images : list ImageData;
    alignmentMode : Client.AlignmentMode;
    gridRows : number;
    gridCols : number;
    resizeWidth : option number;
    resizeHeight : option number;
    alignDimension : AlignDimension;
    mergedImage : option MergedImage;
    isProcessing : bool }.

Definition initial : State :=
  {| images := [];
     alignmentMode := Client.horizontal;
     gridRows := Int 2;
     gridCols := Int 2;
     resizeWidth := None;
     resizeHeight := None;
     alignDimension := none;
     mergedImage := None;
     isProcessing := false |}.

Definition setImages (l : list ImageData) (s : State) : State :=
  {| images := l;
     alignmentMode := alignmentMode s;
     gridRows := gridRows s;
     gridCols := gridCols s;
     resizeWidth := resizeWidth s;
     resizeHeight := resizeHeight s;
     alignDimension := alignDimension s;
     mergedImage := mergedImage s;
     isProcessing := isProcessing s |}.

Definition setMergedImage (m : option MergedImage) (s : State) : State :=
  {| images := images s;
     alignmentMode := alignmentMode s;
     gridRows := gridRows s;
     gridCols := gridCols s;
     resizeWidth := resizeWidth s;
     resizeHeight := resizeHeight s;
     alignDimension := alignDimension s;
     mergedImage := m;
     isProcessing := isProcessing s |}.

Definition setIsProcessing (b : bool) (s : State) : State :=
  {| images := images s;
     alignmentMode := alignmentMode s;
     gridRows := gridRows s;
     gridCols := gridCols s;
     resizeWidth := resizeWidth s;
     resizeHeight := resizeHeight s;
     alignDimension := alignDimension s;
     mergedImage := mergedImage s;
     isProcessing := b |}.

(** Line 52: [prev.filter((_, i) => i !== index)], from position [i]. *)
Fixpoint filter_index (index i : nat) (prev : list ImageData)
  : list ImageData :=
  match prev with
  | [] => []
  | x :: rest =>
      if (i =? index)%nat then filter_index index (S i) rest
      else x :: filter_index index (S i) rest
  end.

(** Lines 49-54.  The URL of [prev[index]] is revoked first; reading it
    raises when there is no such image.  The result is the revoked URL
    and the new state. *)
Definition removeImage (index : nat) (s : State) : result (string * State) :=
  match nth_error (images s) index with
  | None => Throw "TypeError"
  | Some d => Ok (url d, setImages (filter_index index 0 (images s)) s)
  end.

(** Lines 56-63: the revoked URLs and the new state. *)
Definition clearAll (s : State) : list string * State :=
  (map url (images s), setMergedImage None (setImages [] s)).

(** Lines 116-127: the form sent to the server. *)
Fixpoint image_entries (index : Z) (l : list ImageData) : Server.FormData :=
  match l with
  | [] => []
  | d :: rest =>
      ("image-" ++ toString (Int index), Server.File (content (file d)))
        :: image_entries (index + 1) rest
  end.

Definition optional_entry (name : string) (v : option number)
  : Server.FormData :=
  match v with
  | None => []
  | Some n => [(name, Server.Str (toString n))]
  end.

Definition formData (s : State) : Server.FormData :=
  ([("alignmentMode", Server.Str (Client.mode_string (alignmentMode s)));
    ("gridRows", Server.Str (toString (gridRows s)));
    ("gridCols", Server.Str (toString (gridCols s)))]
   ++ optional_entry "resizeWidth" (resizeWidth s)
   ++ optional_entry "resizeHeight" (resizeHeight s)
   ++ [("alignDimension",
        Server.Str (dimension_string (alignDimension s)))]
   ++ image_entries 0 (images s))%list.

(** The status of a response; the image is answered with status 200. *)
Definition status (r : Server.Response) : Z :=
  match r with
  | Server.Json st _ => st
  | Server.Png _ _ _ => 200
  end.

(** Lines 129-142: the request to [/api/merge], answered by the route,
    and what is made of the response. *)
Definition mergeImagesServer (s : State) : result MergedImage :=
  let response := snd (Server.POST (formData s)) in
  if negb ((200 <=? status response) && (status response <=? 299)) then
    match response with
    | Server.Json _ error =>
        Throw (if String.eqb error "" then "Failed to merge images"
               else error)
    | Server.Png _ _ _ => Throw "Failed to merge images"
    end
  else Ok (BlobUrl response).

Definition MAX_CANVAS_AREA : Z := 268435456.

(** The pipelines a merge went through, in order. *)
Inductive Call : Type :=
| ClientCall
| ServerCall (form : Server.FormData).

(** What a click on the merge button leaves behind. *)
Record Run : Type :=
  { calls : list Call; after : State; alert : option string }.

Section Browser.

(** The image element the browser loads from a file, if its [onload]
    ever fires, and the object URL it allocates for it. *)
Variable loaded : File -> option Client.HTMLImageElement.
Variable createObjectURL : File -> string.

(** The canvas of the browser, as in [Client.mergeImagesClient]. *)
Variable context : bool.
Variable assigned : number -> number.
Variable dataUrl_length : number -> number -> list Client.DrawImage -> Z.

(** Lines 29-44: the loop over the chosen files.  [None] when the load
    of an image never completes, in which case the loop never ends. *)
Fixpoint newImages (files : list File) : option (list ImageData) :=
  match files with
  | [] => Some []
  | f :: rest =>
      if negb (String.prefix "image/" (type f)) then newImages rest
      else
        match loaded f with
        | None => None
        | Some element =>
            match newImages rest with
            | None => None
            | Some l =>
                Some ({| file := f; url := createObjectURL f;
                         img := element |} :: l)
            end
        end
  end.

(** Lines 25-47; [files] is [None] for [e.target.files] being null. *)
Definition handleFileSelect (files : option (list File)) (s : State)
  : option State :=
  match files with
  | None => Some s
  | Some l =>
      match newImages l with
      | None => None
      | Some new => Some (setImages (images s ++ new)%list s)
      end
  end.

(** Lines 116-143 within the [try] of [mergeImages]. *)
Definition viaServer (before : list Call) (s : State) : Run :=
  match mergeImagesServer s with
  | Ok m =>
      {| calls := (before ++ [ServerCall (formData s)])%list;
         after := setIsProcessing false (setMergedImage (Some m) s);
         alert := None |}
  | Throw message =>
      {| calls := (before ++ [ServerCall (formData s)])%list;
         after := setIsProcessing false s;
         alert := Some ("Error merging images: " ++ message) |}
  end.

(** Lines 65-114. *)
Definition mergeImages (s : State) : Run :=
  if (List.length (images s) =? 0)%nat
  then {| calls := []; after := s; alert := None |}
  else
    let (expectedWidth, expectedHeight) :=
      Client.canvas (alignmentMode s) (gridRows s) (gridCols s)
        (map img (images s)) in
    let expectedPixels := mul expectedWidth expectedHeight in
    let needsServerProcessing :=
      gt expectedPixels (Int MAX_CANVAS_AREA)
      || match alignDimension s with none => false | _ => true end
      || match resizeWidth s with None => false | Some _ => true end
      || match resizeHeight s with None => false | Some _ => true end in
    if needsServerProcessing then viaServer [] s
    else
      match Client.mergeImagesClient context assigned dataUrl_length
              (alignmentMode s) (gridRows s) (gridCols s)
              (map img (images s)) with
      | Ok m =>
          {| calls := [ClientCall];
             after := setIsProcessing false
                        (setMergedImage (Some (DataUrl m)) s);
             alert := None |}
      | Throw _ => viaServer [ClientCall] s
      end.

End Browser.

End Page.

(** * Vocabulary of the properties *)

Import JS.

(** The sum of a list of integers. *)
Definition total (xs : list Z) : Z := fold_right Z.add 0 xs.

(** [m] is the largest element of [xs]. *)
Definition maximum_of (m : Z) (xs : list Z) : Prop :=
  In m xs /\ forall x, In x xs -> x <= m.

(** The placement [op] of [img] lies within a canvas of size [cv]. *)
Definition within (cv : number * number) (img : Server.ProcessedImage)
  (op : Server.CompositeOp) : Prop :=
  exists l t cw ch : Z,
    Server.left op = Int l /\ Server.top op = Int t /\
    cv = (Int cw, Int ch) /\
    l + Server.width img <= cw /\ t + Server.height img <= ch.

(** No placement of the batch extends past the canvas. *)
Definition no_clipping (mode : Server.Entry) (rows cols : number)
  (imgs : list Server.ProcessedImage) : Prop :=
  forall (i : nat) (img : Server.ProcessedImage) (op : Server.CompositeOp),
    nth_error imgs i = Some img ->
    nth_error (Server.compositeOps mode cols imgs) i = Some op ->
    within (Server.canvas mode rows cols imgs) img op.

(** A processed image of [n] by [n] pixels. *)
Definition square (n : Z) : Server.ProcessedImage :=
  {| Server.buffer :=
       {| Sharp.header := {| Sharp.width := n; Sharp.height := n |};
          Sharp.orientation := 0 |};
     Server.width := n; Server.height := n |}.

(** The same image dimensions as each pipeline holds them: the loaded
    image element of the browser, the processed image of the server. *)
Definition element_of (d : Sharp.Dimensions) : Client.HTMLImageElement :=
  {| Client.width := Sharp.width d; Client.height := Sharp.height d |}.

(** The processed image of the server with the dimensions [d]. *)
Definition processed_of (d : Sharp.Dimensions) : Server.ProcessedImage :=
  {| Server.buffer := {| Sharp.header := d; Sharp.orientation := 0 |};
     Server.width := Sharp.width d;
     Server.height := Sharp.height d |}.

(** The offsets of a drawing call and of a composite operation. *)
Definition draw_offset (d : Client.DrawImage) : number * number :=
  (Client.dx d, Client.dy d).

Definition op_offset (op : Server.CompositeOp) : number * number :=
  (Server.left op, Server.top op).


(** The processed image [img] of [b] has exactly the width [m], by a
    resize that may enlarge, and keeps the ratio of the oriented image
    within one pixel. *)
Definition aligned_width (m : Z) (b : Sharp.Buffer)
  (img : Server.ProcessedImage) : Prop :=
  Server.buffer img
  = Sharp.toBuffer
      {| Sharp.input := b;
         Sharp.useExifOrientation := true;
         Sharp.resizing :=
           Some {| Sharp.box_width := Some m;
                   Sharp.box_height := None;
                   Sharp.withoutEnlargement := false |} |} /\
  Server.width img = m /\
  Z.abs (Server.height img * Sharp.width (Sharp.oriented b)
         - Sharp.height (Sharp.oriented b) * Server.width img)
  <= Sharp.width (Sharp.oriented b).

(** The same along the height. *)
Definition aligned_height (m : Z) (b : Sharp.Buffer)
  (img : Server.ProcessedImage) : Prop :=
  Server.buffer img
  = Sharp.toBuffer
      {| Sharp.input := b;
         Sharp.useExifOrientation := true;
         Sharp.resizing :=
           Some {| Sharp.box_width := None;
                   Sharp.box_height := Some m;
                   Sharp.withoutEnlargement := false |} |} /\
  Server.height img = m /\
  Z.abs (Server.width img * Sharp.height (Sharp.oriented b)
         - Sharp.width (Sharp.oriented b) * Server.height img)
  <= Sharp.height (Sharp.oriented b).

(** An uploaded image of [w] by [h] stored pixels with orientation tag
    [o]. *)
Definition picture (w h o : Z) : Sharp.Buffer :=
  {| Sharp.header := {| Sharp.width := w; Sharp.height := h |};
     Sharp.orientation := o |}.

(** Requests used to evaluate the route. *)
Definition align_width_request : Server.FormData :=
  [("alignmentMode", Server.Str "vertical");
   ("gridRows", Server.Str "2");
   ("gridCols", Server.Str "2");
   ("alignDimension", Server.Str "width");
   ("image-0", Server.File (picture 100 50 1));
   ("image-1", Server.File (picture 200 60 0))].

(** Both dimensions of the canvas are positive integers. *)
Definition positive_canvas (cv : number * number) : Prop :=
  exists w h : Z, cv = (Int w, Int h) /\ 0 < w /\ 0 < h.

Definition negative_rows_request : Server.FormData :=
  [("alignmentMode", Server.Str "grid");
   ("gridRows", Server.Str "-1");
   ("gridCols", Server.Str "2");
   ("alignDimension", Server.Str "none");
   ("image-0", Server.File (picture 10 10 1))].

(** The entry is given and does not parse to a positive integer. *)
Definition not_positive (e : Server.Entry) : Prop :=
  Server.given e = true /\
  forall z, parseInt (Server.toString e) = Int z -> z <= 0.

(** The event is a read of the codec on one image: its header, or its
    decoding, processing and encoding; not the creation of the canvas,
    the compositing or the final output. *)
Definition image_read (e : Server.Event) : Prop :=
  match e with
  | Server.Metadata _ | Server.ToBuffer _ => True
  | _ => False
  end.

(** The request is refused as invalid input before any codec call. *)
Definition rejected_up_front (formData : Server.FormData) : Prop :=
  exists message, Server.POST formData = ([], Server.Json 400 message).

Definition zero_width_request : Server.FormData :=
  [("alignmentMode", Server.Str "horizontal");
   ("resizeWidth", Server.Str "0");
   ("alignDimension", Server.Str "none");
   ("image-0", Server.File (picture 10 10 1))].

Definition zero_rows_request : Server.FormData :=
  [("alignmentMode", Server.Str "grid");
   ("gridRows", Server.Str "0");
   ("gridCols", Server.Str "1");
   ("alignDimension", Server.Str "none");
   ("image-0", Server.File (picture 10 10 1))].

Definition portrait : Sharp.Buffer := picture 4000 3000 6.

Definition banner : Sharp.Buffer := picture 3500 100 1.

Definition portrait_request : Server.FormData :=
  [("alignmentMode", Server.Str "vertical");
   ("gridRows", Server.Str "2");
   ("gridCols", Server.Str "2");
   ("alignDimension", Server.Str "width");
   ("image-0", Server.File portrait);
   ("image-1", Server.File banner)].

Definition default_rows_request : Server.FormData :=
  [("alignmentMode", Server.Str "grid");
   ("gridRows", Server.Str "two");
   ("gridCols", Server.Str "-3");
   ("image-0", Server.File (picture 10 10 1))].

(** The placements [p] of [a] and [q] of [b] share no pixel: one lies
    entirely to the left of, to the right of, above or below the other. *)
Definition apart (a : Server.ProcessedImage) (p : Server.CompositeOp)
  (b : Server.ProcessedImage) (q : Server.CompositeOp) : Prop :=
  exists la ta lb tb : Z,
    Server.left p = Int la /\ Server.top p = Int ta /\
    Server.left q = Int lb /\ Server.top q = Int tb /\
    (la + Server.width a <= lb \/ lb + Server.width b <= la \/
     ta + Server.height a <= tb \/ tb + Server.height b <= ta).

(** The alignment mode is none of the three the route knows. *)
Definition unknown_mode (mode : Server.Entry) : Prop :=
  Server.equals mode "horizontal" = false /\
  Server.equals mode "vertical" = false /\
  Server.equals mode "grid" = false.

(** The layout parameters the route can lay out on a canvas of positive
    size: horizontal, vertical, or grid with positive rows and columns.
    The rows and columns are below 2^53, the integers that [parseInt]
    reads exactly. *)
Definition valid_layout (formData : Server.FormData) : Prop :=
  Server.equals (Server.get "alignmentMode" formData) "horizontal" = true \/
  Server.equals (Server.get "alignmentMode" formData) "vertical" = true \/
  (Server.equals (Server.get "alignmentMode" formData) "grid" = true /\
   exists r c : Z,
     Server.grid_parameter "gridRows" formData = Int r /\
     Server.grid_parameter "gridCols" formData = Int c /\
     0 < r < 2 ^ 53 /\ 0 < c < 2 ^ 53).

(** Every uploaded image has positive stored dimensions. *)
Definition positive_images (bs : list Sharp.Buffer) : Prop :=
  forall b, In b bs ->
    0 < Sharp.width (Sharp.header b) /\ 0 < Sharp.height (Sharp.header b).

(** An alignment target as the route computes it: absent, or a positive
    integer. *)
Definition target_ok (t : option number) : Prop :=
  t = None \/ exists m : Z, t = Some (Int m) /\ 0 < m.

(** The value read from the decimal digits [d] after the value [a]. *)
Fixpoint uint_value (d : Decimal.uint) (a : Z) : Z :=
  match d with
  | Decimal.Nil => a
  | Decimal.D0 l => uint_value l (10 * a + 0)
  | Decimal.D1 l => uint_value l (10 * a + 1)
  | Decimal.D2 l => uint_value l (10 * a + 2)
  | Decimal.D3 l => uint_value l (10 * a + 3)
  | Decimal.D4 l => uint_value l (10 * a + 4)
  | Decimal.D5 l => uint_value l (10 * a + 5)
  | Decimal.D6 l => uint_value l (10 * a + 6)
  | Decimal.D7 l => uint_value l (10 * a + 7)
  | Decimal.D8 l => uint_value l (10 * a + 8)
  | Decimal.D9 l => uint_value l (10 * a + 9)
  end.

(** The files of the images of the page, as the route receives them. *)
Definition uploaded (s : Page.State) : list Sharp.Buffer :=
  map (fun d => Page.content (Page.file d)) (Page.images s).

(** The state asks for no resize and no alignment. *)
Definition plain (s : Page.State) : Prop :=
  Page.alignDimension s = Page.none /\
  Page.resizeWidth s = None /\ Page.resizeHeight s = None.

(** The canvas the page expects has at most [MAX_CANVAS_AREA] pixels, as
    far as the comparison of line 91 can tell. *)
Definition small (s : Page.State) : Prop :=
  Page.gt
    (mul (fst (Client.canvas (Page.alignmentMode s) (Page.gridRows s)
                 (Page.gridCols s) (map Page.img (Page.images s))))
         (snd (Client.canvas (Page.alignmentMode s) (Page.gridRows s)
                 (Page.gridCols s) (map Page.img (Page.images s)))))
    (Int Page.MAX_CANVAS_AREA) = false.

(** A state of the page used to evaluate it: two images in a grid of
    three rows and two columns, with a resize width of 50. *)
Definition sample_image (w h : Z) : Page.ImageData :=
  {| Page.file := {| Page.type := "image/png";
                     Page.content := picture w h 1 |};
     Page.url := "blob:sample";
     Page.img := {| Client.width := w; Client.height := h |} |}.

Definition sample_state : Page.State :=
  {| Page.images := [sample_image 100 50; sample_image 80 60];
     Page.alignmentMode := Client.grid;
     Page.gridRows := Int 3;
     Page.gridCols := Int 2;
     Page.resizeWidth := Some (Int 50);
     Page.resizeHeight := None;
     Page.alignDimension := Page.none;
     Page.mergedImage := None;
     Page.isProcessing := false |}.

(** Two states of the page derived from [sample_state]: one without
    resize, in horizontal mode, and one with a negative resize width. *)
Definition plain_state : Page.State :=
  {| Page.images := Page.images sample_state;
     Page.alignmentMode := Client.horizontal;
     Page.gridRows := Int 2;
     Page.gridCols := Int 2;
     Page.resizeWidth := None;
     Page.resizeHeight := None;
     Page.alignDimension := Page.none;
     Page.mergedImage := None;
     Page.isProcessing := false |}.

Definition negative_state : Page.State :=
  {| Page.images := Page.images sample_state;
     Page.alignmentMode := Client.horizontal;
     Page.gridRows := Int 2;
     Page.gridCols := Int 2;
     Page.resizeWidth := Some (Int (-5));
     Page.resizeHeight := None;
     Page.alignDimension := Page.none;
     Page.mergedImage := None;
     Page.isProcessing := false |}.

(** The file is offered as an image: its media type starts with
    [image/]. *)
Definition is_image (f : Page.File) : bool :=
  String.prefix "image/" (Page.type f).

(** The entry of the list of images made from a file and the element
    the browser loaded from it. *)
Definition loaded_image (createObjectURL : Page.File -> string)
  (element : Page.File -> Client.HTMLImageElement) (f : Page.File)
  : Page.ImageData :=
  {| Page.file := f; Page.url := createObjectURL f; Page.img := element f |}.

(** A text file among the chosen files. *)
Definition notes : Page.File :=
  {| Page.type := "text/plain"; Page.content := picture 1 1 0 |}.

(** A state of the page with one image of 20000 by 20000 pixels. *)
Definition large_state : Page.State :=
  {| Page.images := [sample_image 20000 20000];
     Page.alignmentMode := Client.vertical;
     Page.gridRows := Int 2;
     Page.gridCols := Int 2;
     Page.resizeWidth := None;
     Page.resizeHeight := None;
     Page.alignDimension := Page.none;
     Page.mergedImage := None;
     Page.isProcessing := false |}.

(** The form asks the route for what the browser pipeline does: no
    explicit resize and no alignment. *)
Definition unprocessed (formData : Server.FormData) : Prop :=
  Server.given (Server.get "resizeWidth" formData) = false /\
  Server.given (Server.get "resizeHeight" formData) = false /\
  Server.equals (Server.get "alignDimension" formData) "width" = false /\
  Server.equals (Server.get "alignDimension" formData) "height" = false.

(** Three images for a grid of two rows and two columns; the second one
    is stored as 60 by 80 with a quarter-turn orientation, and is 80 by
    60 once oriented. *)
Definition grid_request : Server.FormData :=
  [("alignmentMode", Server.Str "grid");
   ("gridRows", Server.Str "2");
   ("gridCols", Server.Str "2");
   ("alignDimension", Server.Str "none");
   ("image-0", Server.File (picture 100 50 1));
   ("image-1", Server.File (picture 60 80 6));
   ("image-2", Server.File (picture 30 30 0))].

Definition grid_dimensions : list Sharp.Dimensions :=
  [ {| Sharp.width := 100; Sharp.height := 50 |};
    {| Sharp.width := 80; Sharp.height := 60 |};
    {| Sharp.width := 30; Sharp.height := 30 |} ].

(** Both offsets of the composite operation are integers. *)
Definition integer_offsets (op : Server.CompositeOp) : Prop :=
  exists l t : Z, Server.left op = Int l /\ Server.top op = Int t.

(** * Properties *)

(** ** The primitives and the scenarios of the specification, evaluated *)

Example parseInt_units : parseInt " 12px" = Int 12.
Proof. reflexivity. Qed.

Example parseInt_negative : parseInt "-3" = Int (-3).
Proof. reflexivity. Qed.

Example parseInt_hexadecimal : parseInt "0x1f" = Int 31.
Proof. reflexivity. Qed.

Example parseInt_word : parseInt "two" = NaN.
Proof. reflexivity. Qed.

Example parseInt_null : parseInt (Server.toString Server.null) = NaN.
Proof. reflexivity. Qed.

Example Math_max_of_nothing : Math_max [] = Infinity true.
Proof. reflexivity. Qed.

(** Two images of 100 by 50 and 80 by 60, horizontal, no resize and no
    alignment: the canvas is 180 by 60, the first image at (0, 0) and the
    second at (100, 0). *)
Example scenario_horizontal :
  exists a b,
    snd (Server.POST
           [("alignmentMode", Server.Str "horizontal");
            ("gridRows", Server.Str "2");
            ("gridCols", Server.Str "2");
            ("alignDimension", Server.Str "none");
            ("image-0", Server.File (picture 100 50 1));
            ("image-1", Server.File (picture 80 60 0))])
    = Server.Png (Int 180) (Int 60)
        [ {| Server.op_input := a; Server.left := Int 0;
             Server.top := Int 0 |};
          {| Server.op_input := b; Server.left := Int 100;
             Server.top := Int 0 |} ].
Proof. do 2 eexists. vm_compute. reflexivity. Qed.

(** Three images of 40 by 40 in a grid of 2 rows and 2 columns: the
    canvas is 80 by 80 and the images are at (0, 0), (40, 0), (0, 40). *)
Example scenario_grid :
  exists a b c,
    snd (Server.POST
           [("alignmentMode", Server.Str "grid");
            ("gridRows", Server.Str "2");
            ("gridCols", Server.Str "2");
            ("alignDimension", Server.Str "none");
            ("image-0", Server.File (picture 40 40 1));
            ("image-1", Server.File (picture 40 40 1));
            ("image-2", Server.File (picture 40 40 1))])
    = Server.Png (Int 80) (Int 80)
        [ {| Server.op_input := a; Server.left := Int 0;
             Server.top := Int 0 |};
          {| Server.op_input := b; Server.left := Int 40;
             Server.top := Int 0 |};
          {| Server.op_input := c; Server.left := Int 0;
             Server.top := Int 40 |} ].
Proof. do 3 eexists. vm_compute. reflexivity. Qed.

(** Images of width 100 and 200 aligned to the width, vertical: both are
    200 wide and the canvas is as high as the scaled heights together. *)
Example scenario_alignment :
  snd (Server.POST align_width_request)
  = Server.Png (Int 200) (Int 160)
      [ {| Server.op_input := picture 200 100 0; Server.left := Int 0;
           Server.top := Int 0 |};
        {| Server.op_input := picture 200 60 0; Server.left := Int 0;
           Server.top := Int 100 |} ].
Proof. vm_compute. reflexivity. Qed.

(** ** Sums and maxima *)

Lemma fold_left_add_total (xs : list Z) (a : Z) :
  fold_left (fun sum x => sum + x) xs a = a + total xs.
Proof.
  revert a; induction xs as [|x xs IH]; intros a; simpl.
  - lia.
  - rewrite IH. lia.
Qed.

Lemma reduce_sum_total (xs : list Z) : reduce_sum xs = total xs.
Proof. unfold reduce_sum. rewrite fold_left_add_total. lia. Qed.

Lemma fold_left_max_bound (r : list Z) (x : Z) :
  x <= fold_left Z.max r x /\
  forall y, In y r -> y <= fold_left Z.max r x.
Proof.
  revert x; induction r as [|a r IH]; intros x; simpl.
  - split; [lia | tauto].
  - destruct (IH (Z.max x a)) as [Hx Hr]. split; [lia |].
    intros y [<- | Hy]; [lia | auto].
Qed.

Lemma fold_left_max_member (r : list Z) (x : Z) :
  In (fold_left Z.max r x) (x :: r).
Proof.
  revert x; induction r as [|a r IH]; intros x; simpl.
  - now left.
  - destruct (IH (Z.max x a)) as [H | H].
    + destruct (Z.max_spec x a) as [[_ E] | [_ E]].
      * right; left. rewrite <- H. lia.
      * left. rewrite <- H. lia.
    + right; right; exact H.
Qed.

Lemma Math_max_maximum (xs : list Z) :
  xs <> [] -> exists m, Math_max xs = Int m /\ maximum_of m xs.
Proof.
  destruct xs as [|x r]; [congruence | intros _].
  exists (fold_left Z.max r x). split; [reflexivity |].
  split; [apply fold_left_max_member |].
  destruct (fold_left_max_bound r x) as [Hx Hr].
  intros y [<- | Hy]; auto.
Qed.

Lemma maximum_of_unique (xs : list Z) (m n : Z) :
  maximum_of m xs -> maximum_of n xs -> m = n.
Proof.
  intros [Hm Bm] [Hn Bn]. apply Bn in Hm. apply Bm in Hn. lia.
Qed.

Lemma total_nonneg (xs : list Z) :
  (forall x, In x xs -> 0 <= x) -> 0 <= total xs.
Proof.
  induction xs as [|x xs IH]; simpl; intros H; [lia |].
  assert (0 <= x) by (apply H; now left).
  assert (0 <= total xs) by (apply IH; intros; apply H; now right). lia.
Qed.

Lemma total_firstn_le (xs : list Z) (n : nat) :
  (forall x, In x xs -> 0 <= x) -> total (firstn n xs) <= total xs.
Proof.
  revert n; induction xs as [|x xs IH]; intros [|n] H; simpl; try lia.
  - assert (0 <= x) by (apply H; now left).
    assert (0 <= total xs) by (apply total_nonneg; intros; apply H; now right).
    lia.
  - specialize (IH n). assert (total (firstn n xs) <= total xs)
      by (apply IH; intros; apply H; now right). lia.
Qed.

Lemma total_firstn_succ (xs : list Z) (n : nat) (x : Z) :
  nth_error xs n = Some x ->
  total (firstn (S n) xs) = total (firstn n xs) + x.
Proof.
  revert n; induction xs as [|a xs IH]; intros [|n] H; simpl in *;
    try discriminate.
  - injection H as ->. lia.
  - specialize (IH n H). simpl in IH. lia.
Qed.

(** ** The strips and the grid, image by image *)

Section Placement.

Import Server.

Lemma horizontal_ops_nth (imgs : list ProcessedImage) :
  forall (x : Z) (i : nat) (img : ProcessedImage),
    nth_error imgs i = Some img ->
    nth_error (horizontal_ops x imgs) i
    = Some {| op_input := buffer img;
              left := Int (x + total (firstn i (map width imgs)));
              top := Int 0 |}.
Proof.
  induction imgs as [|a imgs IH]; intros x [|i] img H; simpl in *;
    try discriminate.
  - injection H as ->. do 3 f_equal. lia.
  - rewrite (IH _ _ _ H). do 3 f_equal. lia.
Qed.

Lemma vertical_ops_nth (imgs : list ProcessedImage) :
  forall (y : Z) (i : nat) (img : ProcessedImage),
    nth_error imgs i = Some img ->
    nth_error (vertical_ops y imgs) i
    = Some {| op_input := buffer img;
              left := Int 0;
              top := Int (y + total (firstn i (map height imgs))) |}.
Proof.
  induction imgs as [|a imgs IH]; intros y [|i] img H; simpl in *;
    try discriminate.
  - injection H as ->. do 3 f_equal. lia.
  - rewrite (IH _ _ _ H). do 3 f_equal. lia.
Qed.

Lemma grid_ops_nth (cellWidth cellHeight gridCols : number)
  (imgs : list ProcessedImage) :
  forall (k : Z) (i : nat) (img : ProcessedImage),
    nth_error imgs i = Some img ->
    nth_error (grid_ops cellWidth cellHeight gridCols k imgs) i
    = Some {| op_input := buffer img;
              left := mul (rem (k + Z.of_nat i) gridCols) cellWidth;
              top := mul (floor_div (k + Z.of_nat i) gridCols) cellHeight |}.
Proof.
  induction imgs as [|a imgs IH]; intros k [|i] img H; simpl nth_error in *;
    try discriminate.
  - injection H as ->. simpl. now rewrite Z.add_0_r.
  - rewrite (IH _ _ _ H). now replace (k + 1 + Z.of_nat i)
      with (k + Z.of_nat (S i)) by lia.
Qed.

Lemma horizontal_ops_length (imgs : list ProcessedImage) (x : Z) :
  List.length (horizontal_ops x imgs) = List.length imgs.
Proof. revert x; induction imgs; intros; simpl; auto. Qed.

Lemma vertical_ops_length (imgs : list ProcessedImage) (y : Z) :
  List.length (vertical_ops y imgs) = List.length imgs.
Proof. revert y; induction imgs; intros; simpl; auto. Qed.

Lemma grid_ops_length (cw ch cols : number) (imgs : list ProcessedImage)
  (k : Z) :
  List.length (grid_ops cw ch cols k imgs) = List.length imgs.
Proof. revert k; induction imgs; intros; simpl; auto. Qed.

Lemma map_nonempty {A B} (f : A -> B) (xs : list A) :
  xs <> [] -> map f xs <> [].
Proof. destruct xs; simpl; congruence. Qed.

End Placement.

(** ** The grid parameters *)

Lemma parseInt_cases (s : string) :
  parseInt s = NaN \/ exists z, parseInt s = Int z.
Proof.
  unfold parseInt.
  destruct (strip_sign (trim_start s)) as [sign S].
  destruct (strip_prefix S) as [R Z'].
  destruct (parse_digits R Z' None); eauto.
Qed.

Lemma grid_parameter_nonzero (name : string) (formData : Server.FormData) :
  exists z, Server.grid_parameter name formData = Int z /\ z <> 0.
Proof.
  unfold Server.grid_parameter, or_else.
  destruct (parseInt_cases (Server.toString (Server.get name formData)))
    as [E | [z E]]; rewrite E; simpl.
  - exists 2. split; [reflexivity | lia].
  - destruct (Z.eqb_spec z 0); simpl.
    + exists 2. split; [reflexivity | lia].
    + exists z. split; [reflexivity | assumption].
Qed.

(** ** Layout of the three modes *)

(** C1.  For a non-empty list of processed images in horizontal mode, the
    canvas width is the sum of the widths, the canvas height is the
    largest height, there is one composite operation per image, and the
    operation of image [i] has left offset the sum of the widths of
    images [0..i-1] and top offset 0. *)
Theorem horizontal_layout (gridRows gridCols : number)
  (imgs : list Server.ProcessedImage) :
  imgs <> [] ->
  let mode := Server.Str "horizontal" in
  (exists m, maximum_of m (map Server.height imgs) /\
     Server.canvas mode gridRows gridCols imgs
     = (Int (total (map Server.width imgs)), Int m)) /\
  List.length (Server.compositeOps mode gridCols imgs) = List.length imgs /\
  forall (i : nat) (img : Server.ProcessedImage),
    nth_error imgs i = Some img ->
    nth_error (Server.compositeOps mode gridCols imgs) i
    = Some {| Server.op_input := Server.buffer img;
              Server.left := Int (total (firstn i (map Server.width imgs)));
              Server.top := Int 0 |}.
Proof.
  intros Hne mode. unfold mode, Server.canvas, Server.compositeOps. simpl.
  repeat split.
  - destruct (Math_max_maximum (map Server.height imgs)) as (m & E & Hm);
      [now apply map_nonempty |].
    exists m. split; [exact Hm |]. now rewrite E, reduce_sum_total.
  - apply horizontal_ops_length.
  - intros i img H. now rewrite (horizontal_ops_nth _ _ _ _ H).
Qed.

Lemma horizontal_layout_witness :
  let a := {| Server.buffer :=
                {| Sharp.header := {| Sharp.width := 100; Sharp.height := 50 |};
                   Sharp.orientation := 0 |};
              Server.width := 100; Server.height := 50 |} in
  let b := {| Server.buffer :=
                {| Sharp.header := {| Sharp.width := 80; Sharp.height := 60 |};
                   Sharp.orientation := 0 |};
              Server.width := 80; Server.height := 60 |} in
  [a; b] <> [] /\
  nth_error (Server.compositeOps (Server.Str "horizontal") (Int 2) [a; b]) 1
  = Some {| Server.op_input := Server.buffer b;
            Server.left := Int (total (firstn 1 (map Server.width [a; b])));
            Server.top := Int 0 |}.
Proof.
  intros a b.
  assert (Hne : [a; b] <> []) by discriminate.
  split; [exact Hne |].
  exact (proj2 (proj2 (horizontal_layout (Int 2) (Int 2) [a; b] Hne))
           1%nat b eq_refl).
Defined.

(** C2.  For a non-empty list of processed images in grid mode with
    [r] rows and [c] columns, the cell width is the largest width and the
    cell height the largest height of the batch, the canvas is
    [cellWidth * c] by [cellHeight * r], and image [i] is placed
    row-major: left is [(i mod c) * cellWidth], top is
    [(i div c) * cellHeight] with the quotient rounded down.  The
    remainder is the one of JavaScript, which for positive [c] is
    [i mod c]; the route never divides by zero, see
    [grid_parameter_nonzero]. *)
Theorem grid_layout (r c : Z) (imgs : list Server.ProcessedImage) :
  imgs <> [] -> c <> 0 ->
  let mode := Server.Str "grid" in
  exists cellWidth cellHeight : Z,
    maximum_of cellWidth (map Server.width imgs) /\
    maximum_of cellHeight (map Server.height imgs) /\
    Server.canvas mode (Int r) (Int c) imgs
    = (Int (cellWidth * c), Int (cellHeight * r)) /\
    forall (i : nat) (img : Server.ProcessedImage),
      nth_error imgs i = Some img ->
      nth_error (Server.compositeOps mode (Int c) imgs) i
      = Some {| Server.op_input := Server.buffer img;
                Server.left := Int (Z.rem (Z.of_nat i) c * cellWidth);
                Server.top := Int (Z.of_nat i / c * cellHeight) |}
      /\ (0 < c -> Z.rem (Z.of_nat i) c = Z.of_nat i mod c).
Proof.
  intros Hne Hc mode. unfold mode, Server.canvas, Server.compositeOps. simpl.
  destruct (Math_max_maximum (map Server.width imgs)) as (cw & Ew & Hw);
    [now apply map_nonempty |].
  destruct (Math_max_maximum (map Server.height imgs)) as (ch & Eh & Hh);
    [now apply map_nonempty |].
  exists cw, ch. rewrite Ew, Eh.
  split; [exact Hw |]. split; [exact Hh |]. split; [reflexivity |].
  intros i img H. split.
  - rewrite (grid_ops_nth _ _ _ _ _ _ _ H). simpl.
    apply Z.eqb_neq in Hc. now rewrite Hc.
  - intros Hpos. apply Z.rem_mod_nonneg; lia.
Qed.

Lemma grid_layout_witness :
  let sq := {| Server.buffer :=
                 {| Sharp.header := {| Sharp.width := 40; Sharp.height := 40 |};
                    Sharp.orientation := 0 |};
               Server.width := 40; Server.height := 40 |} in
  ([sq; sq; sq] <> [] /\ 2 <> 0) /\
  exists cellWidth cellHeight : Z,
    maximum_of cellWidth [40; 40; 40] /\
    maximum_of cellHeight [40; 40; 40] /\
    Server.canvas (Server.Str "grid") (Int 2) (Int 2) [sq; sq; sq]
    = (Int (cellWidth * 2), Int (cellHeight * 2)) /\
    nth_error (Server.compositeOps (Server.Str "grid") (Int 2) [sq; sq; sq]) 2
    = Some {| Server.op_input := Server.buffer sq;
              Server.left := Int (Z.rem 2 2 * cellWidth);
              Server.top := Int (2 / 2 * cellHeight) |}.
Proof.
  intros sq.
  assert (Hne : [sq; sq; sq] <> []) by discriminate.
  assert (Hc : 2 <> 0) by lia.
  split; [split; assumption |].
  destruct (grid_layout 2 2 [sq; sq; sq] Hne Hc)
    as (cw & ch & Hw & Hh & Hcanvas & Hops).
  exists cw, ch. repeat split; try assumption; try apply Hw; try apply Hh.
  exact (proj1 (Hops 2%nat sq eq_refl)).
Defined.

(** ** Placements and the canvas bounds *)

(** Two images in a grid of one row and one column: the second image is
    placed below the canvas. *)
Lemma grid_overflow_clips :
  [square 10; square 10] <> [] /\
  ~ no_clipping (Server.Str "grid") (Int 1) (Int 1) [square 10; square 10].
Proof.
  split; [discriminate |].
  intros H.
  destruct (H 1%nat (square 10) _ eq_refl eq_refl)
    as (l & t & cw & ch & El & Et & Ec & Hl & Ht).
  simpl in El, Et, Ec, Hl, Ht.
  injection Et as <-. injection Ec as <- <-. lia.
Qed.

Lemma nth_error_nonempty {A} (xs : list A) (i : nat) (x : A) :
  nth_error xs i = Some x -> xs <> [].
Proof. destruct xs, i; simpl; congruence. Qed.

Lemma nth_error_map_in {A} (f : A -> Z) (xs : list A) (i : nat) (x : A) :
  nth_error xs i = Some x -> In (f x) (map f xs).
Proof. intros H. apply in_map. eapply nth_error_In; eauto. Qed.

Lemma prefix_plus_own_le (ws : list Z) (i : nat) (w : Z) :
  (forall x, In x ws -> 0 <= x) ->
  nth_error ws i = Some w ->
  total (firstn i ws) + w <= total ws.
Proof.
  intros Hpos H. rewrite <- (total_firstn_succ _ _ _ H).
  now apply total_firstn_le.
Qed.

(** C3, amended.  For every batch of images with non-negative dimensions
    and every layout mode, where in grid mode the rows and columns are
    positive and the number of images does not exceed rows times columns,
    every placed image's offset plus its width (respectively height) does
    not exceed the canvas width (respectively height). *)
Theorem placements_within_canvas (mode : Server.Entry) (rows cols : number)
  (imgs : list Server.ProcessedImage) :
  (forall img, In img imgs ->
     0 <= Server.width img /\ 0 <= Server.height img) ->
  (Server.equals mode "grid" = true ->
   exists r c : Z, rows = Int r /\ cols = Int c /\ 0 < r /\ 0 < c /\
                   Z.of_nat (List.length imgs) <= r * c) ->
  no_clipping mode rows cols imgs.
Proof.
  intros Hpos Hgrid i img op Hi Hop.
  assert (Hne : imgs <> []) by (eapply nth_error_nonempty; eauto).
  assert (Hin : In img imgs) by (eapply nth_error_In; eauto).
  destruct (Hpos img Hin) as [Hw0 Hh0].
  assert (Hws : forall x, In x (map Server.width imgs) -> 0 <= x).
  { intros x Hx. apply in_map_iff in Hx as (j & <- & Hj). now apply Hpos. }
  assert (Hhs : forall x, In x (map Server.height imgs) -> 0 <= x).
  { intros x Hx. apply in_map_iff in Hx as (j & <- & Hj). now apply Hpos. }
  destruct (Math_max_maximum (map Server.width imgs)) as (mw & Ew & _ & Bw);
    [now apply map_nonempty |].
  destruct (Math_max_maximum (map Server.height imgs)) as (mh & Eh & _ & Bh);
    [now apply map_nonempty |].
  assert (Hwm : Server.width img <= mw)
    by (apply Bw; eapply nth_error_map_in; eauto).
  assert (Hhm : Server.height img <= mh)
    by (apply Bh; eapply nth_error_map_in; eauto).
  unfold within, Server.canvas. unfold Server.compositeOps in Hop.
  destruct (Server.equals mode "horizontal").
  { rewrite (horizontal_ops_nth _ _ _ _ Hi) in Hop. injection Hop as <-.
    simpl. rewrite Eh, reduce_sum_total.
    do 4 eexists. repeat split; try reflexivity.
    - apply prefix_plus_own_le; [exact Hws |].
      now apply map_nth_error.
    - lia. }
  destruct (Server.equals mode "vertical").
  { rewrite (vertical_ops_nth _ _ _ _ Hi) in Hop. injection Hop as <-.
    simpl. rewrite Ew, reduce_sum_total.
    do 4 eexists. repeat split; try reflexivity.
    - lia.
    - apply prefix_plus_own_le; [exact Hhs |].
      now apply map_nth_error. }
  destruct (Server.equals mode "grid").
  2:{ destruct i; discriminate. }
  destruct (Hgrid eq_refl) as (r & c & -> & -> & Hr & Hc & Hcount).
  rewrite (grid_ops_nth _ _ _ _ _ _ _ Hi) in Hop. injection Hop as <-.
  rewrite Ew, Eh. simpl.
  assert (Ec : (c =? 0) = false) by (apply Z.eqb_neq; lia).
  rewrite Ec. simpl.
  assert (Hlt : Z.of_nat i < Z.of_nat (List.length imgs)).
  { apply Nat2Z.inj_lt. apply nth_error_Some. congruence. }
  assert (Hrem : 0 <= Z.rem (Z.of_nat i) c < c).
  { rewrite Z.rem_mod_nonneg by lia. apply Z.mod_pos_bound. lia. }
  assert (Hdiv : 0 <= Z.of_nat i / c < r).
  { split; [apply Z.div_pos; lia |].
    apply Z.div_lt_upper_bound; [lia |]. nia. }
  do 4 eexists. repeat split; try reflexivity; nia.
Qed.

Lemma placements_within_canvas_witness :
  no_clipping (Server.Str "grid") (Int 2) (Int 2)
    [square 40; square 40; square 40].
Proof.
  apply placements_within_canvas.
  - intros img [<- | [<- | [<- | []]]]; simpl; lia.
  - intros _. exists 2, 2. repeat split; simpl; lia.
Defined.

(** ** The browser pipeline against the server pipeline *)

Section ClientServer.

Variable ds : list Sharp.Dimensions.

Lemma widths_agree :
  map Client.width (map element_of ds)
  = map Server.width (map processed_of ds).
Proof. rewrite !map_map. reflexivity. Qed.

Lemma heights_agree :
  map Client.height (map element_of ds)
  = map Server.height (map processed_of ds).
Proof. rewrite !map_map. reflexivity. Qed.

End ClientServer.

Lemma horizontal_offsets_agree (ds : list Sharp.Dimensions) (x : Z) :
  map draw_offset (Client.horizontal_draws x (map element_of ds))
  = map op_offset (Server.horizontal_ops x (map processed_of ds)).
Proof.
  revert x; induction ds as [|d ds IH]; intros x; simpl; [reflexivity |].
  now rewrite IH.
Qed.

Lemma vertical_offsets_agree (ds : list Sharp.Dimensions) (y : Z) :
  map draw_offset (Client.vertical_draws y (map element_of ds))
  = map op_offset (Server.vertical_ops y (map processed_of ds)).
Proof.
  revert y; induction ds as [|d ds IH]; intros y; simpl; [reflexivity |].
  now rewrite IH.
Qed.

Lemma grid_offsets_agree (cw ch cols : number) (ds : list Sharp.Dimensions)
  (k : Z) :
  map draw_offset (Client.grid_draws cw ch cols k (map element_of ds))
  = map op_offset (Server.grid_ops cw ch cols k (map processed_of ds)).
Proof.
  revert k; induction ds as [|d ds IH]; intros k; simpl; [reflexivity |].
  now rewrite IH.
Qed.

(** What [mergeImagesClient] returns, when it does not raise, is the
    canvas and the drawing calls computed by [Client.canvas] and
    [Client.draws]. *)
Lemma mergeImagesClient_plan (context : bool) (assigned : number -> number)
  (dataUrl_length : number -> number -> list Client.DrawImage -> Z)
  (mode : Client.AlignmentMode) (rows cols : number)
  (images : list Client.HTMLImageElement) (m : Client.Merged) :
  Client.mergeImagesClient context assigned dataUrl_length
    mode rows cols images = Sharp.Ok m ->
  (Client.canvasWidth m, Client.canvasHeight m)
  = Client.canvas mode rows cols images /\
  Client.drawn m = Client.draws mode cols images.
Proof.
  unfold Client.mergeImagesClient.
  destruct context; simpl; [| discriminate].
  destruct (Client.canvas mode rows cols images) as [w h].
  destruct (_ || _); [discriminate |].
  destruct (_ <? _); [discriminate |].
  intros E. injection E as <-. simpl. split; reflexivity.
Qed.

(** The canvas and the offsets planned by the route are those planned by
    the browser, on every list of dimensions, in every mode and for every
    number of rows and columns. *)
Lemma layouts_agree (mode : Client.AlignmentMode) (rows cols : number)
  (ds : list Sharp.Dimensions) :
  Server.canvas (Server.Str (Client.mode_string mode)) rows cols
    (map processed_of ds)
  = Client.canvas mode rows cols (map element_of ds) /\
  map op_offset
    (Server.compositeOps (Server.Str (Client.mode_string mode)) cols
       (map processed_of ds))
  = map draw_offset (Client.draws mode cols (map element_of ds)).
Proof.
  unfold Client.canvas, Client.draws, Server.canvas, Server.compositeOps.
  rewrite widths_agree, heights_agree.
  destruct mode; simpl; split; try reflexivity; symmetry.
  - apply horizontal_offsets_agree.
  - apply vertical_offsets_agree.
  - apply grid_offsets_agree.
Qed.

(** ** Arithmetic of the fit-inside resize *)

Section FitInside.

Import Sharp.

Lemma round_div_bounds (a b : Z) :
  0 < b ->
  2 * b * round_div a b <= 2 * a + b < 2 * b * round_div a b + 2 * b.
Proof.
  intros Hb. unfold round_div.
  pose proof (Z.mul_div_le (2 * a + b) (2 * b) ltac:(lia)).
  pose proof (Z.mul_succ_div_gt (2 * a + b) (2 * b) ltac:(lia)).
  lia.
Qed.

Lemma scaled_positive (other target natural : Z) :
  0 < scaled other target natural.
Proof. unfold scaled. lia. Qed.

(** The free axis follows the ratio within one pixel. *)
Lemma scaled_ratio (other target natural : Z) :
  0 < other -> 0 < target -> 0 < natural ->
  Z.abs (scaled other target natural * natural - other * target) <= natural.
Proof.
  intros Ho Ht Hn. unfold scaled.
  pose proof (round_div_bounds (other * target) natural Hn) as [Hlo Hhi].
  assert (0 < other * target) by nia.
  destruct (Z.max_spec 1 (round_div (other * target) natural))
    as [[Hlt ->] | [Hge ->]]; nia.
Qed.



Variable d : Dimensions.
Hypothesis width_positive : 0 < width d.
Hypothesis height_positive : 0 < height d.

Lemma to_width_exact (W : Z) :
  width (to_width d W false) = W.
Proof. reflexivity. Qed.

Lemma to_height_exact (H : Z) :
  height (to_height d H false) = H.
Proof. reflexivity. Qed.

Lemma to_width_ratio (W : Z) (noEnlarge : bool) :
  0 < W ->
  let d' := to_width d W noEnlarge in
  Z.abs (height d' * width d - height d * width d') <= width d.
Proof.
  intros HW. unfold to_width.
  destruct (noEnlarge && (width d <=? W)); simpl.
  - replace (height d * width d - height d * width d) with 0 by lia. lia.
  - now apply scaled_ratio.
Qed.

Lemma to_height_ratio (H : Z) (noEnlarge : bool) :
  0 < H ->
  let d' := to_height d H noEnlarge in
  Z.abs (width d' * height d - width d * height d') <= height d.
Proof.
  intros HH. unfold to_height.
  destruct (noEnlarge && (height d <=? H)); simpl.
  - replace (width d * height d - width d * height d) with 0 by lia. lia.
  - now apply scaled_ratio.
Qed.



End FitInside.


(** ** The two passes of the route *)

Section Passes.

Import Sharp.
Import Server.

Lemma bind_ok {A B} (m : M A) (k : A -> M B) (a : A) :
  snd m = Ok a ->
  bind m k = ((fst m ++ fst (k a))%list, snd (k a)).
Proof.
  destruct m as [log r]. simpl. intros ->. simpl.
  now destruct (k a).
Qed.

Lemma bind_throw {A B} (m : M A) (k : A -> M B) (e : string) :
  snd m = Throw e -> bind m k = (fst m, Throw e).
Proof. destruct m as [log r]. simpl. now intros ->. Qed.

(** The first pass never raises: it logs one header read per image and
    returns the header dimensions. *)
Lemma first_pass_all (bs : list Buffer) :
  all first_pass bs
  = (map (fun b => Metadata (rotate (sharp b))) bs, Ok (map header bs)).
Proof.
  induction bs as [|b bs IH]; [reflexivity |].
  simpl. rewrite IH. simpl. rewrite app_nil_r.
  destruct b as [[w h] o]. reflexivity.
Qed.

Lemma process_ok (rw rh : Entry) (tw th : option number) (b : Buffer)
  (p : Pipeline) :
  plan rw rh tw th b = Ok p ->
  process rw rh tw th b
  = ([ToBuffer p; Metadata (sharp (toBuffer p))],
     Ok {| buffer := toBuffer p;
           width := Sharp.width (output_dimensions p);
           height := Sharp.height (output_dimensions p) |}).
Proof. unfold process. intros ->. reflexivity. Qed.

Lemma process_throw (rw rh : Entry) (tw th : option number) (b : Buffer)
  (e : string) :
  plan rw rh tw th b = Throw e ->
  process rw rh tw th b = ([], Throw e).
Proof. unfold process. intros ->. reflexivity. Qed.

(** When every image is processed, so is the batch, image by image. *)
Lemma all_ok {A B} (f : A -> M B) (P : A -> B -> Prop) (xs : list A) :
  (forall x, In x xs -> exists y, snd (f x) = Ok y /\ P x y) ->
  exists ys, snd (all f xs) = Ok ys /\ Forall2 P xs ys.
Proof.
  induction xs as [|x xs IH]; intros H.
  - exists []. split; [reflexivity | constructor].
  - destruct (H x (or_introl eq_refl)) as (y & Ey & Py).
    destruct IH as (ys & Eys & Pys); [intros; apply H; now right |].
    exists (y :: ys). split; [| now constructor].
    simpl. rewrite (bind_ok _ _ _ Ey). simpl.
    rewrite (bind_ok _ _ _ Eys). reflexivity.
Qed.

(** When the first image cannot be processed, nothing is logged. *)
Lemma all_throw_first {A B} (f : A -> M B) (x : A) (xs : list A)
  (e : string) :
  f x = ([], Throw e) -> all f (x :: xs) = ([], Throw e).
Proof. simpl. intros ->. reflexivity. Qed.

Lemma bind_log {A B} (P : Event -> Prop) (m : M A) (k : A -> M B) :
  Forall P (fst m) -> (forall a, Forall P (fst (k a))) ->
  Forall P (fst (bind m k)).
Proof.
  destruct m as [log [a | e]]; simpl; intros Hm Hk; [| exact Hm].
  specialize (Hk a). destruct (k a) as [log' r]. simpl in *.
  apply Forall_app. now split.
Qed.

Lemma all_log {A B} (P : Event -> Prop) (f : A -> M B) (xs : list A) :
  (forall x, Forall P (fst (f x))) -> Forall P (fst (all f xs)).
Proof.
  intros Hf. induction xs as [|x xs IH]; simpl; [constructor |].
  apply bind_log; [apply Hf |]. intros y.
  apply bind_log; [exact IH |]. intros ys. constructor.
Qed.

(** The second pass of an image without explicit resize and without
    alignment: its processed dimensions are those of the oriented
    image. *)
Lemma process_oriented (rw rh : Entry) (b : Buffer) :
  given rw = false -> given rh = false ->
  snd (process rw rh None None b)
  = Ok {| buffer := toBuffer (rotate (sharp b));
          width := Sharp.width (oriented b);
          height := Sharp.height (oriented b) |}.
Proof.
  intros Hrw Hrh. erewrite process_ok.
  2:{ unfold plan. rewrite Hrw, Hrh. reflexivity. }
  reflexivity.
Qed.

End Passes.

(** When every image is processed into what [g] says, so is the batch. *)
Lemma all_map {A B} (f : A -> Server.M B) (g : A -> B) (xs : list A) :
  (forall x, snd (f x) = Sharp.Ok (g x)) ->
  snd (Server.all f xs) = Sharp.Ok (map g xs).
Proof.
  intros H. induction xs as [|x xs IH]; [reflexivity |].
  simpl. rewrite (bind_ok _ _ _ (H x)). simpl.
  rewrite (bind_ok _ _ _ IH). reflexivity.
Qed.

(** The two passes only read images. *)
Lemma processedImages_log (formData : Server.FormData)
  (bs : list Sharp.Buffer) :
  Forall image_read (fst (Server.processedImages formData bs)).
Proof.
  unfold Server.processedImages. apply bind_log.
  - rewrite first_pass_all. simpl. apply Forall_map.
    apply Forall_forall. intros b _. exact I.
  - intros dims. apply all_log. intros b. unfold Server.process.
    destruct (Server.plan _ _ _ _ b) as [p | e]; simpl;
      repeat constructor.
Qed.

(** Whatever image the route answers with was laid out by [canvas] and
    [compositeOps] from the processed images, on a canvas of positive
    size. *)
Lemma POST_png (formData : Server.FormData) (cw ch : number)
  (ops : list Server.CompositeOp) :
  snd (Server.POST formData) = Server.Png cw ch ops ->
  exists imgs : list Server.ProcessedImage,
    snd (Server.processedImages formData (Server.collect_files formData))
    = Sharp.Ok imgs /\
    Server.canvas (Server.get "alignmentMode" formData)
      (Server.grid_parameter "gridRows" formData)
      (Server.grid_parameter "gridCols" formData) imgs = (cw, ch) /\
    ops = Server.compositeOps (Server.get "alignmentMode" formData)
            (Server.grid_parameter "gridCols" formData) imgs /\
    positive_canvas (cw, ch).
Proof.
  unfold Server.POST.
  destruct (Server.collect_files formData) as [|b bs]; [discriminate |].
  simpl Nat.eqb. cbv iota. unfold Server.merge.
  destruct (Server.processedImages formData (b :: bs)) as [log [imgs | e]];
    [| discriminate].
  simpl.
  destruct (Server.canvas _ _ _ imgs) as [w h] eqn:Ecanvas. simpl.
  destruct (Sharp.create w h) eqn:Ecreate; simpl; [| discriminate].
  destruct (Server.composite _); simpl; [| discriminate].
  intros E. injection E as E1 E2 E3. subst cw ch ops.
  exists imgs. split; [reflexivity |]. split; [exact Ecanvas |].
  split; [reflexivity |].
  unfold Sharp.create in Ecreate.
  destruct w as [x | |], h as [y | |]; try discriminate.
  destruct (Z.ltb_spec 0 x), (Z.ltb_spec 0 y); try discriminate.
  exists x, y. auto.
Qed.

(** ** The browser pipeline against the server route *)

(** Without explicit resize and without alignment the two passes turn
    every uploaded file into the image of its oriented dimensions. *)
Lemma processedImages_unprocessed (formData : Server.FormData)
  (bs : list Sharp.Buffer) :
  unprocessed formData ->
  snd (Server.processedImages formData bs)
  = Sharp.Ok (map processed_of (map Sharp.oriented bs)).
Proof.
  intros (Hrw & Hrh & Hw & Hh). unfold Server.processedImages.
  rewrite (bind_ok _ _ _ (f_equal snd (first_pass_all bs))). cbn [snd].
  unfold Server.targetWidth, Server.targetHeight. rewrite Hw, Hh.
  rewrite map_map.
  apply (all_map _ (fun b => processed_of (Sharp.oriented b))).
  intros b. now rewrite process_oriented.
Qed.

(** C4.  For every list of image dimensions and every layout mode
    (horizontal, vertical, or grid with the same rows and columns), the
    canvas size and the per-image offsets computed by the browser
    pipeline are those computed by the server pipeline.  The two plans
    are equal on every list; and whenever [mergeImagesClient] returns a
    merged image for the images of dimensions [ds] and the route answers
    with an image a request for the same mode, rows and columns, without
    resize and alignment, whose files have the dimensions [ds] once
    oriented, the canvas of the browser has the size of the canvas of
    the route and the images are drawn at the offsets at which the route
    composites them. *)
Theorem client_server_same_layout (context : bool)
  (assigned : number -> number)
  (dataUrl_length : number -> number -> list Client.DrawImage -> Z)
  (mode : Client.AlignmentMode) (rows cols : number)
  (ds : list Sharp.Dimensions) :
  (Client.canvas mode rows cols (map element_of ds)
   = Server.canvas (Server.Str (Client.mode_string mode)) rows cols
       (map processed_of ds) /\
   map draw_offset (Client.draws mode cols (map element_of ds))
   = map op_offset
       (Server.compositeOps (Server.Str (Client.mode_string mode)) cols
          (map processed_of ds))) /\
  forall (formData : Server.FormData) (m : Client.Merged)
         (cw ch : number) (ops : list Server.CompositeOp),
    Server.get "alignmentMode" formData
    = Server.Str (Client.mode_string mode) ->
    Server.grid_parameter "gridRows" formData = rows ->
    Server.grid_parameter "gridCols" formData = cols ->
    unprocessed formData ->
    map Sharp.oriented (Server.collect_files formData) = ds ->
    Client.mergeImagesClient context assigned dataUrl_length
      mode rows cols (map element_of ds) = Sharp.Ok m ->
    snd (Server.POST formData) = Server.Png cw ch ops ->
    (Client.canvasWidth m, Client.canvasHeight m) = (cw, ch) /\
    map draw_offset (Client.drawn m) = map op_offset ops /\
    List.length (Client.drawn m) = List.length ds /\
    List.length ops = List.length ds.
Proof.
  destruct (layouts_agree mode rows cols ds) as [Hcanvas Hoffsets].
  split; [split; symmetry; assumption |].
  intros formData m cw ch ops Hmode Hrows Hcols Hplain Hds Hclient Hserver.
  apply mergeImagesClient_plan in Hclient as [Ecanvas Edrawn].
  apply POST_png in Hserver as (imgs & Himgs & Ecw & Eops & _).
  rewrite (processedImages_unprocessed _ _ Hplain), Hds in Himgs.
  injection Himgs as <-.
  rewrite Hmode, Hrows, Hcols in Ecw. rewrite Hmode, Hcols in Eops.
  split; [now rewrite Ecanvas, <- Hcanvas, Ecw |].
  split; [now rewrite Edrawn, Eops, Hoffsets |].
  assert (Hlen : List.length (Client.draws mode cols (map element_of ds))
                 = List.length ds).
  { rewrite <- (length_map draw_offset), <- Hoffsets. rewrite length_map.
    rewrite <- (length_map processed_of ds).
    unfold Server.compositeOps. destruct mode; simpl.
    - apply horizontal_ops_length.
    - apply vertical_ops_length.
    - apply grid_ops_length. }
  split; [now rewrite Edrawn |].
  rewrite <- (length_map op_offset), Eops, Hoffsets, length_map.
  exact Hlen.
Qed.

Lemma client_server_same_layout_witness :
  exists (m : Client.Merged) (ops : list Server.CompositeOp),
    Client.mergeImagesClient true (fun n => n) (fun _ _ _ => 1000)
      Client.grid (Int 2) (Int 2) (map element_of grid_dimensions)
    = Sharp.Ok m /\
    snd (Server.POST grid_request) = Server.Png (Int 200) (Int 120) ops /\
    (Client.canvasWidth m, Client.canvasHeight m) = (Int 200, Int 120) /\
    map draw_offset (Client.drawn m) = map op_offset ops /\
    map op_offset ops
    = [(Int 0, Int 0); (Int 100, Int 0); (Int 0, Int 60)].
Proof.
  destruct (Client.mergeImagesClient true (fun n => n) (fun _ _ _ => 1000)
              Client.grid (Int 2) (Int 2) (map element_of grid_dimensions))
    as [m | message] eqn:Hclient; [| vm_compute in Hclient; discriminate].
  destruct (snd (Server.POST grid_request)) as [st e | cw ch ops]
    eqn:Hserver; [vm_compute in Hserver; discriminate |].
  destruct (proj2 (client_server_same_layout true (fun n => n)
                     (fun _ _ _ => 1000) Client.grid (Int 2) (Int 2)
                     grid_dimensions)
              grid_request m cw ch ops) as (Hcanvas & Hoffsets & _ & _).
  - reflexivity.
  - reflexivity.
  - reflexivity.
  - repeat split.
  - reflexivity.
  - exact Hclient.
  - exact Hserver.
  - vm_compute in Hserver. injection Hserver as <- <- <-.
    exists m. eexists. split; [reflexivity |]. split; [reflexivity |].
    split; [exact Hcanvas |]. split; [exact Hoffsets | reflexivity].
Defined.

(** ** Explicit resize *)




(** ** Alignment to the largest width or height *)

Lemma oriented_positive (b : Sharp.Buffer) :
  0 < Sharp.width (Sharp.header b) /\ 0 < Sharp.height (Sharp.header b) ->
  0 < Sharp.width (Sharp.oriented b) /\ 0 < Sharp.height (Sharp.oriented b).
Proof.
  unfold Sharp.oriented. destruct (_ && _); simpl; tauto.
Qed.

Lemma process_align_width (rw rh : Server.Entry) (th : option number)
  (m : Z) (b : Sharp.Buffer) :
  Server.given rw = false -> Server.given rh = false -> 0 < m ->
  0 < Sharp.width (Sharp.header b) /\ 0 < Sharp.height (Sharp.header b) ->
  exists img, snd (Server.process rw rh (Some (Int m)) th b) = Sharp.Ok img
              /\ aligned_width m b img.
Proof.
  intros Hrw Hrh Hm Hb. apply oriented_positive in Hb as [Hw Hh].
  assert (Em : (m =? 0) = false) by (apply Z.eqb_neq; lia).
  assert (Lm : (0 <? m) = true) by (apply Z.ltb_lt; lia).
  erewrite process_ok.
  2:{ unfold Server.plan. rewrite Hrw, Hrh. simpl. rewrite Em. simpl.
      unfold Sharp.resize. simpl. rewrite Lm. reflexivity. }
  eexists. split; [reflexivity |]. unfold aligned_width. simpl.
  split; [reflexivity |]. split; [reflexivity |].
  unfold Sharp.output_dimensions, Sharp.fit_inside. simpl.
  exact (to_width_ratio (Sharp.oriented b) Hw Hh m false Hm).
Qed.

Lemma process_align_height (rw rh : Server.Entry) (m : Z)
  (b : Sharp.Buffer) :
  Server.given rw = false -> Server.given rh = false -> 0 < m ->
  0 < Sharp.width (Sharp.header b) /\ 0 < Sharp.height (Sharp.header b) ->
  exists img, snd (Server.process rw rh None (Some (Int m)) b) = Sharp.Ok img
              /\ aligned_height m b img.
Proof.
  intros Hrw Hrh Hm Hb. apply oriented_positive in Hb as [Hw Hh].
  assert (Em : (m =? 0) = false) by (apply Z.eqb_neq; lia).
  assert (Lm : (0 <? m) = true) by (apply Z.ltb_lt; lia).
  erewrite process_ok.
  2:{ unfold Server.plan. rewrite Hrw, Hrh. simpl. rewrite Em. simpl.
      unfold Sharp.resize. simpl. rewrite Lm. reflexivity. }
  eexists. split; [reflexivity |]. unfold aligned_height. simpl.
  split; [reflexivity |]. split; [reflexivity |].
  unfold Sharp.output_dimensions, Sharp.fit_inside. simpl.
  exact (to_height_ratio (Sharp.oriented b) Hw Hh m false Hm).
Qed.

Lemma maximum_of_natural (f : Sharp.Dimensions -> Z) (m : Z)
  (bs : list Sharp.Buffer) :
  (forall b, In b bs -> Sharp.oriented b = Sharp.header b) ->
  maximum_of m (map f (map Sharp.header bs)) ->
  maximum_of m (map f (map Sharp.oriented bs)).
Proof.
  intros Hsame Hm.
  replace (map Sharp.oriented bs) with (map Sharp.header bs); [exact Hm |].
  apply map_ext_in. intros b Hb. symmetry. now apply Hsame.
Qed.

(** C6, at a request for alignment to the width without explicit
    resize: a photograph stored as 4000 by 3000 with orientation tag 6,
    which is 3000 by 4000 once oriented, and a banner of 3500 by 100.
    The largest natural width of the batch is 3500.  The route takes
    4000 for target, the width stored in the header of the photograph,
    and resizes both images to the width 4000, which is the natural
    width of neither: the batch is not aligned to its largest natural
    width. *)
Theorem alignment_target_not_natural_maximum :
  Server.get "alignDimension" portrait_request = Server.Str "width" /\
  Server.given (Server.get "resizeWidth" portrait_request) = false /\
  Server.given (Server.get "resizeHeight" portrait_request) = false /\
  maximum_of 3500
    (map Sharp.width (map Sharp.oriented [portrait; banner])) /\
  (exists imgs : list Server.ProcessedImage,
     snd (Server.processedImages portrait_request [portrait; banner])
     = Sharp.Ok imgs /\
     map Server.width imgs = [4000; 4000] /\
     Forall2 (aligned_width 4000) [portrait; banner] imgs) /\
  ~ (exists (m : Z) (imgs : list Server.ProcessedImage),
       maximum_of m
         (map Sharp.width (map Sharp.oriented [portrait; banner])) /\
       snd (Server.processedImages portrait_request [portrait; banner])
       = Sharp.Ok imgs /\
       Forall2 (aligned_width m) [portrait; banner] imgs).
Proof.
  split; [reflexivity |]. split; [reflexivity |]. split; [reflexivity |].
  split; [| split].
  - split; simpl; [now right; left |].
    intros x [<- | [<- | []]]; lia.
  - eexists. split; [vm_compute; reflexivity |].
    split; [reflexivity |].
    constructor; [| constructor; [| constructor]];
      unfold aligned_width; simpl;
      (split; [reflexivity |]); (split; [reflexivity |]);
      vm_compute; discriminate.
  - intros (m & imgs & [Hin _] & Himgs & Hall).
    vm_compute in Himgs. injection Himgs as <-.
    apply Forall2_cons_iff in Hall as [(_ & Hwidth & _) _].
    simpl in Hwidth, Hin. lia.
Qed.

(** ** The empty image set and the sign of the canvas *)

(** One image of 10 by 10 in a grid of -1 rows: the canvas computed for
    this non-empty image set is 20 by -10. *)
Lemma negative_rows_canvas :
  Server.collect_files negative_rows_request = [picture 10 10 1] /\
  In (Server.Create (Int 20) (Int (-10)))
     (fst (Server.POST negative_rows_request)) /\
  ~ positive_canvas (Int 20, Int (-10)).
Proof.
  split; [reflexivity |]. split.
  - vm_compute. tauto.
  - intros (w & h & E & Hw & Hh). injection E as <- <-. lia.
Qed.

Lemma POST_empty (formData : Server.FormData) :
  Server.collect_files formData = [] ->
  Server.POST formData = ([], Server.Json 400 "No images provided").
Proof. unfold Server.POST. now intros ->. Qed.

Lemma canvas_positive (mode : Server.Entry) (rows cols : number)
  (imgs : list Server.ProcessedImage) :
  imgs <> [] ->
  (forall img, In img imgs ->
     0 < Server.width img /\ 0 < Server.height img) ->
  Server.equals mode "horizontal" = true \/
  Server.equals mode "vertical" = true \/
  (Server.equals mode "grid" = true /\
   exists r c : Z, rows = Int r /\ cols = Int c /\ 0 < r /\ 0 < c) ->
  positive_canvas (Server.canvas mode rows cols imgs).
Proof.
  intros Hne Hpos Hmode.
  destruct (Math_max_maximum (map Server.width imgs)) as (mw & Ew & Iw & _);
    [now apply map_nonempty |].
  destruct (Math_max_maximum (map Server.height imgs)) as (mh & Eh & Ih & _);
    [now apply map_nonempty |].
  assert (0 < mw).
  { apply in_map_iff in Iw as (img & <- & Hin). now apply Hpos. }
  assert (0 < mh).
  { apply in_map_iff in Ih as (img & <- & Hin). now apply Hpos. }
  assert (Tw : 0 < total (map Server.width imgs)).
  { destruct imgs as [|a imgs]; [congruence |]. simpl.
    assert (0 < Server.width a) by (apply Hpos; now left).
    assert (0 <= total (map Server.width imgs)); [| lia].
    apply total_nonneg. intros x Hx.
    apply in_map_iff in Hx as (img & <- & Hin).
    assert (0 < Server.width img) by (apply Hpos; now right). lia. }
  assert (Th : 0 < total (map Server.height imgs)).
  { destruct imgs as [|a imgs]; [congruence |]. simpl.
    assert (0 < Server.height a) by (apply Hpos; now left).
    assert (0 <= total (map Server.height imgs)); [| lia].
    apply total_nonneg. intros x Hx.
    apply in_map_iff in Hx as (img & <- & Hin).
    assert (0 < Server.height img) by (apply Hpos; now right). lia. }
  unfold positive_canvas, Server.canvas. rewrite Ew, Eh, !reduce_sum_total.
  destruct (Server.equals mode "horizontal").
  { do 2 eexists. split; [reflexivity | lia]. }
  destruct (Server.equals mode "vertical").
  { do 2 eexists. split; [reflexivity | lia]. }
  destruct Hmode as [Hm | [Hm | (Hm & r & c & -> & -> & Hr & Hc)]];
    try discriminate.
  rewrite Hm. simpl. do 2 eexists. split; [reflexivity | nia].
Qed.

(** C7, amended.  A request whose image set is empty is answered with the
    InvalidInput error (status 400) before any codec call; and for every
    non-empty set of images with positive dimensions the computed canvas
    width and height are positive when the layout mode is horizontal,
    vertical, or grid with positive rows and columns. *)
Theorem empty_rejected_and_canvas_positive (formData : Server.FormData)
  (mode : Server.Entry) (rows cols : number)
  (imgs : list Server.ProcessedImage) :
  (Server.collect_files formData = [] ->
   Server.POST formData = ([], Server.Json 400 "No images provided")) /\
  (imgs <> [] ->
   (forall img, In img imgs ->
      0 < Server.width img /\ 0 < Server.height img) ->
   Server.equals mode "horizontal" = true \/
   Server.equals mode "vertical" = true \/
   (Server.equals mode "grid" = true /\
    exists r c : Z, rows = Int r /\ cols = Int c /\ 0 < r /\ 0 < c) ->
   positive_canvas (Server.canvas mode rows cols imgs)).
Proof.
  split; [apply POST_empty | apply canvas_positive].
Qed.

Lemma empty_rejected_and_canvas_positive_witness :
  Server.POST [("alignmentMode", Server.Str "grid")]
  = ([], Server.Json 400 "No images provided") /\
  positive_canvas
    (Server.canvas (Server.Str "grid") (Int 2) (Int 3) [square 40]).
Proof.
  destruct (empty_rejected_and_canvas_positive
              [("alignmentMode", Server.Str "grid")]
              (Server.Str "grid") (Int 2) (Int 3) [square 40]) as [E P].
  split.
  - apply E. reflexivity.
  - apply P.
    + discriminate.
    + intros img [<- | []]; simpl; lia.
    + right; right. split; [reflexivity |].
      exists 2, 3. repeat split; lia.
Defined.

(** ** Resize and grid parameters that are not positive *)

(** A resize width of 0 is answered with status 500 after the header of
    the image has been read, and 0 rows in grid mode are answered with
    the merged image: neither request is refused as invalid input. *)
Lemma invalid_parameters_not_rejected :
  (not_positive (Server.get "resizeWidth" zero_width_request) /\
   Server.POST zero_width_request
   = ([Server.Metadata (Sharp.rotate (Sharp.sharp (picture 10 10 1)))],
      Server.Json 500 "Failed to merge images") /\
   ~ rejected_up_front zero_width_request) /\
  (Server.equals (Server.get "alignmentMode" zero_rows_request) "grid" = true /\
   parseInt (Server.toString (Server.get "gridRows" zero_rows_request))
   = Int 0 /\
   (exists ops, snd (Server.POST zero_rows_request)
                = Server.Png (Int 10) (Int 20) ops) /\
   ~ rejected_up_front zero_rows_request).
Proof.
  split; split.
  - split; [reflexivity |]. intros z E. vm_compute in E.
    injection E as <-. lia.
  - split; [reflexivity |]. intros [message E]. vm_compute in E.
    discriminate.
  - reflexivity.
  - split; [reflexivity |]. split.
    + eexists. vm_compute. reflexivity.
    + intros [message E]. vm_compute in E. discriminate.
Qed.

Lemma check_dimension_rejects (name : string) (e : Server.Entry) :
  (forall z, parseInt (Server.toString e) = Int z -> z <= 0) ->
  exists message,
    Sharp.check_dimension name (Some (parseInt (Server.toString e)))
    = Sharp.Throw message.
Proof.
  intros H. unfold Sharp.check_dimension.
  destruct (parseInt (Server.toString e)) as [z | s |]; eauto.
  destruct (Z.ltb_spec 0 z); eauto.
  specialize (H z eq_refl). lia.
Qed.

Lemma plan_rejects (rw rh : Server.Entry) (tw th : option number)
  (b : Sharp.Buffer) :
  not_positive rw \/ not_positive rh ->
  exists message, Server.plan rw rh tw th b = Sharp.Throw message.
Proof.
  intros [[G H] | [G H]]; unfold Server.plan; rewrite G; simpl.
  - destruct (check_dimension_rejects "width" rw H) as [m E].
    exists m. unfold Sharp.resize. now rewrite E.
  - destruct (check_dimension_rejects "height" rh H) as [m E].
    rewrite orb_true_r. unfold Sharp.resize.
    destruct (Sharp.check_dimension "width" _) as [w' | m']; eauto.
    rewrite E. eauto.
Qed.

Lemma equals_eq (e : Server.Entry) (s : string) :
  Server.equals e s = true -> e = Server.Str s.
Proof.
  destruct e as [| t |]; simpl; try discriminate.
  intros E. apply String.eqb_eq in E. now subst.
Qed.

(** When the creation of the canvas raises, the route stops there. *)
Lemma merge_canvas_refused (formData : Server.FormData)
  (bs : list Sharp.Buffer) (imgs : list Server.ProcessedImage)
  (cw ch : number) (message : string) :
  snd (Server.processedImages formData bs) = Sharp.Ok imgs ->
  Server.canvas (Server.get "alignmentMode" formData)
    (Server.grid_parameter "gridRows" formData)
    (Server.grid_parameter "gridCols" formData) imgs = (cw, ch) ->
  Sharp.create cw ch = Sharp.Throw message ->
  Server.merge formData bs
  = ((fst (Server.processedImages formData bs)
      ++ [Server.Create cw ch])%list, Sharp.Throw message).
Proof.
  intros Himgs Hcanvas Hcreate. unfold Server.merge.
  rewrite (bind_ok _ _ _ Himgs), Hcanvas. simpl. rewrite Hcreate.
  reflexivity.
Qed.

(** C8, amended.  A request with a non-empty image set is not refused as
    invalid input for its resize or grid parameters.  When a given
    explicit resize dimension is not a positive integer, the merge fails
    with the generic error of status 500 once the first pass has read the
    header of every image, and before any image is resized, encoded or
    composited.  In grid mode, rows or columns that parse to 0 are
    replaced by 2, and negative ones are used as they are: once the
    images, of positive dimensions, are processed, the creation of the
    canvas fails with the same generic error, before anything is
    composited. *)
Theorem invalid_parameters_fail_late (formData : Server.FormData) :
  Server.collect_files formData <> [] ->
  (not_positive (Server.get "resizeWidth" formData) \/
   not_positive (Server.get "resizeHeight" formData) ->
   Server.POST formData
   = (map (fun b => Server.Metadata (Sharp.rotate (Sharp.sharp b)))
        (Server.collect_files formData),
      Server.Json 500 "Failed to merge images")) /\
  (forall name,
     parseInt (Server.toString (Server.get name formData)) = Int 0 ->
     Server.grid_parameter name formData = Int 2) /\
  (forall (imgs : list Server.ProcessedImage) (r c : Z),
     Server.equals (Server.get "alignmentMode" formData) "grid" = true ->
     snd (Server.processedImages formData (Server.collect_files formData))
     = Sharp.Ok imgs ->
     (forall img, In img imgs ->
        0 < Server.width img /\ 0 < Server.height img) ->
     Server.grid_parameter "gridRows" formData = Int r ->
     Server.grid_parameter "gridCols" formData = Int c ->
     r < 0 \/ c < 0 ->
     exists (log : list Server.Event) (cw ch : number),
       Forall image_read log /\
       ~ positive_canvas (cw, ch) /\
       Server.POST formData
       = ((log ++ [Server.Create cw ch])%list,
          Server.Json 500 "Failed to merge images")).
Proof.
  intros Hne. split; [| split].
  - intros Hbad. unfold Server.POST.
    destruct (Server.collect_files formData) as [|b bs] eqn:Efiles;
      [congruence |]. simpl Nat.eqb. cbv iota.
    assert (Hpass : exists message,
      Server.processedImages formData (b :: bs)
      = (map (fun b => Server.Metadata (Sharp.rotate (Sharp.sharp b)))
           (b :: bs), Sharp.Throw message)).
    { unfold Server.processedImages.
      rewrite (bind_ok _ _ _ (f_equal snd (first_pass_all (b :: bs)))).
      rewrite first_pass_all. cbn [fst snd].
      set (tw := Server.targetWidth _ _). set (th := Server.targetHeight _ _).
      clearbody tw th.
      destruct (plan_rejects (Server.get "resizeWidth" formData)
                  (Server.get "resizeHeight" formData) tw th b Hbad)
        as [m Em].
      exists m.
      rewrite (all_throw_first _ _ _ _ (process_throw _ _ _ _ _ _ Em)).
      cbn [fst snd]. now rewrite app_nil_r. }
    destruct Hpass as [m Em]. unfold Server.merge.
    rewrite (bind_throw _ _ m) by now rewrite Em.
    rewrite Em. reflexivity.
  - intros name E. unfold Server.grid_parameter. now rewrite E.
  - intros imgs r c Hmode Himgs Hpos Hr Hc Hneg.
    apply equals_eq in Hmode.
    assert (Hne' : imgs <> []).
    { intros ->. unfold Server.processedImages in Himgs.
      rewrite (bind_ok _ _ _ (f_equal snd (first_pass_all _))) in Himgs.
      simpl in Himgs.
      destruct (Server.collect_files formData) as [|b bs]; [congruence |].
      simpl in Himgs.
      destruct (Server.process _ _ _ _ b) as [l [a |e]]; simpl in Himgs;
        [| discriminate].
      destruct (Server.all _ bs) as [l' [a' |e']]; simpl in Himgs;
        discriminate. }
    destruct (Math_max_maximum (map Server.width imgs)) as (mw & Ew & Iw & _);
      [now apply map_nonempty |].
    destruct (Math_max_maximum (map Server.height imgs)) as (mh & Eh & Ih & _);
      [now apply map_nonempty |].
    assert (0 < mw).
    { apply in_map_iff in Iw as (img & <- & Hin). now apply Hpos. }
    assert (0 < mh).
    { apply in_map_iff in Ih as (img & <- & Hin). now apply Hpos. }
    exists (fst (Server.processedImages formData
                   (Server.collect_files formData))),
      (Int (mw * c)), (Int (mh * r)).
    split; [apply processedImages_log |]. split.
    + intros (w & h & E & Hw & Hh). injection E as <- <-. nia.
    + assert (Ecreate : exists message,
        Sharp.create (Int (mw * c)) (Int (mh * r)) = Sharp.Throw message).
      { unfold Sharp.create.
        destruct (Z.ltb_spec 0 (mw * c)), (Z.ltb_spec 0 (mh * r));
          simpl; eauto. nia. }
      destruct Ecreate as [m Em].
      assert (Ecanvas :
        Server.canvas (Server.get "alignmentMode" formData)
          (Server.grid_parameter "gridRows" formData)
          (Server.grid_parameter "gridCols" formData) imgs
        = (Int (mw * c), Int (mh * r))).
      { rewrite Hmode, Hr, Hc. unfold Server.canvas. simpl Server.equals.
        cbv iota. now rewrite Ew, Eh. }
      unfold Server.POST.
      destruct (Server.collect_files formData) as [|b bs] eqn:Efiles;
        [congruence |]. simpl Nat.eqb. cbv iota.
      now rewrite (merge_canvas_refused _ _ _ _ _ _ Himgs Ecanvas Em).
Qed.

Lemma invalid_parameters_fail_late_witness :
  Server.POST zero_width_request
  = (map (fun b => Server.Metadata (Sharp.rotate (Sharp.sharp b)))
       (Server.collect_files zero_width_request),
     Server.Json 500 "Failed to merge images") /\
  exists (log : list Server.Event) (cw ch : number),
    Forall image_read log /\
    ~ positive_canvas (cw, ch) /\
    Server.POST negative_rows_request
    = ((log ++ [Server.Create cw ch])%list,
       Server.Json 500 "Failed to merge images").
Proof.
  split.
  - assert (Hne : Server.collect_files zero_width_request <> [])
      by discriminate.
    apply (proj1 (invalid_parameters_fail_late zero_width_request Hne)).
    left. split; [reflexivity |].
    intros z E. vm_compute in E. injection E as <-. lia.
  - assert (Hne : Server.collect_files negative_rows_request <> [])
      by discriminate.
    eapply (proj2 (proj2
              (invalid_parameters_fail_late negative_rows_request Hne))).
    + reflexivity.
    + vm_compute. reflexivity.
    + intros img [<- | []]; simpl; lia.
    + vm_compute. reflexivity.
    + vm_compute. reflexivity.
    + left. lia.
Defined.

(** ** Orientation and the dimensions read by the first pass *)

(** C9, at a photograph stored as 4000 by 3000 with orientation tag 6,
    which is 3000 by 4000 once oriented, next to a banner of 3500 by 100.
    The first pass queues the rotation and then reads the header: it
    obtains 4000 by 3000 for the photograph.  The alignment target is
    therefore 4000, although the largest width after orientation is 3500.
    The second pass reads the dimensions of the encoded result, which are
    those after orientation and resize. *)
Theorem first_pass_ignores_orientation :
  Server.collect_files portrait_request = [portrait; banner] /\
  map Sharp.oriented [portrait; banner]
  = [ {| Sharp.width := 3000; Sharp.height := 4000 |};
      {| Sharp.width := 3500; Sharp.height := 100 |} ] /\
  Server.all Server.first_pass [portrait; banner]
  = ([Server.Metadata (Sharp.rotate (Sharp.sharp portrait));
      Server.Metadata (Sharp.rotate (Sharp.sharp banner))],
     Sharp.Ok [ {| Sharp.width := 4000; Sharp.height := 3000 |};
                {| Sharp.width := 3500; Sharp.height := 100 |} ]) /\
  Server.targetWidth (Server.get "alignDimension" portrait_request)
    (map Sharp.header [portrait; banner]) = Some (Int 4000) /\
  Math_max (map Sharp.width (map Sharp.oriented [portrait; banner]))
  = Int 3500 /\
  snd (Server.process Server.null Server.null None None portrait)
  = Sharp.Ok {| Server.buffer := picture 3000 4000 0;
                Server.width := 3000; Server.height := 4000 |} /\
  exists ops,
    snd (Server.POST portrait_request) = Server.Png (Int 4000) (Int 5447) ops.
Proof.
  repeat split; try reflexivity.
  eexists. vm_compute. reflexivity.
Qed.

(** ** Default of the grid parameters *)

(** C10.  A grid parameter whose field is absent, does not parse to a
    number, or parses to 0 takes the value 2, without any error; a
    negative parsed value is used as it is. *)
Theorem grid_parameter_default (name : string)
  (formData : Server.FormData) :
  (Server.get name formData = Server.null ->
   Server.grid_parameter name formData = Int 2) /\
  (parseInt (Server.toString (Server.get name formData)) = NaN ->
   Server.grid_parameter name formData = Int 2) /\
  (parseInt (Server.toString (Server.get name formData)) = Int 0 ->
   Server.grid_parameter name formData = Int 2) /\
  (forall z,
     parseInt (Server.toString (Server.get name formData)) = Int z ->
     z < 0 -> Server.grid_parameter name formData = Int z).
Proof.
  unfold Server.grid_parameter, or_else. repeat split.
  - intros ->. reflexivity.
  - intros ->. reflexivity.
  - intros ->. reflexivity.
  - intros z -> Hz. simpl.
    destruct (Z.eqb_spec z 0); [lia | reflexivity].
Qed.

Lemma grid_parameter_default_witness :
  Server.grid_parameter "gridCols" zero_width_request = Int 2 /\
  Server.grid_parameter "gridRows" default_rows_request = Int 2 /\
  Server.grid_parameter "gridRows" zero_rows_request = Int 2 /\
  Server.grid_parameter "gridCols" default_rows_request = Int (-3).
Proof.
  split; [| split; [| split]].
  - apply (proj1 (grid_parameter_default "gridCols" zero_width_request)).
    reflexivity.
  - apply (proj1 (proj2
             (grid_parameter_default "gridRows" default_rows_request))).
    reflexivity.
  - apply (proj1 (proj2 (proj2
             (grid_parameter_default "gridRows" zero_rows_request)))).
    reflexivity.
  - apply (proj2 (proj2 (proj2
             (grid_parameter_default "gridCols" default_rows_request)))).
    + reflexivity.
    + lia.
Defined.

(** * Further properties of the route and of the page *)

(** ** The vertical strip *)

(** X1.  For a non-empty list of processed images in vertical mode, the
    canvas width is the largest width, the canvas height is the sum of
    the heights, and the operation of image [i] has left offset 0 and top
    offset the sum of the heights of images [0..i-1]. *)
Theorem vertical_layout (gridRows gridCols : number)
  (imgs : list Server.ProcessedImage) :
  imgs <> [] ->
  let mode := Server.Str "vertical" in
  (exists m, maximum_of m (map Server.width imgs) /\
     Server.canvas mode gridRows gridCols imgs
     = (Int m, Int (total (map Server.height imgs)))) /\
  List.length (Server.compositeOps mode gridCols imgs) = List.length imgs /\
  forall (i : nat) (img : Server.ProcessedImage),
    nth_error imgs i = Some img ->
    nth_error (Server.compositeOps mode gridCols imgs) i
    = Some {| Server.op_input := Server.buffer img;
              Server.left := Int 0;
              Server.top := Int (total (firstn i (map Server.height imgs))) |}.
Proof.
  intros Hne mode. unfold mode, Server.canvas, Server.compositeOps. simpl.
  split; [| split].
  - destruct (Math_max_maximum (map Server.width imgs)) as (m & E & Hm);
      [now apply map_nonempty |].
    exists m. split; [exact Hm |]. now rewrite E, reduce_sum_total.
  - apply vertical_ops_length.
  - intros i img H. now rewrite (vertical_ops_nth _ _ _ _ H).
Qed.

Lemma vertical_layout_witness :
  [square 10; square 20] <> [] /\
  nth_error (Server.compositeOps (Server.Str "vertical") (Int 2)
               [square 10; square 20]) 1
  = Some {| Server.op_input := Server.buffer (square 20);
            Server.left := Int 0;
            Server.top :=
              Int (total (firstn 1 (map Server.height
                                      [square 10; square 20]))) |}.
Proof.
  assert (Hne : [square 10; square 20] <> []) by discriminate.
  split; [exact Hne |].
  exact (proj2 (proj2 (vertical_layout (Int 2) (Int 2) _ Hne))
           1%nat (square 20) eq_refl).
Defined.

(** ** Placed images do not overlap *)

Lemma total_firstn_mono (xs : list Z) (n m : nat) :
  (forall x, In x xs -> 0 <= x) -> (n <= m)%nat ->
  total (firstn n xs) <= total (firstn m xs).
Proof.
  intros Hpos Hnm.
  replace (firstn n xs) with (firstn n (firstn m xs)).
  - apply total_firstn_le. intros x Hx. apply Hpos.
    rewrite <- (firstn_skipn m xs). apply in_or_app. now left.
  - rewrite firstn_firstn. f_equal. lia.
Qed.

Lemma strip_apart (ws : list Z) (i j : nat) (w : Z) :
  (forall x, In x ws -> 0 <= x) -> (i < j)%nat ->
  nth_error ws i = Some w ->
  total (firstn i ws) + w <= total (firstn j ws).
Proof.
  intros Hpos Hij H. rewrite <- (total_firstn_succ _ _ _ H).
  apply total_firstn_mono; [exact Hpos | lia].
Qed.

Lemma cells_apart (c cw ch : Z) (i j wi hi wj hj : Z) :
  0 < c -> 0 <= i -> 0 <= j -> i <> j ->
  0 <= wi <= cw -> 0 <= hi <= ch -> 0 <= wj <= cw -> 0 <= hj <= ch ->
  Z.rem i c * cw + wi <= Z.rem j c * cw \/
  Z.rem j c * cw + wj <= Z.rem i c * cw \/
  i / c * ch + hi <= j / c * ch \/
  j / c * ch + hj <= i / c * ch.
Proof.
  intros Hc Hi Hj Hij Hwi Hhi Hwj Hhj.
  rewrite !Z.rem_mod_nonneg by lia.
  pose proof (Z.div_mod i c ltac:(lia)) as Ei.
  pose proof (Z.div_mod j c ltac:(lia)) as Ej.
  pose proof (Z.mod_pos_bound i c Hc).
  pose proof (Z.mod_pos_bound j c Hc).
  destruct (Z.lt_trichotomy (i / c) (j / c)) as [L | [E | L]].
  - right; right; left. nia.
  - destruct (Z.lt_trichotomy (i mod c) (j mod c)) as [L' | [E' | L']].
    + left. nia.
    + exfalso. apply Hij. rewrite Ei, Ej, E, E'. reflexivity.
    + right; left. nia.
  - right; right; right. nia.
Qed.

(** X2.  For images of non-negative dimensions, in the horizontal and
    the vertical strips and in a grid of a positive number of columns,
    two different images of the batch are never placed over each other,
    whatever the number of rows and of images. *)
Theorem placements_disjoint (mode : Server.Entry) (cols : number)
  (imgs : list Server.ProcessedImage) :
  (forall img, In img imgs ->
     0 <= Server.width img /\ 0 <= Server.height img) ->
  (Server.equals mode "grid" = true ->
   exists c : Z, cols = Int c /\ 0 < c) ->
  forall (i j : nat) (a b : Server.ProcessedImage)
         (p q : Server.CompositeOp),
    i <> j ->
    nth_error imgs i = Some a -> nth_error imgs j = Some b ->
    nth_error (Server.compositeOps mode cols imgs) i = Some p ->
    nth_error (Server.compositeOps mode cols imgs) j = Some q ->
    apart a p b q.
Proof.
  intros Hpos Hgrid i j a b p q Hij Ha Hb Hp Hq.
  assert (Hne : imgs <> []) by (eapply nth_error_nonempty; eauto).
  destruct (Hpos a (nth_error_In _ _ Ha)) as [Hwa Hha].
  destruct (Hpos b (nth_error_In _ _ Hb)) as [Hwb Hhb].
  assert (Hws : forall x, In x (map Server.width imgs) -> 0 <= x).
  { intros x Hx. apply in_map_iff in Hx as (k & <- & Hk). now apply Hpos. }
  assert (Hhs : forall x, In x (map Server.height imgs) -> 0 <= x).
  { intros x Hx. apply in_map_iff in Hx as (k & <- & Hk). now apply Hpos. }
  unfold apart. unfold Server.compositeOps in Hp, Hq.
  destruct (Server.equals mode "horizontal").
  { rewrite (horizontal_ops_nth _ _ _ _ Ha) in Hp. injection Hp as <-.
    rewrite (horizontal_ops_nth _ _ _ _ Hb) in Hq. injection Hq as <-.
    simpl. do 4 eexists. repeat (split; [reflexivity |]).
    destruct (Nat.lt_total i j) as [L | [E | L]]; [| contradiction |].
    - left. apply strip_apart; auto. now apply map_nth_error.
    - right; left. apply strip_apart; auto. now apply map_nth_error. }
  destruct (Server.equals mode "vertical").
  { rewrite (vertical_ops_nth _ _ _ _ Ha) in Hp. injection Hp as <-.
    rewrite (vertical_ops_nth _ _ _ _ Hb) in Hq. injection Hq as <-.
    simpl. do 4 eexists. repeat (split; [reflexivity |]).
    destruct (Nat.lt_total i j) as [L | [E | L]]; [| contradiction |].
    - right; right; left. apply strip_apart; auto. now apply map_nth_error.
    - right; right; right. apply strip_apart; auto.
      now apply map_nth_error. }
  destruct (Server.equals mode "grid"); [| destruct i; discriminate].
  destruct (Hgrid eq_refl) as (c & -> & Hc).
  destruct (Math_max_maximum (map Server.width imgs)) as (cw & Ew & _ & Bw);
    [now apply map_nonempty |].
  destruct (Math_max_maximum (map Server.height imgs)) as (ch & Eh & _ & Bh);
    [now apply map_nonempty |].
  rewrite Ew, Eh in Hp, Hq.
  rewrite (grid_ops_nth _ _ _ _ _ _ _ Ha) in Hp. injection Hp as <-.
  rewrite (grid_ops_nth _ _ _ _ _ _ _ Hb) in Hq. injection Hq as <-.
  simpl. assert (Ec : (c =? 0) = false) by (apply Z.eqb_neq; lia).
  rewrite Ec. simpl. do 4 eexists. repeat (split; [reflexivity |]).
  apply cells_apart; try lia.
  - split; [lia |]. apply Bw. eapply nth_error_map_in; eauto.
  - split; [lia |]. apply Bh. eapply nth_error_map_in; eauto.
  - split; [lia |]. apply Bw. eapply nth_error_map_in; eauto.
  - split; [lia |]. apply Bh. eapply nth_error_map_in; eauto.
Qed.

Lemma placements_disjoint_witness :
  apart (square 10)
    {| Server.op_input := Server.buffer (square 10);
       Server.left := Int 0; Server.top := Int 20 |}
    (square 20)
    {| Server.op_input := Server.buffer (square 20);
       Server.left := Int 0; Server.top := Int 40 |}.
Proof.
  apply (placements_disjoint (Server.Str "grid") (Int 1)
           [square 20; square 10; square 20]) with (i := 1%nat) (j := 2%nat).
  - intros img [<- | [<- | [<- | []]]]; simpl; lia.
  - intros _. exists 1. split; [reflexivity | lia].
  - discriminate.
  - reflexivity.
  - reflexivity.
  - reflexivity.
  - reflexivity.
Defined.

(** ** The answers of the route *)

Lemma merge_response (formData : Server.FormData) (bs : list Sharp.Buffer)
  (r : Server.Response) :
  snd (Server.merge formData bs) = Sharp.Ok r ->
  exists cw ch ops, r = Server.Png cw ch ops.
Proof.
  unfold Server.merge.
  destruct (Server.processedImages formData bs) as [log [imgs | e]];
    [| discriminate].
  simpl. destruct (Server.canvas _ _ _ imgs) as [w h]. simpl.
  destruct (Sharp.create w h); simpl; [| discriminate].
  destruct (Server.composite _); simpl; [| discriminate].
  intros E. injection E as <-. eauto.
Qed.

(** When the passes, the canvas and the offsets are accepted, the route
    answers with the image. *)
Lemma POST_ok (formData : Server.FormData)
  (imgs : list Server.ProcessedImage) (cw ch : number) :
  Server.collect_files formData <> [] ->
  snd (Server.processedImages formData (Server.collect_files formData))
  = Sharp.Ok imgs ->
  Server.canvas (Server.get "alignmentMode" formData)
    (Server.grid_parameter "gridRows" formData)
    (Server.grid_parameter "gridCols" formData) imgs = (cw, ch) ->
  Sharp.create cw ch = Sharp.Ok tt ->
  Server.composite
    (Server.compositeOps (Server.get "alignmentMode" formData)
       (Server.grid_parameter "gridCols" formData) imgs) = Sharp.Ok tt ->
  snd (Server.POST formData)
  = Server.Png cw ch
      (Server.compositeOps (Server.get "alignmentMode" formData)
         (Server.grid_parameter "gridCols" formData) imgs).
Proof.
  intros Hne Himgs Hcanvas Hcreate Hcomposite. unfold Server.POST.
  destruct (Server.collect_files formData) as [|b bs]; [congruence |].
  simpl Nat.eqb. cbv iota. unfold Server.merge.
  rewrite (bind_ok _ _ _ Himgs), Hcanvas. simpl.
  rewrite Hcreate. simpl. rewrite Hcomposite. reflexivity.
Qed.

(** X3.  The route answers with status 400 exactly when the form holds
    no file under a key starting with [image-]; in that case no codec
    call is made.  Any other request is answered with the merged image
    or with the generic error of status 500. *)
Theorem bad_request_iff_no_file (formData : Server.FormData) :
  ((exists message,
      snd (Server.POST formData) = Server.Json 400 message)
   <-> Server.collect_files formData = []) /\
  (Server.collect_files formData = [] ->
   Server.POST formData = ([], Server.Json 400 "No images provided")) /\
  (Server.collect_files formData <> [] ->
   (exists cw ch ops,
      snd (Server.POST formData) = Server.Png cw ch ops) \/
   snd (Server.POST formData) = Server.Json 500 "Failed to merge images").
Proof.
  assert (Hfull : Server.collect_files formData <> [] ->
    (exists cw ch ops,
       snd (Server.POST formData) = Server.Png cw ch ops) \/
    snd (Server.POST formData) = Server.Json 500 "Failed to merge images").
  { intros Hne. unfold Server.POST.
    destruct (Server.collect_files formData) as [|b bs]; [congruence |].
    simpl Nat.eqb. cbv iota.
    destruct (Server.merge formData (b :: bs)) as [log [r | e]] eqn:E.
    - left. apply (merge_response formData (b :: bs) r).
      now rewrite E.
    - right. reflexivity. }
  split; [split |split].
  - intros [message E].
    destruct (Server.collect_files formData) as [|b bs] eqn:Efiles;
      [reflexivity |].
    destruct Hfull as [(cw & ch & ops & E') | E']; [discriminate | |];
      rewrite E' in E; discriminate.
  - intros E. exists "No images provided". now rewrite (POST_empty _ E).
  - apply POST_empty.
  - exact Hfull.
Qed.

Lemma bad_request_iff_no_file_witness :
  Server.POST [("alignmentMode", Server.Str "grid");
               ("photo-0", Server.File (picture 10 10 1));
               ("image-0", Server.Str "not a file")]
  = ([], Server.Json 400 "No images provided").
Proof.
  apply (proj1 (proj2 (bad_request_iff_no_file _))). reflexivity.
Defined.

(** X4.  The files the route merges are exactly the values of the
    entries whose key starts with [image-] and whose value is a file, in
    the order of the form: such an entry contributes its file once, any
    other entry contributes nothing, and the contributions of the
    entries are concatenated in the order of the form. *)
Theorem collect_files_entries (formData more : Server.FormData)
  (key : string) (value : Server.Entry) (b : Sharp.Buffer) :
  Server.collect_files (formData ++ more)%list
  = (Server.collect_files formData ++ Server.collect_files more)%list /\
  (String.prefix "image-" key = true ->
   Server.collect_files [(key, Server.File b)] = [b]) /\
  (String.prefix "image-" key = false \/
   (forall f, value <> Server.File f) ->
   Server.collect_files [(key, value)] = []) /\
  (In b (Server.collect_files formData) <->
   exists key, In (key, Server.File b) formData /\
               String.prefix "image-" key = true).
Proof.
  split; [| split; [| split]].
  - induction formData as [|[k [| s | f]] rest IH]; simpl; auto.
    destruct (String.prefix "image-" k); simpl; now rewrite IH.
  - intros Hkey. cbn [Server.collect_files]. now rewrite Hkey.
  - intros [Hkey | Hvalue]; destruct value as [| s | f];
      cbn [Server.collect_files]; try reflexivity.
    + now rewrite Hkey.
    + now destruct (Hvalue f).
  - induction formData as [|[k v] rest IH]; simpl.
    + split; [tauto | intros (k & [] & _)].
    + destruct v as [| s | f].
      * rewrite IH. split.
        -- intros (k' & Hin & Hk). exists k'. split; [now right | exact Hk].
        -- intros (k' & [Hin | Hin] & Hk); [discriminate | eauto].
      * rewrite IH. split.
        -- intros (k' & Hin & Hk). exists k'. split; [now right | exact Hk].
        -- intros (k' & [Hin | Hin] & Hk); [discriminate | eauto].
      * destruct (String.prefix "image-" k) eqn:Ekey; simpl.
        -- rewrite IH. split.
           ++ intros [<- | (k' & Hin & Hk)].
              ** exists k. split; [now left | exact Ekey].
              ** exists k'. split; [now right | exact Hk].
           ++ intros (k' & [Hin | Hin] & Hk).
              ** injection Hin as <- <-. now left.
              ** right. eauto.
        -- rewrite IH. split.
           ++ intros (k' & Hin & Hk). exists k'.
              split; [now right | exact Hk].
           ++ intros (k' & [Hin | Hin] & Hk); [| eauto].
              injection Hin as <- <-. congruence.
Qed.

(** X5.  A request with files whose alignment mode is none of
    horizontal, vertical and grid is answered with the generic error of
    status 500: its canvas is 0 by 0, and nothing is composited. *)
Theorem unknown_mode_fails (formData : Server.FormData) :
  Server.collect_files formData <> [] ->
  unknown_mode (Server.get "alignmentMode" formData) ->
  snd (Server.POST formData) = Server.Json 500 "Failed to merge images" /\
  Forall (fun e => image_read e \/ e = Server.Create (Int 0) (Int 0))
    (fst (Server.POST formData)).
Proof.
  intros Hne (Hh & Hv & Hg). unfold Server.POST.
  destruct (Server.collect_files formData) as [|b bs] eqn:Efiles;
    [congruence |]. simpl Nat.eqb. cbv iota.
  pose proof (processedImages_log formData (b :: bs)) as Hlog.
  destruct (Server.processedImages formData (b :: bs)) as [log [imgs | e]]
    eqn:Epass.
  - assert (Hcanvas :
      Server.canvas (Server.get "alignmentMode" formData)
        (Server.grid_parameter "gridRows" formData)
        (Server.grid_parameter "gridCols" formData) imgs = (Int 0, Int 0)).
    { unfold Server.canvas. now rewrite Hh, Hv, Hg. }
    assert (Himgs : snd (Server.processedImages formData (b :: bs))
                    = Sharp.Ok imgs) by now rewrite Epass.
    rewrite (merge_canvas_refused _ _ _ _ _
               "Expected valid width, height and channels"
               Himgs Hcanvas eq_refl).
    rewrite Epass. simpl. split; [reflexivity |].
    apply Forall_app. split.
    + eapply Forall_impl; [| exact Hlog]. intros; now left.
    + constructor; [now right | constructor].
  - unfold Server.merge. rewrite (bind_throw _ _ e) by now rewrite Epass.
    rewrite Epass. simpl. split; [reflexivity |].
    eapply Forall_impl; [| exact Hlog]. intros; now left.
Qed.

Lemma unknown_mode_fails_witness :
  snd (Server.POST [("alignmentMode", Server.Str "diagonal");
                    ("image-0", Server.File (picture 10 10 1))])
  = Server.Json 500 "Failed to merge images".
Proof.
  apply unknown_mode_fails.
  - discriminate.
  - repeat split.
Defined.

(** ** Offsets are integers *)

Lemma horizontal_ops_integer (imgs : list Server.ProcessedImage) (x : Z) :
  forallb (fun op => Sharp.is_integer (Server.left op)
                     && Sharp.is_integer (Server.top op))
    (Server.horizontal_ops x imgs) = true.
Proof. revert x; induction imgs; intros; simpl; auto. Qed.

Lemma vertical_ops_integer (imgs : list Server.ProcessedImage) (y : Z) :
  forallb (fun op => Sharp.is_integer (Server.left op)
                     && Sharp.is_integer (Server.top op))
    (Server.vertical_ops y imgs) = true.
Proof. revert y; induction imgs; intros; simpl; auto. Qed.

(** The row and the column of an index, for a number of columns that is
    neither 0 nor NaN: no division by zero takes place. *)
Lemma row_and_column (cols : number) (index : Z) :
  truthy cols = true ->
  exists row col : Z,
    floor_div index cols = Int row /\ rem index cols = Int col.
Proof.
  destruct cols as [c | s |]; simpl; try discriminate.
  - destruct (c =? 0); [discriminate | eauto].
  - eauto.
Qed.

Lemma grid_ops_integer (cw ch : Z) (cols : number)
  (imgs : list Server.ProcessedImage) (k : Z) :
  truthy cols = true ->
  forallb (fun op => Sharp.is_integer (Server.left op)
                     && Sharp.is_integer (Server.top op))
    (Server.grid_ops (Int cw) (Int ch) cols k imgs) = true.
Proof.
  intros Hc.
  revert k; induction imgs as [|a imgs IH]; intros k; [reflexivity |].
  cbn [Server.grid_ops forallb Server.left Server.top]. rewrite IH.
  destruct (row_and_column cols k Hc) as (row & col & -> & ->).
  reflexivity.
Qed.

Lemma compositeOps_integer (mode : Server.Entry) (cols : number)
  (imgs : list Server.ProcessedImage) :
  truthy cols = true ->
  forallb (fun op => Sharp.is_integer (Server.left op)
                     && Sharp.is_integer (Server.top op))
    (Server.compositeOps mode cols imgs) = true.
Proof.
  intros Hc. unfold Server.compositeOps.
  destruct (Server.equals _ "horizontal");
    [apply horizontal_ops_integer |].
  destruct (Server.equals _ "vertical");
    [apply vertical_ops_integer |].
  destruct (Server.equals _ "grid"); [| reflexivity].
  destruct imgs as [|a imgs]; [reflexivity |].
  destruct (Math_max_maximum (map Server.width (a :: imgs)))
    as (cw & -> & _); [discriminate |].
  destruct (Math_max_maximum (map Server.height (a :: imgs)))
    as (ch & -> & _); [discriminate |].
  now apply grid_ops_integer.
Qed.

(** Whatever a grid field holds, the route uses a number that is neither
    0 nor NaN. *)
Lemma grid_parameter_truthy (name : string) (formData : Server.FormData) :
  truthy (Server.grid_parameter name formData) = true.
Proof.
  unfold Server.grid_parameter, or_else.
  destruct (truthy (parseInt _)) eqn:E; [exact E | reflexivity].
Qed.

Lemma composite_accepts (formData : Server.FormData)
  (imgs : list Server.ProcessedImage) :
  Server.composite
    (Server.compositeOps (Server.get "alignmentMode" formData)
       (Server.grid_parameter "gridCols" formData) imgs) = Sharp.Ok tt.
Proof.
  unfold Server.composite.
  now rewrite compositeOps_integer by apply grid_parameter_truthy.
Qed.

(** X6.  The route never divides by zero.  Whatever the form says, the
    rows and the columns it uses are neither 0 nor NaN.  For every such
    number of columns, an infinity included, the row and the column of
    every index are integers, the offsets computed for any batch of
    processed images in any mode are integers, and compositing does not
    raise on them; so it is for the columns and the mode of the form. *)
Theorem composite_never_raises (formData : Server.FormData) :
  truthy (Server.grid_parameter "gridRows" formData) = true /\
  truthy (Server.grid_parameter "gridCols" formData) = true /\
  (forall (mode : Server.Entry) (cols : number)
          (imgs : list Server.ProcessedImage),
     truthy cols = true ->
     (forall index : Z, exists row col : Z,
        floor_div index cols = Int row /\ rem index cols = Int col) /\
     Forall integer_offsets (Server.compositeOps mode cols imgs) /\
     Server.composite (Server.compositeOps mode cols imgs) = Sharp.Ok tt) /\
  (forall imgs : list Server.ProcessedImage,
     Server.composite
       (Server.compositeOps (Server.get "alignmentMode" formData)
          (Server.grid_parameter "gridCols" formData) imgs) = Sharp.Ok tt).
Proof.
  split; [apply grid_parameter_truthy |].
  split; [apply grid_parameter_truthy |].
  split; [| intros imgs; unfold Server.composite;
            now rewrite compositeOps_integer by apply grid_parameter_truthy].
  intros mode cols imgs Hc.
  pose proof (compositeOps_integer mode cols imgs Hc) as Hall.
  split; [intros index; now apply row_and_column |].
  split; [| unfold Server.composite; now rewrite Hall].
  rewrite forallb_forall in Hall. apply Forall_forall. intros op Hop.
  specialize (Hall op Hop). apply andb_true_iff in Hall as [El Et].
  unfold integer_offsets.
  destruct (Server.left op) as [l | |]; try discriminate.
  destruct (Server.top op) as [t | |]; try discriminate.
  eauto.
Qed.

(** ** Requests that succeed *)

Lemma targets_ok (alignDimension : Server.Entry)
  (bs : list Sharp.Buffer) :
  bs <> [] -> positive_images bs ->
  target_ok (Server.targetWidth alignDimension (map Sharp.header bs)) /\
  target_ok (Server.targetHeight alignDimension (map Sharp.header bs)).
Proof.
  intros Hne Hpos. unfold Server.targetWidth, Server.targetHeight.
  assert (Hdims : map Sharp.header bs <> []) by now apply map_nonempty.
  destruct (Math_max_maximum (map Sharp.width (map Sharp.header bs)))
    as (mw & -> & Iw & _); [now apply map_nonempty |].
  destruct (Math_max_maximum (map Sharp.height (map Sharp.header bs)))
    as (mh & -> & Ih & _); [now apply map_nonempty |].
  rewrite map_map in Iw, Ih.
  apply in_map_iff in Iw as (b & <- & Hb).
  apply in_map_iff in Ih as (b' & <- & Hb').
  destruct (Server.equals alignDimension "width");
    [| destruct (Server.equals alignDimension "height")];
    split; try (now left); right; eexists; split; try reflexivity;
    now apply Hpos.
Qed.

Lemma process_positive (rw rh : Server.Entry) (tw th : option number)
  (b : Sharp.Buffer) :
  Server.given rw = false -> Server.given rh = false ->
  target_ok tw -> target_ok th ->
  0 < Sharp.width (Sharp.header b) /\ 0 < Sharp.height (Sharp.header b) ->
  exists img, snd (Server.process rw rh tw th b) = Sharp.Ok img /\
              0 < Server.width img /\ 0 < Server.height img.
Proof.
  intros Hrw Hrh Htw Hth Hb. apply oriented_positive in Hb as [Hw Hh].
  destruct Htw as [-> | (m & -> & Hm)].
  - destruct Hth as [-> | (m & -> & Hm)].
    + rewrite (process_oriented _ _ _ Hrw Hrh). eexists.
      split; [reflexivity |]. simpl. split; assumption.
    + assert (Em : (m =? 0) = false) by (apply Z.eqb_neq; lia).
      assert (Lm : (0 <? m) = true) by (apply Z.ltb_lt; lia).
      erewrite process_ok.
      2:{ unfold Server.plan. rewrite Hrw, Hrh. simpl. rewrite Em. simpl.
          unfold Sharp.resize. simpl. rewrite Lm. reflexivity. }
      eexists. split; [reflexivity |]. simpl.
      unfold Sharp.output_dimensions, Sharp.fit_inside. simpl.
      split; [apply scaled_positive | exact Hm].
  - assert (Em : (m =? 0) = false) by (apply Z.eqb_neq; lia).
    assert (Lm : (0 <? m) = true) by (apply Z.ltb_lt; lia).
    erewrite process_ok.
    2:{ unfold Server.plan. rewrite Hrw, Hrh. simpl. rewrite Em. simpl.
        unfold Sharp.resize. simpl. rewrite Lm. reflexivity. }
    eexists. split; [reflexivity |]. simpl.
    unfold Sharp.output_dimensions, Sharp.fit_inside. simpl.
    split; [exact Hm | apply scaled_positive].
Qed.

(** Without explicit resize, the two passes process every image of
    positive dimensions into an image of positive dimensions. *)
Lemma processedImages_positive (formData : Server.FormData)
  (bs : list Sharp.Buffer) :
  bs <> [] -> positive_images bs ->
  Server.given (Server.get "resizeWidth" formData) = false ->
  Server.given (Server.get "resizeHeight" formData) = false ->
  exists imgs,
    snd (Server.processedImages formData bs) = Sharp.Ok imgs /\
    Forall2 (fun _ img => 0 < Server.width img /\ 0 < Server.height img)
      bs imgs.
Proof.
  intros Hne Hpos Hrw Hrh. unfold Server.processedImages.
  rewrite (bind_ok _ _ _ (f_equal snd (first_pass_all bs))). simpl snd.
  destruct (targets_ok (Server.get "alignDimension" formData) bs Hne Hpos)
    as [Htw Hth].
  apply all_ok. intros b Hb. apply process_positive; auto.
Qed.

Lemma Forall2_right {A B} (P : B -> Prop) (xs : list A) (ys : list B) :
  Forall2 (fun _ y => P y) xs ys ->
  List.length ys = List.length xs /\ forall y, In y ys -> P y.
Proof.
  induction 1 as [|x y xs ys Hy _ [IHl IHp]]; simpl.
  - split; [reflexivity | tauto].
  - split; [now rewrite IHl |]. intros z [<- | Hz]; auto.
Qed.

Lemma compositeOps_length (formData : Server.FormData)
  (imgs : list Server.ProcessedImage) :
  valid_layout formData ->
  List.length
    (Server.compositeOps (Server.get "alignmentMode" formData)
       (Server.grid_parameter "gridCols" formData) imgs)
  = List.length imgs.
Proof.
  unfold Server.compositeOps.
  intros [H | [H | [H _]]].
  - rewrite H. apply horizontal_ops_length.
  - rewrite (equals_eq _ _ H). simpl. apply vertical_ops_length.
  - rewrite (equals_eq _ _ H). simpl. apply grid_ops_length.
Qed.

(** X7.  A request with at least one image, all of positive dimensions,
    without explicit resize, in horizontal or vertical mode or in a grid
    of positive rows and columns below 2^53, is answered with the merged
    image: its canvas has positive integer sides and there is one
    composite operation per uploaded image. *)
Theorem plain_request_succeeds (formData : Server.FormData) :
  Server.collect_files formData <> [] ->
  positive_images (Server.collect_files formData) ->
  Server.given (Server.get "resizeWidth" formData) = false ->
  Server.given (Server.get "resizeHeight" formData) = false ->
  valid_layout formData ->
  exists (cw ch : Z) (ops : list Server.CompositeOp),
    snd (Server.POST formData) = Server.Png (Int cw) (Int ch) ops /\
    0 < cw /\ 0 < ch /\
    List.length ops = List.length (Server.collect_files formData).
Proof.
  intros Hne Hpos Hrw Hrh Hvalid.
  destruct (processedImages_positive formData _ Hne Hpos Hrw Hrh)
    as (imgs & Himgs & Hall).
  apply Forall2_right in Hall as [Hlen Hdims].
  assert (Hne' : imgs <> []).
  { intros ->. destruct (Server.collect_files formData);
      [congruence | discriminate]. }
  assert (Hcanvas : positive_canvas
    (Server.canvas (Server.get "alignmentMode" formData)
       (Server.grid_parameter "gridRows" formData)
       (Server.grid_parameter "gridCols" formData) imgs)).
  { apply canvas_positive; [exact Hne' | exact Hdims |].
    destruct Hvalid as [H | [H | (H & r & c & Er & Ec & Hr & Hc)]];
      [now left | now right; left |].
    right; right. split; [exact H |]. exists r, c.
    repeat split; try assumption; lia. }
  destruct Hcanvas as (cw & ch & Ecanvas & Hcw & Hch).
  exists cw, ch. eexists. split; [| split; [exact Hcw | split; [exact Hch |]]].
  - apply (POST_ok formData imgs (Int cw) (Int ch) Hne Himgs Ecanvas).
    + unfold Sharp.create. apply Z.ltb_lt in Hcw, Hch.
      now rewrite Hcw, Hch.
    + apply composite_accepts.
  - now rewrite compositeOps_length.
Qed.

Lemma plain_request_succeeds_witness :
  exists (cw ch : Z) (ops : list Server.CompositeOp),
    snd (Server.POST grid_request) = Server.Png (Int cw) (Int ch) ops
    /\ 0 < cw /\ 0 < ch /\
    List.length ops = List.length (Server.collect_files grid_request).
Proof.
  apply plain_request_succeeds.
  - discriminate.
  - intros b [<- | [<- | [<- | []]]]; simpl; lia.
  - reflexivity.
  - reflexivity.
  - right; right. split; [reflexivity |]. exists 2, 2.
    repeat split; try reflexivity; lia.
Defined.

(** ** Explicit resize against alignment, on the whole request *)

Lemma plan_ignores_targets (rw rh : Server.Entry)
  (tw th tw' th' : option number) (b : Sharp.Buffer) :
  Server.given rw || Server.given rh = true ->
  Server.plan rw rh tw th b = Server.plan rw rh tw' th' b.
Proof. unfold Server.plan. now intros ->. Qed.

Lemma all_ext {A B} (f g : A -> Server.M B) (xs : list A) :
  (forall x, f x = g x) -> Server.all f xs = Server.all g xs.
Proof.
  intros H. induction xs as [|x xs IH]; simpl; [reflexivity |].
  now rewrite H, IH.
Qed.

(** X8.  When the form gives an explicit resize width or height, the
    [alignDimension] field has no effect at all: the route makes the
    same codec calls and gives the same answer whatever its value. *)
Theorem resize_silences_alignment (formData : Server.FormData)
  (v v' : Server.Entry) :
  Server.given (Server.get "resizeWidth" formData)
  || Server.given (Server.get "resizeHeight" formData) = true ->
  Server.POST (("alignDimension", v) :: formData)
  = Server.POST (("alignDimension", v') :: formData).
Proof.
  intros Hgiven. unfold Server.POST.
  assert (Efiles : forall w,
    Server.collect_files (("alignDimension", w) :: formData)
    = Server.collect_files formData).
  { intros [| t | f]; reflexivity. }
  rewrite !Efiles.
  destruct (List.length (Server.collect_files formData) =? 0)%nat;
    [reflexivity |].
  assert (Epass : forall w,
    Server.processedImages (("alignDimension", w) :: formData)
      (Server.collect_files formData)
    = Server.processedImages (("alignDimension", Server.null) :: formData)
        (Server.collect_files formData)).
  { intros w. unfold Server.processedImages. simpl Server.get.
    unfold Server.bind.
    destruct (Server.all Server.first_pass _) as [log [dims | e]];
      [| reflexivity].
    erewrite all_ext; [reflexivity |].
    intros b. unfold Server.process.
    now rewrite (plan_ignores_targets _ _ _ _
                   (Server.targetWidth Server.null dims)
                   (Server.targetHeight Server.null dims) b Hgiven). }
  assert (Emerge : forall w,
    Server.merge (("alignDimension", w) :: formData)
      (Server.collect_files formData)
    = Server.merge (("alignDimension", Server.null) :: formData)
        (Server.collect_files formData)).
  { intros w. unfold Server.merge. now rewrite Epass. }
  now rewrite (Emerge v), (Emerge v').
Qed.

Lemma resize_silences_alignment_witness :
  Server.POST (("alignDimension", Server.Str "width") :: zero_width_request)
  = Server.POST (("alignDimension", Server.Str "none") :: zero_width_request).
Proof.
  apply resize_silences_alignment. reflexivity.
Defined.

(** ** A strip of aligned images *)

Lemma Math_max_constant (m : Z) (xs : list Z) :
  xs <> [] -> (forall x, In x xs -> x = m) -> Math_max xs = Int m.
Proof.
  intros Hne Hall.
  destruct (Math_max_maximum xs Hne) as (m' & -> & Hin & _).
  now rewrite (Hall m' Hin).
Qed.

Lemma vertical_ops_left (imgs : list Server.ProcessedImage) (y : Z) :
  Forall (fun op => Server.left op = Int 0) (Server.vertical_ops y imgs).
Proof. revert y; induction imgs; intros; simpl; constructor; auto. Qed.

Lemma horizontal_ops_top (imgs : list Server.ProcessedImage) (x : Z) :
  Forall (fun op => Server.top op = Int 0) (Server.horizontal_ops x imgs).
Proof. revert x; induction imgs; intros; simpl; constructor; auto. Qed.

Lemma Forall2_and_right {A B} (P Q : B -> Prop) (xs : list A)
  (ys : list B) :
  Forall2 (fun _ y => P y /\ Q y) xs ys ->
  List.length ys = List.length xs /\
  (forall y, In y ys -> P y) /\ (forall y, In y ys -> Q y).
Proof.
  intros H. apply Forall2_right in H as [Hl Hp].
  split; [exact Hl |]. split; intros y Hy; now apply Hp.
Qed.

(** X9.  Alignment and strips compose.  With alignment to the width, no
    explicit resize and the vertical mode, every processed image is
    exactly as wide as the canvas, which is as wide as the largest width
    read in the first pass, and every image is placed at the left edge:
    the strip has no gap at its sides.  The same holds for alignment to
    the height in the horizontal mode. *)
Theorem aligned_strip (formData : Server.FormData) :
  Server.collect_files formData <> [] ->
  positive_images (Server.collect_files formData) ->
  Server.given (Server.get "resizeWidth" formData) = false ->
  Server.given (Server.get "resizeHeight" formData) = false ->
  (Server.get "alignDimension" formData = Server.Str "width" ->
   Server.get "alignmentMode" formData = Server.Str "vertical" ->
   exists (m : Z) (imgs : list Server.ProcessedImage)
          (ops : list Server.CompositeOp),
     maximum_of m
       (map Sharp.width (map Sharp.header (Server.collect_files formData)))
     /\ snd (Server.processedImages formData
               (Server.collect_files formData)) = Sharp.Ok imgs
     /\ (forall img, In img imgs -> Server.width img = m)
     /\ snd (Server.POST formData)
        = Server.Png (Int m) (Int (total (map Server.height imgs))) ops
     /\ Forall (fun op => Server.left op = Int 0) ops) /\
  (Server.get "alignDimension" formData = Server.Str "height" ->
   Server.get "alignmentMode" formData = Server.Str "horizontal" ->
   exists (m : Z) (imgs : list Server.ProcessedImage)
          (ops : list Server.CompositeOp),
     maximum_of m
       (map Sharp.height (map Sharp.header (Server.collect_files formData)))
     /\ snd (Server.processedImages formData
               (Server.collect_files formData)) = Sharp.Ok imgs
     /\ (forall img, In img imgs -> Server.height img = m)
     /\ snd (Server.POST formData)
        = Server.Png (Int (total (map Server.width imgs))) (Int m) ops
     /\ Forall (fun op => Server.top op = Int 0) ops).
Proof.
  intros Hne Hpos Hrw Hrh.
  set (bs := Server.collect_files formData) in *.
  assert (Hpass : forall tw th,
    Server.targetWidth (Server.get "alignDimension" formData)
      (map Sharp.header bs) = tw ->
    Server.targetHeight (Server.get "alignDimension" formData)
      (map Sharp.header bs) = th ->
    snd (Server.processedImages formData bs)
    = snd (Server.all
             (Server.process (Server.get "resizeWidth" formData)
                (Server.get "resizeHeight" formData) tw th) bs)).
  { intros tw th <- <-. unfold Server.processedImages.
    now rewrite (bind_ok _ _ _ (f_equal snd (first_pass_all bs))). }
  split; intros Halign Hmode.
  - destruct (Math_max_maximum (map Sharp.width (map Sharp.header bs)))
      as (m & Em & Hm); [now apply map_nonempty, map_nonempty |].
    assert (Hmpos : 0 < m).
    { destruct Hm as [Hin _]. rewrite map_map in Hin.
      apply in_map_iff in Hin as (b & <- & Hb). now apply Hpos. }
    destruct (all_ok
                (Server.process (Server.get "resizeWidth" formData)
                   (Server.get "resizeHeight" formData)
                   (Some (Int m)) None)
                (fun _ img => Server.width img = m /\
                              0 < Server.height img) bs)
      as (imgs & Eimgs & Hall).
    { intros b Hb.
      destruct (process_align_width _ _ None m b Hrw Hrh Hmpos (Hpos b Hb))
        as (img & E & _ & Hw & _).
      destruct (process_positive _ _ (Some (Int m)) None b Hrw Hrh)
        as (img' & E' & _ & Hh); try (now left); try (now apply Hpos).
      { right. eauto. }
      rewrite E in E'. injection E' as <-. eauto. }
    apply Forall2_and_right in Hall as (Hlen & Hwidth & Hheight).
    assert (Hne' : imgs <> []).
    { intros ->. destruct bs; [congruence | discriminate]. }
    assert (Hprocessed :
      snd (Server.processedImages formData bs) = Sharp.Ok imgs).
    { rewrite (Hpass (Some (Int m)) None); [exact Eimgs | |];
        unfold Server.targetWidth, Server.targetHeight;
        rewrite Halign; simpl; now rewrite ?Em. }
    assert (Ecanvas :
      Server.canvas (Server.get "alignmentMode" formData)
        (Server.grid_parameter "gridRows" formData)
        (Server.grid_parameter "gridCols" formData) imgs
      = (Int m, Int (total (map Server.height imgs)))).
    { rewrite Hmode. unfold Server.canvas. simpl.
      rewrite reduce_sum_total.
      rewrite (Math_max_constant m); [reflexivity | |].
      - now apply map_nonempty.
      - intros x Hx. apply in_map_iff in Hx as (img & <- & Hin). auto. }
    assert (Htotal : 0 < total (map Server.height imgs)).
    { destruct imgs as [|a imgs]; [congruence |]. simpl.
      assert (0 < Server.height a) by (apply Hheight; now left).
      assert (0 <= total (map Server.height imgs)); [| lia].
      apply total_nonneg. intros x Hx.
      apply in_map_iff in Hx as (img & <- & Hin).
      assert (0 < Server.height img) by (apply Hheight; now right). lia. }
    exists m, imgs. eexists.
    split; [exact Hm |]. split; [exact Hprocessed |].
    split; [exact Hwidth |]. split.
    + apply (POST_ok formData imgs _ _ Hne Hprocessed Ecanvas).
      * unfold Sharp.create. apply Z.ltb_lt in Hmpos, Htotal.
        now rewrite Hmpos, Htotal.
      * apply composite_accepts.
    + rewrite Hmode. unfold Server.compositeOps. simpl.
      apply vertical_ops_left.
  - destruct (Math_max_maximum (map Sharp.height (map Sharp.header bs)))
      as (m & Em & Hm); [now apply map_nonempty, map_nonempty |].
    assert (Hmpos : 0 < m).
    { destruct Hm as [Hin _]. rewrite map_map in Hin.
      apply in_map_iff in Hin as (b & <- & Hb). now apply Hpos. }
    destruct (all_ok
                (Server.process (Server.get "resizeWidth" formData)
                   (Server.get "resizeHeight" formData)
                   None (Some (Int m)))
                (fun _ img => Server.height img = m /\
                              0 < Server.width img) bs)
      as (imgs & Eimgs & Hall).
    { intros b Hb.
      destruct (process_align_height _ _ m b Hrw Hrh Hmpos (Hpos b Hb))
        as (img & E & _ & Hh & _).
      destruct (process_positive _ _ None (Some (Int m)) b Hrw Hrh)
        as (img' & E' & Hw & _); try (now left); try (now apply Hpos).
      { right. eauto. }
      rewrite E in E'. injection E' as <-. eauto. }
    apply Forall2_and_right in Hall as (Hlen & Hheight & Hwidth).
    assert (Hne' : imgs <> []).
    { intros ->. destruct bs; [congruence | discriminate]. }
    assert (Hprocessed :
      snd (Server.processedImages formData bs) = Sharp.Ok imgs).
    { rewrite (Hpass None (Some (Int m))); [exact Eimgs | |];
        unfold Server.targetWidth, Server.targetHeight;
        rewrite Halign; simpl; now rewrite ?Em. }
    assert (Ecanvas :
      Server.canvas (Server.get "alignmentMode" formData)
        (Server.grid_parameter "gridRows" formData)
        (Server.grid_parameter "gridCols" formData) imgs
      = (Int (total (map Server.width imgs)), Int m)).
    { rewrite Hmode. unfold Server.canvas. simpl.
      rewrite reduce_sum_total.
      rewrite (Math_max_constant m); [reflexivity | |].
      - now apply map_nonempty.
      - intros x Hx. apply in_map_iff in Hx as (img & <- & Hin). auto. }
    assert (Htotal : 0 < total (map Server.width imgs)).
    { destruct imgs as [|a imgs]; [congruence |]. simpl.
      assert (0 < Server.width a) by (apply Hwidth; now left).
      assert (0 <= total (map Server.width imgs)); [| lia].
      apply total_nonneg. intros x Hx.
      apply in_map_iff in Hx as (img & <- & Hin).
      assert (0 < Server.width img) by (apply Hwidth; now right). lia. }
    exists m, imgs. eexists.
    split; [exact Hm |]. split; [exact Hprocessed |].
    split; [exact Hheight |]. split.
    + apply (POST_ok formData imgs _ _ Hne Hprocessed Ecanvas).
      * unfold Sharp.create. apply Z.ltb_lt in Hmpos, Htotal.
        now rewrite Htotal, Hmpos.
      * apply composite_accepts.
    + rewrite Hmode. unfold Server.compositeOps. simpl.
      apply horizontal_ops_top.
Qed.

Lemma aligned_strip_witness :
  exists (m : Z) (imgs : list Server.ProcessedImage)
         (ops : list Server.CompositeOp),
    maximum_of m [100; 200] /\
    (forall img, In img imgs -> Server.width img = m) /\
    snd (Server.POST align_width_request)
    = Server.Png (Int m) (Int (total (map Server.height imgs))) ops.
Proof.
  destruct (aligned_strip align_width_request) as [Hwidth _].
  - discriminate.
  - intros b [<- | [<- | []]]; simpl; lia.
  - reflexivity.
  - reflexivity.
  - destruct (Hwidth eq_refl eq_refl)
      as (m & imgs & ops & Hm & _ & Hw & Hpost & _).
    exists m, imgs, ops. repeat split; try assumption; apply Hm.
Defined.

(** ** Alignment, image by image *)

(** X21.  For a non-empty batch of images of positive stored
    dimensions, with alignment to the width and no explicit resize, the
    target width is the largest of the widths read in the first pass,
    which are the natural widths of the images when none of them carries
    a quarter-turn orientation; every image is resized to exactly that
    width by a resize that may enlarge, and the height-to-width ratio of
    each resized image is that of the oriented image within one pixel;
    and symmetrically for alignment to the height. *)
Theorem alignment_to_max (formData : Server.FormData)
  (bs : list Sharp.Buffer) :
  bs <> [] ->
  Server.given (Server.get "resizeWidth" formData) = false ->
  Server.given (Server.get "resizeHeight" formData) = false ->
  (forall b, In b bs ->
     0 < Sharp.width (Sharp.header b) /\ 0 < Sharp.height (Sharp.header b)) ->
  (Server.get "alignDimension" formData = Server.Str "width" ->
   exists (m : Z) (imgs : list Server.ProcessedImage),
     maximum_of m (map Sharp.width (map Sharp.header bs)) /\
     ((forall b, In b bs -> Sharp.oriented b = Sharp.header b) ->
      maximum_of m (map Sharp.width (map Sharp.oriented bs))) /\
     snd (Server.processedImages formData bs) = Sharp.Ok imgs /\
     Forall2 (aligned_width m) bs imgs) /\
  (Server.get "alignDimension" formData = Server.Str "height" ->
   exists (m : Z) (imgs : list Server.ProcessedImage),
     maximum_of m (map Sharp.height (map Sharp.header bs)) /\
     ((forall b, In b bs -> Sharp.oriented b = Sharp.header b) ->
      maximum_of m (map Sharp.height (map Sharp.oriented bs))) /\
     snd (Server.processedImages formData bs) = Sharp.Ok imgs /\
     Forall2 (aligned_height m) bs imgs).
Proof.
  intros Hne Hrw Hrh Hpos.
  assert (Hdims : map Sharp.header bs <> []) by now apply map_nonempty.
  split; intros Halign; unfold Server.processedImages;
    rewrite (bind_ok _ _ _ (f_equal snd (first_pass_all bs)));
    simpl snd; rewrite Halign;
    unfold Server.targetWidth, Server.targetHeight; simpl.
  - destruct (Math_max_maximum (map Sharp.width (map Sharp.header bs)))
      as (m & Em & Hm); [now apply map_nonempty |].
    rewrite Em. exists m.
    assert (0 < m).
    { destruct Hm as [Hin _]. rewrite map_map in Hin.
      apply in_map_iff in Hin as (b & <- & Hb). now apply Hpos. }
    destruct (all_ok
                (Server.process (Server.get "resizeWidth" formData)
                   (Server.get "resizeHeight" formData)
                   (Some (Int m)) None)
                (aligned_width m) bs) as (imgs & Eimgs & Himgs).
    { intros b Hb. apply process_align_width; auto. }
    exists imgs. split; [exact Hm |]. split; [| split; assumption].
    intros Hsame. now apply maximum_of_natural.
  - destruct (Math_max_maximum (map Sharp.height (map Sharp.header bs)))
      as (m & Em & Hm); [now apply map_nonempty |].
    rewrite Em. exists m.
    assert (0 < m).
    { destruct Hm as [Hin _]. rewrite map_map in Hin.
      apply in_map_iff in Hin as (b & <- & Hb). now apply Hpos. }
    destruct (all_ok
                (Server.process (Server.get "resizeWidth" formData)
                   (Server.get "resizeHeight" formData)
                   None (Some (Int m)))
                (aligned_height m) bs) as (imgs & Eimgs & Himgs).
    { intros b Hb. apply process_align_height; auto. }
    exists imgs. split; [exact Hm |]. split; [| split; assumption].
    intros Hsame. now apply maximum_of_natural.
Qed.

Lemma alignment_to_max_witness :
  exists (m : Z) (imgs : list Server.ProcessedImage),
    maximum_of m [100; 200] /\
    snd (Server.processedImages align_width_request
           (Server.collect_files align_width_request)) = Sharp.Ok imgs /\
    Forall2 (aligned_width m)
      (Server.collect_files align_width_request) imgs.
Proof.
  destruct (alignment_to_max align_width_request
              (Server.collect_files align_width_request))
    as [Hwidth _].
  - discriminate.
  - reflexivity.
  - reflexivity.
  - intros b [<- | [<- | []]]; simpl; lia.
  - destruct (Hwidth eq_refl) as (m & imgs & Hm & _ & Himgs & Hall).
    exists m, imgs. repeat split; try assumption; apply Hm.
Defined.

(** ** Numbers written by the page and read by the route *)

Section Digits.

Import DecimalString.

Lemma parse_digit (c : ascii) (k : Z) (rest : string) (acc : option Z) :
  digit_value c = Some k -> (k <? 10) = true ->
  parse_digits 10 (String c rest) acc
  = parse_digits 10 rest
      (Some (10 * match acc with Some a => a | None => 0 end + k)).
Proof. intros H L. cbn [parse_digits]. now rewrite H, L. Qed.

Lemma parse_digits_from (d : Decimal.uint) (a : Z) :
  parse_digits 10 (NilEmpty.string_of_uint d) (Some a)
  = Some (uint_value d a).
Proof.
  revert a. induction d; intros a; cbn [NilEmpty.string_of_uint uint_value];
    [ reflexivity
    | erewrite parse_digit by reflexivity; apply IHd .. ].
Qed.

Lemma parse_digits_uint (d : Decimal.uint) (acc : option Z) :
  d <> Decimal.Nil ->
  parse_digits 10 (NilEmpty.string_of_uint d) acc
  = Some (uint_value d match acc with Some a => a | None => 0 end).
Proof.
  intros Hd. destruct d; [congruence | ..];
    cbn [NilEmpty.string_of_uint uint_value];
    (erewrite parse_digit by reflexivity; apply parse_digits_from).
Qed.

Lemma uint_value_acc (d : Decimal.uint) (a : Z) :
  0 < a -> uint_value d a = Z.pos (Pos.of_uint_acc d (Z.to_pos a)).
Proof.
  revert a. induction d; intros a Ha;
    cbn [uint_value Pos.of_uint_acc];
    [ now rewrite Z2Pos.id | .. ];
    (rewrite IHd by lia; do 2 f_equal; apply Pos2Z.inj;
     rewrite Z2Pos.id by lia;
     rewrite ?Pos2Z.inj_add, Pos2Z.inj_mul, Z2Pos.id by lia; lia).
Qed.

Lemma uint_value_of_uint (d : Decimal.uint) :
  uint_value d 0 = Z.of_N (Pos.of_uint d).
Proof.
  induction d; cbn [uint_value Pos.of_uint]; try reflexivity;
    try exact IHd; (rewrite uint_value_acc by lia; reflexivity).
Qed.

Lemma string_of_uint_head (d : Decimal.uint) :
  d <> Decimal.Nil ->
  trim_start (NilEmpty.string_of_uint d) = NilEmpty.string_of_uint d /\
  strip_sign (NilEmpty.string_of_uint d)
  = (1, NilEmpty.string_of_uint d) /\
  strip_prefix (NilEmpty.string_of_uint d)
  = (10, NilEmpty.string_of_uint d).
Proof.
  intros Hd. destruct d as [| d | d | d | d | d | d | d | d | d | d];
    try congruence; (repeat split; try reflexivity);
    destruct d; reflexivity.
Qed.

Lemma parseInt_positive (p : positive) :
  parseInt (NilZero.string_of_uint (Pos.to_uint p)) = Int (Z.pos p).
Proof.
  pose proof (DecimalPos.Unsigned.to_uint_nonnil p) as Hd.
  pose proof (DecimalPos.Unsigned.of_to p) as Hp.
  destruct (string_of_uint_head _ Hd) as (Ht & Hs & Hx).
  assert (E : NilZero.string_of_uint (Pos.to_uint p)
              = NilEmpty.string_of_uint (Pos.to_uint p)).
  { unfold NilZero.string_of_uint. destruct (Pos.to_uint p);
      [congruence | reflexivity ..]. }
  rewrite E. unfold parseInt. rewrite Ht, Hs, Hx.
  rewrite (parse_digits_uint _ None Hd), uint_value_of_uint, Hp.
  reflexivity.
Qed.

End Digits.

Lemma parseInt_decimal (z : Z) :
  parseInt (Page.toString (Int z)) = Int z.
Proof.
  destruct z as [| p | p]; simpl.
  - reflexivity.
  - apply parseInt_positive.
  - pose proof (parseInt_positive p) as H. unfold parseInt in *.
    pose proof (DecimalPos.Unsigned.to_uint_nonnil p) as Hd.
    destruct (string_of_uint_head _ Hd) as (Ht & Hs & Hx).
    assert (E : DecimalString.NilZero.string_of_uint (Pos.to_uint p)
                = DecimalString.NilEmpty.string_of_uint (Pos.to_uint p)).
    { unfold DecimalString.NilZero.string_of_uint.
      destruct (Pos.to_uint p); [congruence | reflexivity ..]. }
    rewrite E in *. rewrite Ht, Hs in H.
    cbn [trim_start]. change (is_whitespace "-") with false. cbv iota.
    cbn [strip_sign]. destruct (strip_prefix _) as [R Z'].
    destruct (parse_digits R Z' None) as [m |]; [| discriminate].
    injection H as H. f_equal.
    destruct m; try discriminate. injection H as ->. reflexivity.
Qed.

(** X10.  An integer below 10^21 in magnitude, which [toString] writes
    in plain digits, is read back by [parseInt] as the same integer, so
    that the numbers the page puts in the form are the numbers the route
    parses; NaN and the infinities, once written, are read back as
    NaN. *)
Theorem parseInt_toString (n : number) :
  (forall z, n = Int z -> Z.abs z < 10 ^ 21 ->
     parseInt (Page.toString n) = Int z) /\
  (n = NaN \/ (exists negative, n = Infinity negative) ->
   parseInt (Page.toString n) = NaN).
Proof.
  split.
  - intros z -> _. apply parseInt_decimal.
  - intros [-> | [[|] ->]]; reflexivity.
Qed.

Lemma parseInt_toString_witness :
  parseInt (Page.toString (Int (-1200))) = Int (-1200) /\
  parseInt (Page.toString (Infinity false)) = NaN.
Proof.
  split.
  - apply (proj1 (parseInt_toString (Int (-1200))) (-1200)).
    + reflexivity.
    + reflexivity.
  - apply (proj2 (parseInt_toString (Infinity false))).
    right. exists false. reflexivity.
Defined.

(** ** The form built by the page, as the route reads it *)

Lemma toString_nonempty (z : Z) :
  String.eqb (Page.toString (Int z)) "" = false.
Proof.
  destruct z as [| p | p]; simpl; try reflexivity.
  unfold DecimalString.NilZero.string_of_uint.
  destruct (Pos.to_uint p); reflexivity.
Qed.

Lemma prefix_append (s t : string) : String.prefix s (s ++ t) = true.
Proof.
  induction s as [|a s IH]; simpl; [now destruct t |].
  destruct (ascii_dec a a); [exact IH | congruence].
Qed.

Lemma collect_files_image_entries (l : list Page.ImageData) (k : Z) :
  Server.collect_files (Page.image_entries k l)
  = map (fun d => Page.content (Page.file d)) l.
Proof.
  revert k. induction l as [|d l IH]; intros k; [reflexivity |].
  cbn [Page.image_entries Server.collect_files map].
  now rewrite prefix_append, IH.
Qed.

Lemma collect_files_formData (s : Page.State) :
  Server.collect_files (Page.formData s) = uploaded s.
Proof.
  unfold Page.formData, Page.optional_entry, uploaded.
  destruct (Page.resizeWidth s), (Page.resizeHeight s);
    cbn [app Server.collect_files]; apply collect_files_image_entries.
Qed.

Lemma get_formData (s : Page.State) :
  Server.get "alignmentMode" (Page.formData s)
  = Server.Str (Client.mode_string (Page.alignmentMode s)) /\
  Server.get "gridRows" (Page.formData s)
  = Server.Str (Page.toString (Page.gridRows s)) /\
  Server.get "gridCols" (Page.formData s)
  = Server.Str (Page.toString (Page.gridCols s)) /\
  Server.get "alignDimension" (Page.formData s)
  = Server.Str (Page.dimension_string (Page.alignDimension s)) /\
  Server.get "resizeWidth" (Page.formData s)
  = match Page.resizeWidth s with
    | None => Server.null
    | Some n => Server.Str (Page.toString n)
    end /\
  Server.get "resizeHeight" (Page.formData s)
  = match Page.resizeHeight s with
    | None => Server.null
    | Some n => Server.Str (Page.toString n)
    end.
Proof.
  assert (Hnone : forall l k name,
    String.prefix "image-" name = false ->
    Server.get name (Page.image_entries k l) = Server.null).
  { induction l as [|d l IH]; intros k name Hname; [reflexivity |].
    cbn [Page.image_entries Server.get].
    destruct (String.eqb_spec ("image-" ++ Page.toString (Int k)) name)
      as [<- | _]; [| now apply IH].
    rewrite prefix_append in Hname. discriminate. }
  unfold Page.formData, Page.optional_entry.
  destruct (Page.resizeWidth s), (Page.resizeHeight s);
    repeat split; try reflexivity;
    cbn [app Server.get String.eqb Ascii.eqb Bool.eqb];
    now apply Hnone.
Qed.

Lemma grid_parameter_read (s : Page.State) (r c : Z) :
  Page.gridRows s = Int r -> Page.gridCols s = Int c ->
  r <> 0 -> c <> 0 ->
  Server.grid_parameter "gridRows" (Page.formData s) = Int r /\
  Server.grid_parameter "gridCols" (Page.formData s) = Int c.
Proof.
  intros Hr Hc Hr0 Hc0.
  destruct (get_formData s) as (_ & Er & Ec & _).
  unfold Server.grid_parameter. rewrite Er, Ec, Hr, Hc.
  cbn [Server.toString]. rewrite !parseInt_decimal.
  unfold or_else, truthy.
  apply Z.eqb_neq in Hr0, Hc0. now rewrite Hr0, Hc0.
Qed.

(** X11.  The route reads from the form exactly what the page holds:
    the alignment mode, the alignment dimension, the files in the order
    of the images, the rows and columns when they are non-zero integers,
    and each resize dimension, absent when the field is empty and
    otherwise parsed back to the integer of the state (integers below
    10^21 in magnitude, which are written in plain digits). *)
Theorem route_reads_the_page (s : Page.State) :
  Server.get "alignmentMode" (Page.formData s)
  = Server.Str (Client.mode_string (Page.alignmentMode s)) /\
  Server.get "alignDimension" (Page.formData s)
  = Server.Str (Page.dimension_string (Page.alignDimension s)) /\
  Server.collect_files (Page.formData s) = uploaded s /\
  (forall r, Page.gridRows s = Int r -> r <> 0 -> Z.abs r < 10 ^ 21 ->
     Server.grid_parameter "gridRows" (Page.formData s) = Int r) /\
  (forall c, Page.gridCols s = Int c -> c <> 0 -> Z.abs c < 10 ^ 21 ->
     Server.grid_parameter "gridCols" (Page.formData s) = Int c) /\
  (Page.resizeWidth s = None ->
   Server.given (Server.get "resizeWidth" (Page.formData s)) = false) /\
  (Page.resizeHeight s = None ->
   Server.given (Server.get "resizeHeight" (Page.formData s)) = false) /\
  (forall z, Page.resizeWidth s = Some (Int z) -> Z.abs z < 10 ^ 21 ->
     Server.given (Server.get "resizeWidth" (Page.formData s)) = true /\
     parseInt (Server.toString
                 (Server.get "resizeWidth" (Page.formData s))) = Int z) /\
  (forall z, Page.resizeHeight s = Some (Int z) -> Z.abs z < 10 ^ 21 ->
     Server.given (Server.get "resizeHeight" (Page.formData s)) = true /\
     parseInt (Server.toString
                 (Server.get "resizeHeight" (Page.formData s))) = Int z).
Proof.
  destruct (get_formData s) as (Em & Er & Ec & Ea & Ew & Eh).
  split; [exact Em |]. split; [exact Ea |].
  split; [apply collect_files_formData |].
  split; [| split].
  - intros r Hr Hr0 _. unfold Server.grid_parameter. rewrite Er, Hr.
    cbn [Server.toString]. rewrite parseInt_decimal.
    unfold or_else, truthy. apply Z.eqb_neq in Hr0. now rewrite Hr0.
  - intros c Hc Hc0 _. unfold Server.grid_parameter. rewrite Ec, Hc.
    cbn [Server.toString]. rewrite parseInt_decimal.
    unfold or_else, truthy. apply Z.eqb_neq in Hc0. now rewrite Hc0.
  - rewrite Ew, Eh.
    split; [now intros -> |]. split; [now intros -> |].
    split; intros z -> _; cbn [Server.given Server.toString];
      rewrite toString_nonempty, parseInt_decimal; now split.
Qed.

Lemma route_reads_the_page_witness :
  Server.grid_parameter "gridRows" (Page.formData sample_state) = Int 3 /\
  Server.grid_parameter "gridCols" (Page.formData sample_state) = Int 2 /\
  parseInt (Server.toString
              (Server.get "resizeWidth" (Page.formData sample_state)))
  = Int 50 /\
  Server.given (Server.get "resizeHeight" (Page.formData sample_state))
  = false.
Proof.
  destruct (route_reads_the_page sample_state)
    as (_ & _ & _ & Hr & Hc & _ & Hh & Hw & _).
  split; [apply Hr; [reflexivity | lia | reflexivity] |].
  split; [apply Hc; [reflexivity | lia | reflexivity] |].
  split; [apply (Hw 50); reflexivity |].
  apply Hh. reflexivity.
Defined.

(** ** The inputs of the page *)




(** X13.  Whatever is typed in a resize input, the page stores either
    the empty value or a number that is neither NaN nor 0; what it
    stores is the number the text parses to, so that a non-zero integer
    is stored as typed, a negative one included; and the empty value is
    stored exactly when the text parses to NaN or to 0. *)
Theorem resize_input_stored (value : string) :
  (Page.resizeChange value = None \/
   exists n, Page.resizeChange value = Some n /\ truthy n = true) /\
  (forall n, Page.resizeChange value = Some n -> parseInt value = n) /\
  (forall z, parseInt value = Int z -> z <> 0 ->
     Page.resizeChange value = Some (Int z)) /\
  (Page.resizeChange value = None <->
   parseInt value = NaN \/ parseInt value = Int 0).
Proof.
  unfold Page.resizeChange.
  assert (Hempty : String.eqb value "" = true -> parseInt value = NaN).
  { intros E. apply String.eqb_eq in E. now subst. }
  destruct (String.eqb value "") eqn:E.
  - rewrite (Hempty eq_refl). split; [now left |].
    split; [discriminate |]. split; [discriminate |]. split; auto.
  - destruct (parseInt value) as [n | negative |]; simpl.
    + destruct (Z.eqb_spec n 0) as [-> | Hn]; simpl.
      * split; [now left |]. split; [discriminate |].
        split; [intros z [= <-]; congruence |]. split; auto.
      * split; [right; eexists; split; [reflexivity |]; simpl;
                now apply negb_true_iff, Z.eqb_neq |].
        split; [now intros m [= <-] |].
        split; [now intros z [= <-] |].
        split; [discriminate |]. intros [H | H]; congruence.
    + split; [right; eauto |]. split; [now intros m [= <-] |].
      split; [discriminate |].
      split; [discriminate |]. intros [H | H]; discriminate.
    + split; [now left |]. split; [discriminate |].
      split; [discriminate |]. split; auto.
Qed.

Lemma resize_input_stored_witness :
  Page.resizeChange "-5" = Some (Int (-5)).
Proof.
  apply (proj1 (proj2 (proj2 (resize_input_stored "-5")))).
  - reflexivity.
  - lia.
Defined.

(** ** The dispatch of a merge *)

Lemma POST_rejects_resize (formData : Server.FormData) :
  Server.collect_files formData <> [] ->
  not_positive (Server.get "resizeWidth" formData) \/
  not_positive (Server.get "resizeHeight" formData) ->
  snd (Server.POST formData) = Server.Json 500 "Failed to merge images".
Proof.
  intros Hne Hbad. unfold Server.POST.
  destruct (Server.collect_files formData) as [|b bs]; [congruence |].
  simpl Nat.eqb. cbv iota.
  assert (Hpass : exists message,
    snd (Server.processedImages formData (b :: bs)) = Sharp.Throw message).
  { unfold Server.processedImages.
    rewrite (bind_ok _ _ _ (f_equal snd (first_pass_all (b :: bs)))).
    cbn [snd].
    set (tw := Server.targetWidth _ _). set (th := Server.targetHeight _ _).
    clearbody tw th.
    destruct (plan_rejects (Server.get "resizeWidth" formData)
                (Server.get "resizeHeight" formData) tw th b Hbad)
      as [m Em].
    exists m.
    now rewrite (all_throw_first _ _ _ _ (process_throw _ _ _ _ _ _ Em)). }
  destruct Hpass as [m Em]. unfold Server.merge.
  now rewrite (bind_throw _ _ m Em).
Qed.

Lemma resize_entry_read (s : Page.State) (z : Z) :
  (Page.resizeWidth s = Some (Int z) ->
   Server.given (Server.get "resizeWidth" (Page.formData s)) = true /\
   parseInt (Server.toString
               (Server.get "resizeWidth" (Page.formData s))) = Int z) /\
  (Page.resizeHeight s = Some (Int z) ->
   Server.given (Server.get "resizeHeight" (Page.formData s)) = true /\
   parseInt (Server.toString
               (Server.get "resizeHeight" (Page.formData s))) = Int z).
Proof.
  destruct (get_formData s) as (_ & _ & _ & _ & Ew & Eh).
  rewrite Ew, Eh.
  split; intros ->; cbn [Server.given Server.toString];
    rewrite toString_nonempty, parseInt_decimal; now split.
Qed.

Lemma images_uploaded (s : Page.State) :
  Page.images s <> [] -> uploaded s <> [].
Proof. unfold uploaded. destruct (Page.images s); simpl; congruence. Qed.

(** For a state without resize and alignment, whose rows and columns are
    at least 1 and whose image elements have the dimensions of the
    oriented files, the route answers the form of the page with the
    canvas and the offsets the page computes for the browser. *)
Lemma server_layout_of_page (s : Page.State) (r c : Z) :
  Page.images s <> [] -> plain s ->
  Page.gridRows s = Int r -> Page.gridCols s = Int c ->
  1 <= r -> 1 <= c ->
  (forall d, In d (Page.images s) ->
     (0 < Sharp.width (Sharp.header (Page.content (Page.file d))) /\
      0 < Sharp.height (Sharp.header (Page.content (Page.file d)))) /\
     Page.img d = element_of (Sharp.oriented (Page.content (Page.file d)))) ->
  exists (cw ch : number) (ops : list Server.CompositeOp),
    snd (Server.POST (Page.formData s)) = Server.Png cw ch ops /\
    Client.canvas (Page.alignmentMode s) (Page.gridRows s) (Page.gridCols s)
      (map Page.img (Page.images s)) = (cw, ch) /\
    map op_offset ops
    = map draw_offset
        (Client.draws (Page.alignmentMode s) (Page.gridCols s)
           (map Page.img (Page.images s))).
Proof.
  intros Hne (Halign & Hrw & Hrh) Hr Hc Hr1 Hc1 Himgs.
  set (fd := Page.formData s).
  set (ds := map Sharp.oriented (uploaded s)).
  destruct (get_formData s) as (Em & _ & _ & Ea & Ew & Eh).
  rewrite Halign in Ea. rewrite Hrw in Ew. rewrite Hrh in Eh.
  destruct (grid_parameter_read s r c Hr Hc) as [Gr Gc]; try lia.
  assert (Hfiles : Server.collect_files fd = uploaded s)
    by apply collect_files_formData.
  assert (Helements : map Page.img (Page.images s) = map element_of ds).
  { unfold ds, uploaded. rewrite !map_map. apply map_ext_in.
    intros d Hd. apply Himgs, Hd. }
  assert (Hprocessed :
    snd (Server.processedImages fd (Server.collect_files fd))
    = Sharp.Ok (map processed_of ds)).
  { rewrite Hfiles. unfold Server.processedImages. fold fd.
    rewrite (bind_ok _ _ _ (f_equal snd (first_pass_all (uploaded s)))).
    cbn [snd]. unfold fd. rewrite Ea, Ew, Eh.
    change (Server.targetWidth (Server.Str (Page.dimension_string Page.none))
              (map Sharp.header (uploaded s))) with (@None number).
    change (Server.targetHeight (Server.Str (Page.dimension_string Page.none))
              (map Sharp.header (uploaded s))) with (@None number).
    unfold ds. rewrite map_map.
    apply (all_map _ (fun b => processed_of (Sharp.oriented b))).
    intros b. now rewrite process_oriented. }
  destruct (layouts_agree (Page.alignmentMode s) (Int r) (Int c) ds)
    as [Hcanvas Hoffsets].
  assert (Hpositive : positive_canvas
    (Server.canvas (Server.Str (Client.mode_string (Page.alignmentMode s)))
       (Int r) (Int c) (map processed_of ds))).
  { apply canvas_positive.
    - apply map_nonempty. unfold ds. apply map_nonempty.
      now apply images_uploaded.
    - intros img Hin. apply in_map_iff in Hin as (d & <- & Hd).
      unfold ds, uploaded in Hd. rewrite map_map in Hd.
      apply in_map_iff in Hd as (i & <- & Hi). simpl.
      apply oriented_positive. apply Himgs, Hi.
    - destruct (Page.alignmentMode s); simpl; auto.
      right; right. split; [reflexivity |]. exists r, c.
      repeat split; lia. }
  destruct Hpositive as (w & h & Ewh & Hw & Hh).
  exists (Int w), (Int h). eexists. split; [| split].
  - apply (POST_ok fd (map processed_of ds) (Int w) (Int h)).
    + rewrite Hfiles. now apply images_uploaded.
    + exact Hprocessed.
    + unfold fd. now rewrite Em, Gr, Gc.
    + unfold Sharp.create. apply Z.ltb_lt in Hw, Hh. now rewrite Hw, Hh.
    + apply composite_accepts.
  - now rewrite Helements, Hr, Hc, <- Hcanvas.
  - unfold fd. now rewrite Em, Gc, Helements, Hc.
Qed.

Lemma calls_viaServer (before : list Page.Call) (s : Page.State) :
  Page.calls (Page.viaServer before s)
  = (before ++ [Page.ServerCall (Page.formData s)])%list.
Proof. unfold Page.viaServer. now destruct (Page.mergeImagesServer s). Qed.

Section Dispatch.

Variable context : bool.
Variable assigned : number -> number.
Variable dataUrl_length : number -> number -> list Client.DrawImage -> Z.

(** X14.  A negative resize width or height, which the resize inputs
    accept, never reaches the browser pipeline: the merge goes to the
    server once, the route refuses it, and the page shows the alert
    "Error merging images: Failed to merge images" and keeps the merged
    image it had. *)
Theorem negative_resize_alerts (s : Page.State) (z : Z) :
  Page.images s <> [] ->
  Page.resizeWidth s = Some (Int z) \/ Page.resizeHeight s = Some (Int z) ->
  - 10 ^ 21 < z < 0 ->
  Page.mergeImages context assigned dataUrl_length s
  = {| Page.calls := [Page.ServerCall (Page.formData s)];
       Page.after := Page.setIsProcessing false s;
       Page.alert :=
         Some "Error merging images: Failed to merge images" |}.
Proof.
  intros Hne Hresize Hz.
  assert (Hpost : snd (Server.POST (Page.formData s))
                  = Server.Json 500 "Failed to merge images").
  { apply POST_rejects_resize.
    - rewrite collect_files_formData. now apply images_uploaded.
    - destruct (resize_entry_read s z) as [Hw Hh].
      destruct Hresize as [E | E]; [left | right]; unfold not_positive.
      + destruct (Hw E) as [G P]. split; [exact G |].
        intros n Hn. rewrite P in Hn. injection Hn as <-. lia.
      + destruct (Hh E) as [G P]. split; [exact G |].
        intros n Hn. rewrite P in Hn. injection Hn as <-. lia. }
  assert (Hserver : Page.viaServer [] s
    = {| Page.calls := [Page.ServerCall (Page.formData s)];
         Page.after := Page.setIsProcessing false s;
         Page.alert :=
           Some "Error merging images: Failed to merge images" |}).
  { unfold Page.viaServer, Page.mergeImagesServer. rewrite Hpost.
    reflexivity. }
  unfold Page.mergeImages.
  destruct (Page.images s) as [|d l] eqn:Ei; [congruence |].
  simpl Nat.eqb. cbv iota.
  destruct (Client.canvas _ _ _ _) as [w h].
  destruct Hresize as [-> | ->]; rewrite ?orb_true_r; simpl orb;
    rewrite ?orb_true_r; cbv iota; exact Hserver.
Qed.

(** X15.  With at least one image, the browser pipeline is tried
    exactly when the state asks for no resize and no alignment and the
    expected canvas does not exceed 268435456 pixels; in every other
    case the merge goes to the server alone. *)
Theorem browser_tried_iff_plain_and_small (s : Page.State) :
  Page.images s <> [] ->
  (In Page.ClientCall
      (Page.calls (Page.mergeImages context assigned dataUrl_length s))
   <-> plain s /\ small s) /\
  (~ (plain s /\ small s) ->
   Page.calls (Page.mergeImages context assigned dataUrl_length s)
   = [Page.ServerCall (Page.formData s)]).
Proof.
  intros Hne. unfold Page.mergeImages, plain, small.
  destruct (Page.images s) as [|d l] eqn:Ei; [congruence |].
  simpl Nat.eqb. cbv iota. rewrite <- Ei.
  destruct (Client.canvas _ _ _ _) as [w h]. cbn [fst snd].
  destruct (Page.gt (mul w h) (Int Page.MAX_CANVAS_AREA)) eqn:Egt;
    cbn [orb].
  { rewrite calls_viaServer. cbn [app]. split; [| reflexivity].
    split; [intros [H | []]; discriminate | intros [_ H]; discriminate]. }
  destruct (Page.alignDimension s) eqn:Ea; cbn [orb];
    try (rewrite calls_viaServer; cbn [app];
         split; [| reflexivity];
         split; [intros [H | []]; discriminate
                | intros [(H & _) _]; discriminate]).
  destruct (Page.resizeWidth s) eqn:Ew; cbn [orb];
    try (rewrite calls_viaServer; cbn [app];
         split; [| reflexivity];
         split; [intros [H | []]; discriminate
                | intros [(_ & H & _) _]; discriminate]).
  destruct (Page.resizeHeight s) eqn:Eh; cbn [orb];
    try (rewrite calls_viaServer; cbn [app];
         split; [| reflexivity];
         split; [intros [H | []]; discriminate
                | intros [(_ & _ & H) _]; discriminate]).
  split.
  - split; [auto |]. intros _.
    destruct (Client.mergeImagesClient _ _ _ _ _ _ _); cbn [Page.calls];
      [now left |]. rewrite calls_viaServer. now left.
  - intros H. exfalso. apply H. auto.
Qed.

(** X16.  The fallback draws what the browser would have drawn.  For a
    state without resize and alignment, whose rows and columns are at
    least 1 and whose image elements have the dimensions of the oriented
    files, when the canvas is small enough for the browser pipeline to
    be tried and that pipeline raises, the merge goes on to the server,
    no alert is shown, and the image the route answers with has the
    canvas size and the offsets the page computed for the browser. *)
Theorem fallback_same_layout (s : Page.State) (r c : Z) (message : string) :
  Page.images s <> [] -> plain s -> small s ->
  Page.gridRows s = Int r -> Page.gridCols s = Int c ->
  1 <= r < 10 ^ 21 -> 1 <= c < 10 ^ 21 ->
  (forall d, In d (Page.images s) ->
     (0 < Sharp.width (Sharp.header (Page.content (Page.file d))) /\
      0 < Sharp.height (Sharp.header (Page.content (Page.file d)))) /\
     Page.img d = element_of (Sharp.oriented (Page.content (Page.file d)))) ->
  Client.mergeImagesClient context assigned dataUrl_length
    (Page.alignmentMode s) (Page.gridRows s) (Page.gridCols s)
    (map Page.img (Page.images s)) = Sharp.Throw message ->
  exists (cw ch : number) (ops : list Server.CompositeOp),
    Page.mergeImages context assigned dataUrl_length s
    = {| Page.calls := [Page.ClientCall;
                        Page.ServerCall (Page.formData s)];
         Page.after :=
           Page.setIsProcessing false
             (Page.setMergedImage
                (Some (Page.BlobUrl (Server.Png cw ch ops))) s);
         Page.alert := None |} /\
    Client.canvas (Page.alignmentMode s) (Page.gridRows s) (Page.gridCols s)
      (map Page.img (Page.images s)) = (cw, ch) /\
    map op_offset ops
    = map draw_offset
        (Client.draws (Page.alignmentMode s) (Page.gridCols s)
           (map Page.img (Page.images s))).
Proof.
  intros Hne Hplain Hsmall Hr Hc [Hr1 _] [Hc1 _] Himgs Hclient.
  destruct (server_layout_of_page s r c Hne Hplain Hr Hc Hr1 Hc1 Himgs)
    as (cw & ch & ops & Hpost & Hcanvas & Hoffsets).
  exists cw, ch, ops. split; [| split; assumption].
  destruct Hplain as (Ha & Hw & Hh).
  unfold small in Hsmall. unfold Page.mergeImages.
  destruct (Page.images s) as [|d l] eqn:Ei; [congruence |].
  simpl Nat.eqb. cbv iota. rewrite <- Ei in *.
  rewrite Hclient. rewrite Hcanvas in *. cbn [fst snd] in Hsmall.
  rewrite Hsmall, Ha, Hw, Hh. cbn [orb].
  unfold Page.viaServer, Page.mergeImagesServer. rewrite Hpost.
  reflexivity.
Qed.

End Dispatch.

Lemma negative_resize_alerts_witness :
  Page.alert
    (Page.mergeImages true (fun n => n) (fun _ _ _ => 1000) negative_state)
  = Some "Error merging images: Failed to merge images".
Proof.
  rewrite (negative_resize_alerts true (fun n => n) (fun _ _ _ => 1000)
             negative_state (-5)).
  - reflexivity.
  - discriminate.
  - left. reflexivity.
  - lia.
Defined.

Lemma browser_tried_iff_plain_and_small_witness :
  In Page.ClientCall
    (Page.calls
       (Page.mergeImages true (fun n => n) (fun _ _ _ => 1000) plain_state))
  /\
  Page.calls
    (Page.mergeImages true (fun n => n) (fun _ _ _ => 1000) negative_state)
  = [Page.ServerCall (Page.formData negative_state)].
Proof.
  split.
  - apply (proj1 (browser_tried_iff_plain_and_small true (fun n => n)
                    (fun _ _ _ => 1000) plain_state ltac:(discriminate))).
    split; [repeat split | reflexivity].
  - apply (proj2 (browser_tried_iff_plain_and_small true (fun n => n)
                    (fun _ _ _ => 1000) negative_state
                    ltac:(discriminate))).
    intros [(_ & H & _) _]. discriminate.
Defined.

Lemma fallback_same_layout_witness :
  exists (cw ch : number) (ops : list Server.CompositeOp),
    Page.calls
      (Page.mergeImages false (fun n => n) (fun _ _ _ => 1000) plain_state)
    = [Page.ClientCall; Page.ServerCall (Page.formData plain_state)] /\
    Client.canvas Client.horizontal (Int 2) (Int 2)
      (map Page.img (Page.images plain_state)) = (cw, ch) /\
    map op_offset ops
    = map draw_offset
        (Client.draws Client.horizontal (Int 2)
           (map Page.img (Page.images plain_state))).
Proof.
  destruct (fallback_same_layout false (fun n => n) (fun _ _ _ => 1000)
              plain_state 2 2 "Could not get canvas context")
    as (cw & ch & ops & Hrun & Hcanvas & Hoffsets).
  - discriminate.
  - repeat split.
  - reflexivity.
  - reflexivity.
  - reflexivity.
  - lia.
  - lia.
  - intros d [<- | [<- | []]]; simpl; repeat split; lia.
  - reflexivity.
  - exists cw, ch, ops. rewrite Hrun. repeat split; assumption.
Defined.

(** ** The list of images of the page *)

Lemma filter_index_beyond (index k : nat) (l : list Page.ImageData) :
  (index < k)%nat -> Page.filter_index index k l = l.
Proof.
  revert k. induction l as [|x l IH]; intros k Hk; simpl; [reflexivity |].
  destruct (Nat.eqb_spec k index); [lia |]. rewrite IH by lia. reflexivity.
Qed.

Lemma filter_index_at (i k : nat) (l : list Page.ImageData) :
  Page.filter_index (k + i) k l = (firstn i l ++ skipn (S i) l)%list.
Proof.
  revert i k. induction l as [|x l IH]; intros i k; simpl.
  - now destruct i.
  - destruct i as [|i].
    + rewrite Nat.add_0_r, Nat.eqb_refl. apply filter_index_beyond. lia.
    + destruct (Nat.eqb_spec k (k + S i)); [lia |].
      replace (k + S i)%nat with (S k + i)%nat by lia.
      rewrite IH. reflexivity.
Qed.

(** X17.  Removing the image at a position that exists revokes the URL
    of that image and leaves the other images in their order, one image
    fewer; at a position past the end the removal raises and the state
    is not changed. *)
Theorem removeImage_removes_one (index : nat) (s : Page.State) :
  (forall d, nth_error (Page.images s) index = Some d ->
     exists s',
       Page.removeImage index s = Sharp.Ok (Page.url d, s') /\
       Page.images s'
       = (firstn index (Page.images s)
          ++ skipn (S index) (Page.images s))%list /\
       S (List.length (Page.images s')) = List.length (Page.images s) /\
       forall j e, nth_error (Page.images s') j = Some e ->
                   nth_error (Page.images s)
                     (if (j <? index)%nat then j else S j) = Some e) /\
  ((List.length (Page.images s) <= index)%nat ->
   Page.removeImage index s = Sharp.Throw "TypeError").
Proof.
  unfold Page.removeImage. split.
  - intros d Hd. rewrite Hd. eexists. split; [reflexivity |].
    cbn [Page.images Page.setImages].
    rewrite (filter_index_at index 0 (Page.images s) : 
               Page.filter_index index 0 (Page.images s) = _).
    assert (Hlt : (index < List.length (Page.images s))%nat).
    { apply nth_error_Some. congruence. }
    split; [reflexivity |]. split.
    + rewrite length_app, length_firstn, length_skipn. lia.
    + intros j e Hj.
      destruct (Nat.ltb_spec j index) as [L | L].
      * rewrite nth_error_app1 in Hj
          by (rewrite length_firstn; lia).
        rewrite nth_error_firstn in Hj.
        destruct (Nat.ltb_spec j index); [exact Hj | lia].
      * rewrite nth_error_app2 in Hj by (rewrite length_firstn; lia).
        rewrite length_firstn, nth_error_skipn in Hj.
        rewrite <- Hj. f_equal. lia.
  - intros Hge. apply nth_error_None in Hge. now rewrite Hge.
Qed.

Lemma removeImage_removes_one_witness :
  exists s',
    Page.removeImage 0 sample_state
    = Sharp.Ok (Page.url (sample_image 100 50), s') /\
    Page.images s' = [sample_image 80 60].
Proof.
  destruct (proj1 (removeImage_removes_one 0 sample_state)
              (sample_image 100 50) eq_refl) as (s' & E & Hi & _).
  exists s'. split; [exact E | exact Hi].
Defined.

Section Files.

Variable loaded : Page.File -> option Client.HTMLImageElement.
Variable createObjectURL : Page.File -> string.
Variable element : Page.File -> Client.HTMLImageElement.

Lemma newImages_loaded (files : list Page.File) :
  (forall f, In f files -> is_image f = true ->
             loaded f = Some (element f)) ->
  Page.newImages loaded createObjectURL files
  = Some (map (loaded_image createObjectURL element)
            (filter is_image files)).
Proof.
  induction files as [|f files IH]; intros H; [reflexivity |].
  cbn [Page.newImages filter]. fold (is_image f).
  destruct (is_image f) eqn:E; cbn [negb].
  - rewrite (H f (or_introl eq_refl) E), IH; [reflexivity |].
    intros g Hg. apply H. now right.
  - apply IH. intros g Hg. apply H. now right.
Qed.

Lemma newImages_stuck (files : list Page.File) (f : Page.File) :
  In f files -> is_image f = true -> loaded f = None ->
  Page.newImages loaded createObjectURL files = None.
Proof.
  induction files as [|g files IH]; intros Hin Hf Hl; [destruct Hin |].
  cbn [Page.newImages]. fold (is_image g).
  destruct Hin as [-> | Hin].
  - now rewrite Hf, Hl.
  - destruct (is_image g); cbn [negb]; [| now apply IH].
    destruct (loaded g); [| reflexivity]. now rewrite IH.
Qed.

(** X18.  Choosing files appends to the images of the page the chosen
    files whose type starts with [image/], in their order, after the
    images already there, and skips the other files; when one of those
    images never finishes loading, the handler never completes and the
    list of images is never updated. *)
Theorem handleFileSelect_appends (files : list Page.File)
  (s : Page.State) :
  ((forall f, In f files -> is_image f = true ->
              loaded f = Some (element f)) ->
   Page.handleFileSelect loaded createObjectURL (Some files) s
   = Some (Page.setImages
             (Page.images s
              ++ map (loaded_image createObjectURL element)
                   (filter is_image files))%list s)) /\
  (forall f, In f files -> is_image f = true -> loaded f = None ->
   Page.handleFileSelect loaded createObjectURL (Some files) s = None).
Proof.
  unfold Page.handleFileSelect. split.
  - intros H. now rewrite (newImages_loaded files H).
  - intros f Hin Hf Hl. now rewrite (newImages_stuck files f Hin Hf Hl).
Qed.

End Files.

Lemma handleFileSelect_appends_witness :
  let element := fun _ : Page.File =>
                   {| Client.width := 100; Client.height := 50 |} in
  let file := Page.file (sample_image 100 50) in
  Page.handleFileSelect (fun f => Some (element f)) (fun _ => "blob:sample")
    (Some [notes; file]) Page.initial
  = Some (Page.setImages [sample_image 100 50] Page.initial).
Proof.
  intros element file.
  apply (proj1 (handleFileSelect_appends (fun f => Some (element f))
                  (fun _ => "blob:sample") element [notes; file]
                  Page.initial)).
  reflexivity.
Defined.

(** ** The browser pipeline and its canvas *)

Section Canvas.

Variable context : bool.
Variable assigned : number -> number.
Variable dataUrl_length : number -> number -> list Client.DrawImage -> Z.

Lemma strict_eq_assigned (n : number) :
  Client.strict_eq (assigned n) (Int 0) = false ->
  Client.strict_eq (assigned n) n = true ->
  n <> Int 0 /\ n <> NaN.
Proof.
  intros Hzero Hsame. split; intros ->.
  - congruence.
  - destruct (assigned NaN); discriminate.
Qed.

(** X19.  The browser pipeline never hands over a canvas of width or
    height 0, nor one whose side is NaN or differs from what the canvas
    element reports, nor a data URL shorter than 100 characters: in each
    of these cases it raises.  In particular it raises on an empty list
    of images in the horizontal and the vertical modes, whatever the
    browser. *)
Theorem mergeImagesClient_guards (mode : Client.AlignmentMode)
  (rows cols : number) (images : list Client.HTMLImageElement) :
  (forall m,
     Client.mergeImagesClient context assigned dataUrl_length
       mode rows cols images = Sharp.Ok m ->
     context = true /\
     Client.canvasWidth m <> Int 0 /\ Client.canvasWidth m <> NaN /\
     Client.canvasHeight m <> Int 0 /\ Client.canvasHeight m <> NaN /\
     Client.strict_eq (assigned (Client.canvasWidth m))
       (Client.canvasWidth m) = true /\
     Client.strict_eq (assigned (Client.canvasHeight m))
       (Client.canvasHeight m) = true /\
     100 <= dataUrl_length (Client.canvasWidth m) (Client.canvasHeight m)
              (Client.drawn m)) /\
  (images = [] -> mode <> Client.grid ->
   exists message,
     Client.mergeImagesClient context assigned dataUrl_length
       mode rows cols images = Sharp.Throw message).
Proof.
  unfold Client.mergeImagesClient. split.
  - intros m. destruct context; simpl negb; cbv iota; [| discriminate].
    destruct (Client.canvas mode rows cols images) as [w h].
    destruct (Client.strict_eq (assigned w) (Int 0)) eqn:Ew0;
      [discriminate |].
    destruct (Client.strict_eq (assigned h) (Int 0)) eqn:Eh0;
      [discriminate |].
    destruct (Client.strict_eq (assigned w) w) eqn:Ew; [| discriminate].
    destruct (Client.strict_eq (assigned h) h) eqn:Eh; [| discriminate].
    simpl orb. cbv iota.
    destruct (Z.ltb_spec (dataUrl_length w h (Client.draws mode cols images))
                100) as [L | L]; [discriminate |].
    intros E. injection E as <-. simpl.
    destruct (strict_eq_assigned w Ew0 Ew) as [W0 WN].
    destruct (strict_eq_assigned h Eh0 Eh) as [H0 HN].
    repeat split; assumption.
  - intros -> Hmode. destruct context; simpl negb; cbv iota; [| eauto].
    destruct mode; [| | congruence];
      [ change (Client.canvas Client.horizontal rows cols [])
          with (Int 0, Infinity true)
      | change (Client.canvas Client.vertical rows cols [])
          with (Infinity true, Int 0) ];
      cbv beta iota zeta;
      repeat match goal with
             | |- context [Client.strict_eq ?a ?b] =>
                 destruct (Client.strict_eq a b)
             end; simpl; eauto.
Qed.

End Canvas.

Lemma mergeImagesClient_guards_witness :
  exists message,
    Client.mergeImagesClient true (fun n => n) (fun _ _ _ => 1000)
      Client.horizontal (Int 2) (Int 2) [] = Sharp.Throw message.
Proof.
  apply (proj2 (mergeImagesClient_guards true (fun n => n)
                  (fun _ _ _ => 1000) Client.horizontal (Int 2) (Int 2) [])).
  - reflexivity.
  - discriminate.
Defined.

(** ** Canvases too large for the browser *)

Section Oversized.

Variable context : bool.
Variable assigned : number -> number.
Variable dataUrl_length : number -> number -> list Client.DrawImage -> Z.

(** X20.  For a state without resize and alignment, whose rows and
    columns are at least 1 and whose image elements have the dimensions
    of the oriented files, when the expected canvas exceeds 268435456
    pixels the merge goes to the server alone, no alert is shown, and the
    image the route answers with has exactly the canvas size the page
    expected and the offsets of the browser pipeline. *)
Theorem oversized_merged_by_server (s : Page.State) (r c : Z) :
  Page.images s <> [] -> plain s -> ~ small s ->
  Page.gridRows s = Int r -> Page.gridCols s = Int c ->
  1 <= r < 10 ^ 21 -> 1 <= c < 10 ^ 21 ->
  (forall d, In d (Page.images s) ->
     (0 < Sharp.width (Sharp.header (Page.content (Page.file d))) /\
      0 < Sharp.height (Sharp.header (Page.content (Page.file d)))) /\
     Page.img d = element_of (Sharp.oriented (Page.content (Page.file d)))) ->
  exists (cw ch : number) (ops : list Server.CompositeOp),
    Page.mergeImages context assigned dataUrl_length s
    = {| Page.calls := [Page.ServerCall (Page.formData s)];
         Page.after :=
           Page.setIsProcessing false
             (Page.setMergedImage
                (Some (Page.BlobUrl (Server.Png cw ch ops))) s);
         Page.alert := None |} /\
    Client.canvas (Page.alignmentMode s) (Page.gridRows s) (Page.gridCols s)
      (map Page.img (Page.images s)) = (cw, ch) /\
    map op_offset ops
    = map draw_offset
        (Client.draws (Page.alignmentMode s) (Page.gridCols s)
           (map Page.img (Page.images s))).
Proof.
  intros Hne Hplain Hlarge Hr Hc [Hr1 _] [Hc1 _] Himgs.
  destruct (server_layout_of_page s r c Hne Hplain Hr Hc Hr1 Hc1 Himgs)
    as (cw & ch & ops & Hpost & Hcanvas & Hoffsets).
  exists cw, ch, ops. split; [| split; assumption].
  unfold small in Hlarge. apply not_false_is_true in Hlarge.
  unfold Page.mergeImages.
  destruct (Page.images s) as [|d l] eqn:Ei; [congruence |].
  simpl Nat.eqb. cbv iota. rewrite <- Ei in *.
  rewrite Hcanvas in *. cbn [fst snd] in Hlarge.
  rewrite Hlarge. cbn [orb].
  unfold Page.viaServer, Page.mergeImagesServer. rewrite Hpost.
  reflexivity.
Qed.

End Oversized.

Lemma oversized_merged_by_server_witness :
  exists (ops : list Server.CompositeOp),
    Page.calls
      (Page.mergeImages true (fun n => n) (fun _ _ _ => 1000) large_state)
    = [Page.ServerCall (Page.formData large_state)] /\
    map op_offset ops = [(Int 0, Int 0)].
Proof.
  destruct (oversized_merged_by_server true (fun n => n)
              (fun _ _ _ => 1000) large_state 2 2)
    as (cw & ch & ops & Hrun & Hcanvas & Hoffsets).
  - discriminate.
  - repeat split.
  - unfold small. discriminate.
  - reflexivity.
  - reflexivity.
  - lia.
  - lia.
  - intros d [<- | []]; simpl; repeat split; lia.
  - exists ops. rewrite Hrun. split; [reflexivity | exact Hoffsets].
Defined.
